(** * Student-activity-to-observation plugin: text metrics, TSV parsing and
      the conversion pipeline.

    A shallow embedding of the utility functions and of the conversion loop
    of [src/main.ts], and of the older byte counter of
    [src/unnamed/part_000], followed by the properties of the specification
    that were checked against them.

    JavaScript strings are sequences of UTF-16 code units; they are modelled
    as lists of integers.  JavaScript numbers that hold counts are modelled
    as [Z]; the byte estimator, which computes with fractions, is modelled
    on IEEE 754 binary64 with the primitive floats of the kernel. *)

From Stdlib Require Import ZArith Lia List Bool.
From Stdlib Require Import Floats.
From Stdlib Require Import DecimalString.
From Stdlib Require DecimalZ.
From stdpp Require Import base list strings.

Local Open Scope Z_scope.

(* ===================================================================== *)
(** ** JavaScript strings                                                 *)
(* ===================================================================== *)

Module JS.

(** A string value: its UTF-16 code units, each in [0, 0xFFFF]. *)
Abbreviation jsstring := (list Z).

Definition TAB : Z := 9.
Definition LF : Z := 10.
Definition CR : Z := 13.
Definition SPACE : Z := 32.
Definition PIPE : Z := 124.
Definition BACKSLASH : Z := 92.

(** *** Literals

    Source literals are written in this file as UTF-8 text and decoded to
    the code units the TypeScript compiler gives them. *)

Definition cont (b : Z) : Z := Z.land b 0x3F.

Fixpoint utf8_code_points (bs : list Z) : list Z :=
  match bs with
  | [] => []
  | b0 :: r0 =>
    if b0 <? 0x80 then b0 :: utf8_code_points r0
    else match r0 with
    | [] => [b0]
    | b1 :: r1 =>
      if b0 <? 0xE0 then
        (Z.shiftl (Z.land b0 0x1F) 6 + cont b1) :: utf8_code_points r1
      else match r1 with
      | [] => [b0; b1]
      | b2 :: r2 =>
        if b0 <? 0xF0 then
          (Z.shiftl (Z.land b0 0x0F) 12 + Z.shiftl (cont b1) 6 + cont b2)
            :: utf8_code_points r2
        else match r2 with
        | [] => [b0; b1; b2]
        | b3 :: r3 =>
          (Z.shiftl (Z.land b0 0x07) 18 + Z.shiftl (cont b1) 12
           + Z.shiftl (cont b2) 6 + cont b3) :: utf8_code_points r3
        end
      end
    end
  end.

(** UTF-16 encoding of a code point: itself in the Basic Multilingual
    Plane, a surrogate pair above it. *)
Definition utf16_units (cp : Z) : list Z :=
  if cp <? 0x10000 then [cp]
  else [0xD800 + Z.shiftr (cp - 0x10000) 10;
        0xDC00 + Z.land (cp - 0x10000) 0x3FF].

Fixpoint bytes_of_string (s : string) : list Z :=
  match s with
  | EmptyString => []
  | String a s' => Z.of_N (Ascii.N_of_ascii a) :: bytes_of_string s'
  end.

Definition lit (s : string) : jsstring :=
  flat_map utf16_units (utf8_code_points (bytes_of_string s)).

(** *** String.prototype operations used by the plugin *)

(** [text.length] *)
Definition len (text : jsstring) : Z := Z.of_nat (length text).

(** [text.charAt(i)]: the one-unit string at index [i], the empty string
    out of range. *)
Definition charAt (text : jsstring) (i : nat) : jsstring :=
  match text !! i with
  | Some c => [c]
  | None => []
  end.

(** [text.charCodeAt(0)]; NaN (here [None]) for the empty string. *)
Definition charCodeAt0 (text : jsstring) : option Z := text !! 0%nat.

(** [a === b] on strings. *)
Definition streq (a b : jsstring) : bool := bool_decide (a = b).

(** WhiteSpace and LineTerminator code units, the ones [trim] strips. *)
Definition isWhiteSpace (c : Z) : bool :=
  (c =? 0x09) || (c =? 0x0A) || (c =? 0x0B) || (c =? 0x0C) || (c =? 0x0D)
  || (c =? 0x20) || (c =? 0xA0) || (c =? 0x1680)
  || ((0x2000 <=? c) && (c <=? 0x200A))
  || (c =? 0x2028) || (c =? 0x2029) || (c =? 0x202F) || (c =? 0x205F)
  || (c =? 0x3000) || (c =? 0xFEFF).

Fixpoint trimStart (s : jsstring) : jsstring :=
  match s with
  | [] => []
  | c :: s' => if isWhiteSpace c then trimStart s' else s
  end.

Definition trimEnd (s : jsstring) : jsstring := rev (trimStart (rev s)).

(** [s.trim()] *)
Definition trim (s : jsstring) : jsstring := trimEnd (trimStart s).

(** [s.split(sep)] for a one-unit separator: never empty, the empty
    string splits to one empty field. *)
Fixpoint split (sep : Z) (s : jsstring) : list jsstring :=
  match s with
  | [] => [[]]
  | c :: s' =>
    if c =? sep then [] :: split sep s'
    else match split sep s' with
         | field :: fields => (c :: field) :: fields
         | [] => [[c]]
         end
  end.

(** [parts.join(sep)] *)
Fixpoint join (sep : jsstring) (parts : list jsstring) : jsstring :=
  match parts with
  | [] => []
  | [p] => p
  | p :: ps => p ++ sep ++ join sep ps
  end.

(** [parts.slice(n)] *)
Definition slice_from {A} (n : nat) (parts : list A) : list A := drop n parts.

(** [s.replace(/c/g, by)] for a pattern matching single code units. *)
Definition replaceAll (matches : Z -> bool) (by_ : jsstring) (s : jsstring)
  : jsstring :=
  flat_map (fun c => if matches c then by_ else [c]) s.

(** *** The global [escape] function (ECMA-262, B.2.1.1) *)

Definition isUnescaped (c : Z) : bool :=
  ((0x41 <=? c) && (c <=? 0x5A))          (* A-Z *)
  || ((0x61 <=? c) && (c <=? 0x7A))       (* a-z *)
  || ((0x30 <=? c) && (c <=? 0x39))       (* 0-9 *)
  || (c =? 0x40) || (c =? 0x2A) || (c =? 0x5F) || (c =? 0x2B)   (* @*_+ *)
  || (c =? 0x2D) || (c =? 0x2E) || (c =? 0x2F).                 (* -./ *)

Definition hexDigit (d : Z) : Z := if d <? 10 then 0x30 + d else 0x41 + (d - 10).

Definition hex2 (n : Z) : jsstring :=
  [hexDigit (Z.land (Z.shiftr n 4) 15); hexDigit (Z.land n 15)].

Definition hex4 (n : Z) : jsstring :=
  [hexDigit (Z.land (Z.shiftr n 12) 15); hexDigit (Z.land (Z.shiftr n 8) 15);
   hexDigit (Z.land (Z.shiftr n 4) 15); hexDigit (Z.land n 15)].

Definition escapeUnit (c : Z) : jsstring :=
  if isUnescaped c then [c]
  else if c <? 256 then 0x25 :: hex2 c          (* %XX *)
  else 0x25 :: 0x75 :: hex4 c.                  (* %uXXXX *)

Definition escape (s : jsstring) : jsstring := flat_map escapeUnit s.

(** *** Number to string, as a template literal does it

    Counts are integers; below 10^21 in absolute value (every count of a
    string is) an integer prints as its decimal digits, with a minus sign
    when negative. *)
Definition numberToString (n : Z) : jsstring :=
  lit (NilZero.string_of_int (Z.to_int n)).

(** *** Loops *)

(** [for (let i = start; i < start + count; i++) state = body(i, state)] *)
Fixpoint for_from {S : Type} (start count : nat) (body : nat -> S -> S)
    (state : S) : S :=
  match count with
  | O => state
  | Datatypes.S k => for_from (Datatypes.S start) k body (body start state)
  end.

(** [for (let i = 0; i < n; i++) ...], the bound [n] being fixed during
    the loop. *)
Definition for_upto {S : Type} (n : nat) (body : nat -> S -> S) (state : S)
  : S := for_from 0 n body state.

(** [xs.length] of an array. *)
Definition len' {A : Type} (xs : list A) : Z := Z.of_nat (length xs).

(** [for (const x of xs) state = body(state, x)] over an array. *)
Definition for_of {S A : Type} (xs : list A) (body : S -> A -> S) (state : S)
  : S := fold_left body xs state.

(** The string iterator behind [for (const char of text)]: it walks by
    code point, so a high surrogate followed by a low surrogate comes out
    as one two-unit string. *)
Definition isHighSurrogate (c : Z) : bool := (0xD800 <=? c) && (c <=? 0xDBFF).
Definition isLowSurrogate (c : Z) : bool := (0xDC00 <=? c) && (c <=? 0xDFFF).

Fixpoint stringIterator (text : jsstring) : list jsstring :=
  match text with
  | [] => []
  | c :: rest =>
    match rest with
    | d :: rest' =>
      if isHighSurrogate c && isLowSurrogate d
      then [c; d] :: stringIterator rest'
      else [c] :: stringIterator rest
    | [] => [[c]]
    end
  end.

End JS.

Import JS.

(* ===================================================================== *)
(** ** Data model                                                         *)
(* ===================================================================== *)

Module StudentActivity.
Record t := make {
  studentId : jsstring;
  studentName : jsstring;
  activityContent : jsstring;
}.
End StudentActivity.

Module ObservationRecord.
Record t := make {
  studentId : jsstring;
  studentName : jsstring;
  activityContent : jsstring;
  observation : jsstring;
  charCount : Z;
  byteCount : Z;
}.
End ObservationRecord.

(* ===================================================================== *)
(** ** Utility functions of [src/main.ts]                                 *)
(* ===================================================================== *)

Module Main.

(** [countChars]: [text.length]. *)
Definition countChars (text : jsstring) : Z := len text.

(** One turn of the loop of [countBytes]. *)
Definition countBytes_body (text : jsstring) (i : nat) (bytes : Z) : Z :=
  let char := charAt text i in
  if streq char [LF] then bytes + 1
  else if 4 <? len (escape char) then bytes + 3
  else bytes + 1.

(** [countBytes]: the index loop over [text], [bytes] starting at 0. *)
Definition countBytes (text : jsstring) : Z :=
  for_upto (length text) (countBytes_body text) 0.

(** [Math.round] on a binary64 value: the nearest integer, ties towards
    +infinity; NaN, the infinities and integral values are returned as
    they are, and a result of zero keeps the sign of the argument. *)
Definition Math_round (x : float) : float :=
  match Prim2SF x with
  | S754_finite s m e =>
    if 0 <=? e then x
    else
      let d := 2 ^ (- e) in
      let n := (2 * (if s then Z.neg m else Z.pos m) + d) / (2 * d) in
      if n =? 0 then (if s then neg_zero else zero)
      else SF2Prim (binary_normalize prec emax n 0 false)
  | _ => x
  end.

(** [estimateBytes]: [Math.round(charCount * 0.8 * 3 + charCount * 0.2 * 1)]
    in binary64 arithmetic; the literals 0.8 and 0.2 denote the nearest
    binary64 values. *)
#[warnings="-inexact-float"] Definition estimateBytes (charCount : float) : float :=
  Math_round (charCount * 0.8 * 3 + charCount * 0.2 * 1)%float.

(** The array element [parts[i]] where the guard has checked the length. *)
Definition at_ (parts : list jsstring) (i : nat) : jsstring := parts !!! i.

(** One turn of the loop of [parseTSV]: [activities.push(...)] when the
    line has three fields or more. *)
Definition parseTSV_body (activities : list StudentActivity.t)
    (line : jsstring) : list StudentActivity.t :=
  let parts := split TAB line in
  if 3 <=? len' parts then
    activities ++
      [StudentActivity.make
         (trim (at_ parts 0))
         (trim (at_ parts 1))
         (trim (join [SPACE] (slice_from 2 parts)))]
  else activities.

(** [parseTSV] *)
Definition parseTSV (data : jsstring) : list StudentActivity.t :=
  let lines := split LF (trim data) in
  for_of lines parseTSV_body [].

Definition isPipe (c : Z) : bool := c =? PIPE.
Definition isNewline (c : Z) : bool := c =? LF.
(** The character class [[\t\n\r]]. *)
Definition isTabOrBreak (c : Z) : bool := (c =? TAB) || (c =? LF) || (c =? CR).

(** [s.replace(/\|/g, '\\|').replace(/\n/g, ' ')] *)
Definition escapeCell (s : jsstring) : jsstring :=
  replaceAll isNewline [SPACE] (replaceAll isPipe [BACKSLASH; PIPE] s).

Definition tableHeader : jsstring :=
  lit "| 학번 | 성명 | 학생활동기록 | 교사관찰기록 | 글자 수 | 바이트 수 |" ++ [LF].
Definition tableRule : jsstring :=
  lit "|------|------|-------------|-------------|---------|----------|" ++ [LF].

Definition tableRow (record : ObservationRecord.t) : jsstring :=
  let escapedActivity := escapeCell (ObservationRecord.activityContent record) in
  let escapedObservation := escapeCell (ObservationRecord.observation record) in
  lit "| " ++ ObservationRecord.studentId record
  ++ lit " | " ++ ObservationRecord.studentName record
  ++ lit " | " ++ escapedActivity
  ++ lit " | " ++ escapedObservation
  ++ lit " | " ++ numberToString (ObservationRecord.charCount record)
  ++ lit " | " ++ numberToString (ObservationRecord.byteCount record)
  ++ lit " |" ++ [LF].

(** [generateMarkdownTable]: the header, the rule, then [table += row]
    for each record. *)
Definition generateMarkdownTable (records : list ObservationRecord.t)
  : jsstring :=
  let table := tableHeader in
  let table := table ++ tableRule in
  for_of records (fun table record => table ++ tableRow record) table.

Definition tsvHeader : jsstring :=
  lit "학번" ++ [TAB] ++ lit "성명" ++ [TAB] ++ lit "학생활동기록" ++ [TAB]
  ++ lit "교사관찰기록" ++ [TAB] ++ lit "글자 수" ++ [TAB] ++ lit "바이트 수"
  ++ [LF].

(** [s.replace(/[\t\n\r]/g, ' ')] *)
Definition cleanCell (s : jsstring) : jsstring :=
  replaceAll isTabOrBreak [SPACE] s.

Definition tsvRow (record : ObservationRecord.t) : jsstring :=
  let cleanActivity := cleanCell (ObservationRecord.activityContent record) in
  let cleanObservation := cleanCell (ObservationRecord.observation record) in
  ObservationRecord.studentId record ++ [TAB]
  ++ ObservationRecord.studentName record ++ [TAB]
  ++ cleanActivity ++ [TAB]
  ++ cleanObservation ++ [TAB]
  ++ numberToString (ObservationRecord.charCount record) ++ [TAB]
  ++ numberToString (ObservationRecord.byteCount record) ++ [LF].

(** [generateTSVData]: the header line, then [tsv += row] for each
    record. *)
Definition generateTSVData (records : list ObservationRecord.t) : jsstring :=
  for_of records (fun tsv record => tsv ++ tsvRow record) tsvHeader.

End Main.

(* ===================================================================== *)
(** ** The byte counter of [src/unnamed/part_000]                         *)
(* ===================================================================== *)

Module Part000.

Definition countChars (text : jsstring) : Z := len text.

(** The five Unicode ranges charged three bytes. *)
Definition isWideCode (code : Z) : bool :=
  ((0xac00 <=? code) && (code <=? 0xd7a3))        (* Hangul syllables *)
  || ((0x1100 <=? code) && (code <=? 0x11ff))     (* Hangul Jamo *)
  || ((0x3130 <=? code) && (code <=? 0x318f))     (* Hangul compatibility Jamo *)
  || ((0x4e00 <=? code) && (code <=? 0x9fff))     (* CJK ideographs *)
  || ((0xf900 <=? code) && (code <=? 0xfaff)).    (* CJK compatibility *)

(** One turn of [for (const char of text)]; the comparisons are false on
    the NaN of an empty [char], which the iterator never yields. *)
Definition countBytes_body (bytes : Z) (char : jsstring) : Z :=
  match charCodeAt0 char with
  | Some code => if isWideCode code then bytes + 3 else bytes + 1
  | None => bytes + 1
  end.

Definition countBytes (text : jsstring) : Z :=
  for_of (stringIterator text) countBytes_body 0.

End Part000.

(* ===================================================================== *)
(** ** The conversion pipeline: [StudentActivityPlugin.processConversion] *)
(* ===================================================================== *)

Module Plugin.

(** What a [throw] carries: an [Error] with its message, or any other
    value. *)
Inductive thrown :=
| JsError (message : jsstring)
| NotAnError.

(** How an awaited call ends. *)
Inductive completion (A : Type) :=
| Normal (value : A)
| Throw (error : thrown).
Arguments Normal {A} value.
Arguments Throw {A} error.

Record Settings := {
  apiProvider : jsstring;
  apiKey : jsstring;
  targetCharCount : Z;
  outputFolder : jsstring;
  modelId : jsstring;
}.

(** The host and the vendors: the four HTTP calls and the creation of the
    result note are not computed by the plugin.  Each acts on the state of
    the outside world and either returns or throws. *)
Record Host := {
  World : Type;
  callOpenAI : jsstring -> jsstring -> StudentActivity.t -> Z -> World
               -> completion jsstring * World;
  callClaude : jsstring -> jsstring -> StudentActivity.t -> Z -> World
               -> completion jsstring * World;
  callGemini : jsstring -> jsstring -> StudentActivity.t -> Z -> World
               -> completion jsstring * World;
  callGrok : jsstring -> jsstring -> StudentActivity.t -> Z -> World
             -> completion jsstring * World;
  (** [vault.create] and the opening of the note, given the two renderings
      that [createResultNote] embeds in the note. *)
  vaultCreate : jsstring -> jsstring -> World -> completion unit * World;
}.

(** What the loop does to the outside, in order: the progress dialog, the
    console, the pauses; [Attempt] marks each entry into the [try] block,
    where exactly one vendor call is made. *)
Inductive event :=
| OpenProgress
| UpdateProgress (current total : Z) (studentName : jsstring)
| Attempt (activity : StudentActivity.t)
| ConsoleError (studentName : jsstring) (error : thrown)
| Sleep (ms : Z)
| MarkLastStudentComplete
| CloseProgress.

Module DEFAULT_MODELS.
Definition openai : jsstring := lit "gpt-4o-mini".
Definition claude : jsstring := lit "claude-sonnet-4-5-20250929".
Definition gemini : jsstring := lit "gemini-2.5-flash".
Definition grok : jsstring := lit "grok-4-1-fast".
End DEFAULT_MODELS.

(** [a || b] on strings: the empty string is falsy. *)
Definition orElse (a b : jsstring) : jsstring :=
  match a with
  | [] => b
  | _ => a
  end.

(** The [switch (this.settings.apiProvider)] inside the [try] block: one
    call to the configured vendor, or the error of the [default] case. *)
Definition generate (h : Host) (settings : Settings)
    (activity : StudentActivity.t) (targetCharCount : Z) (w : World h)
  : completion jsstring * World h :=
  let provider := apiProvider settings in
  if streq provider (lit "openai") then
    callOpenAI h (apiKey settings)
      (orElse (modelId settings) DEFAULT_MODELS.openai)
      activity targetCharCount w
  else if streq provider (lit "claude") then
    callClaude h (apiKey settings)
      (orElse (modelId settings) DEFAULT_MODELS.claude)
      activity targetCharCount w
  else if streq provider (lit "gemini") then
    callGemini h (apiKey settings)
      (orElse (modelId settings) DEFAULT_MODELS.gemini)
      activity targetCharCount w
  else if streq provider (lit "grok") then
    callGrok h (apiKey settings)
      (orElse (modelId settings) DEFAULT_MODELS.grok)
      activity targetCharCount w
  else (Throw (JsError (lit "지원하지 않는 AI 제공자: " ++ provider)), w).

(** [error instanceof Error ? error.message : '알 수 없는 오류'] *)
Definition errorText (error : thrown) : jsstring :=
  match error with
  | JsError message => message
  | NotAnError => lit "알 수 없는 오류"
  end.

(** The observation of a failed row. *)
Definition failureText (error : thrown) : jsstring :=
  lit "[변환 실패: " ++ errorText error ++ lit "]".

(** The record pushed after a successful call. *)
Definition successRecord (activity : StudentActivity.t)
    (observation : jsstring) : ObservationRecord.t :=
  ObservationRecord.make
    (StudentActivity.studentId activity)
    (StudentActivity.studentName activity)
    (StudentActivity.activityContent activity)
    observation
    (Main.countChars observation)
    (Main.countBytes observation).

(** The record pushed by the [catch] block. *)
Definition failureRecord (activity : StudentActivity.t) (error : thrown)
  : ObservationRecord.t :=
  ObservationRecord.make
    (StudentActivity.studentId activity)
    (StudentActivity.studentName activity)
    (StudentActivity.activityContent activity)
    (failureText error)
    0
    0.

(** The variables of the loop, the outside world, what has been shown so
    far, and the exception that left the loop, if any. *)
Record loopState (W : Type) := LoopState {
  records : list ObservationRecord.t;
  errorCount : Z;
  world : W;
  log : list event;
  uncaught : option thrown;
}.
Arguments LoopState {W}.
Arguments records {W}.
Arguments errorCount {W}.
Arguments world {W}.
Arguments log {W}.
Arguments uncaught {W}.

(** One turn of the loop over [activities], at index [i]. *)
Definition convert_body (h : Host) (settings : Settings)
    (activities : list StudentActivity.t) (targetCharCount : Z)
    (i : nat) (st : loopState (World h)) : loopState (World h) :=
  match uncaught st with
  | Some _ => st
  | None =>
    match activities !! i with
    | None =>
      (* activities[i] is undefined: reading its studentName throws *)
      LoopState (records st) (errorCount st) (world st) (log st)
        (Some (JsError (lit "TypeError")))
    | Some activity =>
      let shown :=
        log st ++ [UpdateProgress (Z.of_nat i + 1) (len' activities)
                     (StudentActivity.studentName activity);
                   Attempt activity] in
      let '(result, w) := generate h settings activity targetCharCount (world st) in
      let pause :=
        if Z.of_nat i <? len' activities - 1 then [Sleep 500] else [] in
      match result with
      | Normal observation =>
        LoopState (records st ++ [successRecord activity observation])
          (errorCount st) w (shown ++ pause) None
      | Throw error =>
        LoopState (records st ++ [failureRecord activity error])
          (errorCount st + 1) w
          (shown ++ [ConsoleError (StudentActivity.studentName activity) error]
             ++ pause)
          None
      end
    end
  end.

(** The loop of [processConversion], from empty [records] and
    [errorCount = 0]. *)
Definition convertAll (h : Host) (settings : Settings)
    (activities : list StudentActivity.t) (targetCharCount : Z)
    (w : World h) : loopState (World h) :=
  for_upto (length activities)
    (convert_body h settings activities targetCharCount)
    (LoopState [] 0 w [OpenProgress] None).

(** [createResultNote]: the TSV re-export and the Markdown table are
    computed here; the date, the file name and the file itself are the
    host's. *)
Definition createResultNote (h : Host) (records : list ObservationRecord.t)
    (w : World h) : completion unit * World h :=
  vaultCreate h (Main.generateTSVData records)
    (Main.generateMarkdownTable records) w.

(** The closing notice. *)
Definition finalNotice (records : list ObservationRecord.t) (errorCount : Z)
  : jsstring :=
  if 0 <? errorCount then
    lit "변환 완료! (" ++ numberToString (len' records - errorCount)
    ++ lit "명 성공, " ++ numberToString errorCount ++ lit "명 실패)"
  else
    numberToString (len' records) ++ lit "명의 교사관찰기록 변환 완료!".

(** How [processConversion] ends. *)
Inductive outcome (W : Type) :=
| NoData (notice : jsstring) (w : W)
| Rejected (error : thrown) (st : loopState W)
| Done (st : loopState W) (notice : jsstring) (w : W).
Arguments NoData {W}.
Arguments Rejected {W}.
Arguments Done {W}.

Definition processConversion (h : Host) (settings : Settings)
    (data : jsstring) (targetCharCount : Z) (w : World h)
  : outcome (World h) :=
  let activities := Main.parseTSV data in
  if len' activities =? 0 then NoData (lit "변환할 데이터가 없습니다.") w
  else
    let st := convertAll h settings activities targetCharCount w in
    match uncaught st with
    | Some error => Rejected error st
    | None =>
      let st := LoopState (records st) (errorCount st) (world st)
                  (log st ++ [MarkLastStudentComplete; CloseProgress]) None in
      let '(written, w') := createResultNote h (records st) (world st) in
      match written with
      | Throw error => Rejected error st
      | Normal _ => Done st (finalNotice (records st) (errorCount st)) w'
      end
    end.

End Plugin.

(* ===================================================================== *)
(** ** The specification's formulations                                   *)
(* ===================================================================== *)

(** Definitions that follow the words of the specification; the theorems
    below compare them with the functions above. *)
Module Spec.

Definition sumZ (costs : list Z) : Z := foldr Z.add 0 costs.

(** "A newline character always costs 1 byte; every other character costs
    3 bytes if its escaped representation exceeds 4 characters in length;
    otherwise it costs 1 byte." *)
Definition charCost (c : Z) : Z :=
  if c =? LF then 1
  else if 4 <? len (escape [c]) then 3
  else 1.

(** A wide character: one that is charged 3 bytes. *)
Definition isWide (c : Z) : bool := charCost c =? 3.

(** The numbers [n] of wide and [m] of narrow or newline characters. *)
Definition wideCount (text : jsstring) : Z := len (List.filter isWide text).
Definition narrowCount (text : jsstring) : Z :=
  len (List.filter (fun c => negb (isWide c)) text).

(** ASCII letters, digits and punctuation: the graphic characters
    U+0021 to U+007E. *)
Definition isAsciiGraphic (c : Z) : bool := (0x21 <=? c) && (c <=? 0x7E).

(** CJK unified ideographs: U+4E00 to U+9FFF. *)
Definition isCJKIdeograph (c : Z) : bool := (0x4E00 <=? c) && (c <=? 0x9FFF).

(** Hangul syllables: U+AC00 to U+D7A3. *)
Definition isHangulSyllable (c : Z) : bool := (0xAC00 <=? c) && (c <=? 0xD7A3).

(** The threshold counter: 3 bytes from U+0100 on, 1 byte below. *)
Definition thresholdCost (c : Z) : Z := if 0x100 <=? c then 3 else 1.
Definition countBytes_threshold (text : jsstring) : Z :=
  sumZ (map thresholdCost text).

(** The fields of a line, and the record made of an accepted line. *)
Definition fields (line : jsstring) : list jsstring := split TAB line.
Definition accepted (parts : list jsstring) : bool := 3 <=? len' parts.
Definition recordOf (parts : list jsstring) : StudentActivity.t :=
  StudentActivity.make
    (trim (parts !!! 0%nat))
    (trim (parts !!! 1%nat))
    (trim (join [SPACE] (drop 2 parts))).

(** The parser as section 4.1 words it, on a sequence of lines. *)
Definition parseLines (lines : list jsstring) : list StudentActivity.t :=
  map recordOf (List.filter accepted (map fields lines)).

(** The parser reading the lines of the raw input. *)
Definition parseTSV_raw (data : jsstring) : list StudentActivity.t :=
  parseLines (split LF data).

(** [round(c * 0.8 * 3 + c * 0.2 * 1)] on exact numbers: 13c/5 rounded to
    the nearest integer (it is never halfway between two). *)
Definition estimateBytes_exact (c : Z) : Z := (26 * c + 5) / 10.

(** The number [n] as a binary64 value. *)
Definition toNumber (n : Z) : float :=
  SF2Prim (binary_normalize prec emax n 0 false).

(** The integer a binary64 value denotes, when it denotes one. *)
Definition toInteger (x : float) : option Z :=
  match Prim2SF x with
  | S754_zero _ => Some 0
  | S754_finite s m e =>
    let v := if s then Z.neg m else Z.pos m in
    if 0 <=? e then Some (v * 2 ^ e)
    else if v mod 2 ^ (- e) =? 0 then Some (v / 2 ^ (- e))
    else None
  | _ => None
  end.

(** The estimator agrees with the exact formula at [c]. *)
Definition estimateAgrees (c : Z) : bool :=
  match toInteger (Main.estimateBytes (toNumber c)) with
  | Some bytes => bytes =? estimateBytes_exact c
  | None => false
  end.

(** The integers [start], [start + 1], ..., [count] of them. *)
Fixpoint integersFrom (start : Z) (count : nat) : list Z :=
  match count with
  | O => []
  | Datatypes.S k => start :: integersFrom (start + 1) k
  end.

(** The (studentId, studentName) pairs of parsed rows and of records. *)
Definition activityPair (a : StudentActivity.t) : jsstring * jsstring :=
  (StudentActivity.studentId a, StudentActivity.studentName a).
Definition recordPair (r : ObservationRecord.t) : jsstring * jsstring :=
  (ObservationRecord.studentId r, ObservationRecord.studentName r).

(** The activity a record was made from. *)
Definition sourceOf (r : ObservationRecord.t) : StudentActivity.t :=
  StudentActivity.make (ObservationRecord.studentId r)
    (ObservationRecord.studentName r) (ObservationRecord.activityContent r).

(** The record of a line whose fields are all empty. *)
Definition emptyActivity : StudentActivity.t := StudentActivity.make [] [] [].

(** The rows for which the loop entered the [try] block, in order. *)
Fixpoint attempts (log : list Plugin.event) : list StudentActivity.t :=
  match log with
  | [] => []
  | Plugin.Attempt activity :: log' => activity :: attempts log'
  | _ :: log' => attempts log'
  end.

(** The record [r] is the failure placeholder of the row [a]: a call for
    [a] threw [e], and [r] carries the text of [e] and zero counts. *)
Definition failedRow (h : Plugin.Host) (settings : Plugin.Settings)
    (target : Z) (a : StudentActivity.t) (r : ObservationRecord.t) : Prop :=
  exists e w0 w1,
    Plugin.generate h settings a target w0 = (Plugin.Throw e, w1)
    /\ r = ObservationRecord.make
             (StudentActivity.studentId a) (StudentActivity.studentName a)
             (StudentActivity.activityContent a)
             (lit "[변환 실패: " ++ Plugin.errorText e ++ lit "]") 0 0.

(** The record [r] is the success record of the row [a]: a call for [a]
    returned [observation], measured by the two counters. *)
Definition succeededRow (h : Plugin.Host) (settings : Plugin.Settings)
    (target : Z) (a : StudentActivity.t) (r : ObservationRecord.t) : Prop :=
  exists observation w0 w1,
    Plugin.generate h settings a target w0 = (Plugin.Normal observation, w1)
    /\ r = ObservationRecord.make
             (StudentActivity.studentId a) (StudentActivity.studentName a)
             (StudentActivity.activityContent a)
             observation (Main.countChars observation)
             (Main.countBytes observation).

(** The record [r] is the one the loop pushes for the row [a]. *)
Definition rowOf (h : Plugin.Host) (settings : Plugin.Settings) (target : Z)
    (a : StudentActivity.t) (r : ObservationRecord.t) : Prop :=
  succeededRow h settings target a r \/ failedRow h settings target a r.

(** The invariant of the conversion loop: no exception has left it, the
    records so far are, in order, those of the rows so far, each row was
    tried once, and the error counter counts some of them. *)
Definition convertInv (h : Plugin.Host) (settings : Plugin.Settings)
    (target : Z) (pre : list StudentActivity.t)
    (st : Plugin.loopState (Plugin.World h)) : Prop :=
  Plugin.uncaught st = None
  /\ Forall2 (rowOf h settings target) pre (Plugin.records st)
  /\ attempts (Plugin.log st) = pre
  /\ 0 <= Plugin.errorCount st <= len' pre.

(** The header line of the TSV re-export, read as a row. *)
Definition headerPair : jsstring * jsstring := (lit "학번", lit "성명").

(** A student id or name as [parseTSV] produces them: trimmed, without tab
    or newline. *)
Definition noTabOrNewline (s : jsstring) : bool :=
  forallb (fun c => negb ((c =? TAB) || (c =? LF))) s.

Definition cleanField (s : jsstring) : Prop :=
  trim s = s /\ noTabOrNewline s = true.

Definition cleanRecord (r : ObservationRecord.t) : Prop :=
  cleanField (ObservationRecord.studentId r)
  /\ cleanField (ObservationRecord.studentName r).

Definition cleanActivity (a : StudentActivity.t) : Prop :=
  cleanField (StudentActivity.studentId a)
  /\ cleanField (StudentActivity.studentName a).

(** A line of the TSV re-export, without its newline. *)
Definition headerLine : jsstring :=
  lit "학번" ++ [TAB] ++ lit "성명" ++ [TAB] ++ lit "학생활동기록" ++ [TAB]
  ++ lit "교사관찰기록" ++ [TAB] ++ lit "글자 수" ++ [TAB] ++ lit "바이트 수".

Definition rowFields (r : ObservationRecord.t) : list jsstring :=
  [ObservationRecord.studentId r;
   ObservationRecord.studentName r;
   Main.cleanCell (ObservationRecord.activityContent r);
   Main.cleanCell (ObservationRecord.observation r);
   numberToString (ObservationRecord.charCount r);
   numberToString (ObservationRecord.byteCount r)].

Definition rowLine (r : ObservationRecord.t) : jsstring :=
  join [TAB] (rowFields r).

(** A text whose last character is not white space. *)
Definition endsTight (s : jsstring) : Prop :=
  exists y d, s = y ++ [d] /\ isWhiteSpace d = false.

(** A character that a number prints with: a digit or the minus sign. *)
Definition isNumeric (c : Z) : bool := (c =? 0x2D) || ((0x30 <=? c) && (c <=? 0x39)).

End Spec.

(* ===================================================================== *)
(** ** Sample hosts and inputs                                            *)
(* ===================================================================== *)

Module Sample.

(** A host whose vendors answer every call with an HTTP error and whose
    vault accepts the note. *)
Definition failingHost : Plugin.Host := {|
  Plugin.World := unit;
  Plugin.callOpenAI := fun _ _ _ _ w =>
    (Plugin.Throw (Plugin.JsError (lit "OpenAI API 오류: 500")), w);
  Plugin.callClaude := fun _ _ _ _ w =>
    (Plugin.Throw (Plugin.JsError (lit "Claude API 오류: 500")), w);
  Plugin.callGemini := fun _ _ _ _ w =>
    (Plugin.Throw (Plugin.JsError (lit "Gemini API 오류: 500")), w);
  Plugin.callGrok := fun _ _ _ _ w =>
    (Plugin.Throw (Plugin.JsError (lit "Grok API 오류: 500")), w);
  Plugin.vaultCreate := fun _ _ w => (Plugin.Normal tt, w);
|}.

(** [DEFAULT_SETTINGS] with a key. *)
Definition settings : Plugin.Settings := {|
  Plugin.apiProvider := lit "openai";
  Plugin.apiKey := lit "sk-test";
  Plugin.targetCharCount := 500;
  Plugin.outputFolder := [];
  Plugin.modelId := lit "gpt-4o-mini";
|}.

(** The example row of the specification. *)
Definition exampleRow : jsstring :=
  lit "10101" ++ [TAB] ++ lit "김철수" ++ [TAB]
  ++ lit "프로젝트 활동에서 리더 역할을 맡아 팀원들을 이끌었음".

(** A single line whose third field is empty. *)
Definition trailingTab : jsstring := lit "1" ++ [TAB] ++ lit "A" ++ [TAB].

(** Four lines: the second is two tabs, the third has blank fields. *)
Definition blankFields : jsstring :=
  lit "1" ++ [TAB] ++ lit "A" ++ [TAB] ++ lit "x" ++ [LF]
  ++ [TAB; TAB] ++ [LF]
  ++ lit "2" ++ [TAB] ++ [SPACE] ++ [TAB] ++ [SPACE; SPACE] ++ [LF]
  ++ lit "3" ++ [TAB] ++ lit "C" ++ [TAB] ++ lit "z".

Definition twoRows : jsstring :=
  lit "10101" ++ [TAB] ++ lit "김철수" ++ [TAB] ++ lit "프로젝트 활동" ++ [LF]
  ++ lit "10102" ++ [TAB] ++ lit "이영희" ++ [TAB] ++ lit "독서 토론".

Definition twoActivities : list StudentActivity.t :=
  [StudentActivity.make (lit "10101") (lit "김철수") (lit "프로젝트 활동");
   StudentActivity.make (lit "10102") (lit "이영희") (lit "독서 토론")].

Definition twoRecords : list ObservationRecord.t :=
  [ObservationRecord.make (lit "10101") (lit "김철수") (lit "프로젝트 활동")
     (lit "리더 역할을 맡음") 9 23;
   ObservationRecord.make (lit "10102") (lit "이영희") (lit "독서 토론")
     (lit "[변환 실패: OpenAI API 오류: 500]") 0 0].

(** The row "1<TAB>A<TAB>" followed by another row. *)
Definition trailingTabThenRow : jsstring :=
  lit "1" ++ [TAB] ++ lit "A" ++ [TAB] ++ [LF]
  ++ lit "2" ++ [TAB] ++ lit "B" ++ [TAB] ++ lit "x".

(** Two rows, the first with an empty id and an extra column. *)
Definition emptyIdFirst : jsstring :=
  [TAB] ++ lit "Kim" ++ [TAB] ++ lit "led the team" ++ [TAB] ++ lit "extra" ++ [LF]
  ++ lit "2" ++ [TAB] ++ lit "Lee" ++ [TAB] ++ lit "debate".

(** A single line whose second and third fields are blank. *)
Definition blankLast : jsstring := lit "2" ++ [TAB; SPACE; TAB; SPACE; SPACE].

(** A row followed by the line of two tabs as last line. *)
Definition twoTabsLast : jsstring :=
  lit "1" ++ [TAB] ++ lit "A" ++ [TAB] ++ lit "x" ++ [LF] ++ [TAB; TAB].
End Sample.

(* ===================================================================== *)
(** ** The vendor calls: [callOpenAI], [callClaude], [callGemini],
       [callGrok]                                                         *)
(* ===================================================================== *)

Module Vendor.

Definition QUOTE : Z := 34.

Definition SYSTEM_PROMPT : jsstring :=
  lit "당신은 학생을 깊이 이해하고 애정을 가지고 관찰하는 한국 고등학교 담임교사입니다." ++ [LF] ++
  lit "학생의 활동 내용을 바탕으로 교사 관찰 기록을 작성해주세요." ++ [LF; LF] ++
  lit "[핵심 원칙]" ++ [LF] ++
  lit "- 인공지능이 작성한 것이 아닌, 교사가 학생을 직접 관찰하고 애정을 담아 작성한 기록처럼 보여야 합니다" ++ [LF] ++
  lit "- 학생의 강점, 노력, 성장 과정을 따뜻하게 서술합니다" ++ [LF] ++
  lit "- 객관적 사실에 기반하되, 교사의 긍정적 관점을 담습니다" ++ [LF; LF] ++
  lit "[문체 규칙]" ++ [LF] ++
  lit "- 서술형 종결어미 사용: " ++ [QUOTE] ++ lit "~함" ++ [QUOTE] ++ lit ", " ++
     [QUOTE] ++ lit "~임" ++ [QUOTE] ++ lit ", " ++ [QUOTE] ++ lit "~남" ++
     [QUOTE] ++ lit ", " ++ [QUOTE] ++ lit "~보임" ++ [QUOTE] ++ lit ", " ++
     [QUOTE] ++ lit "~드러냄" ++ [QUOTE; LF] ++
  lit "- 제목, 머리말, 학생 이름 포함 금지" ++ [LF] ++
  lit "- 3인칭 관찰자 시점으로 작성" ++ [LF] ++
  lit "- 한 문단으로 자연스럽게 이어지도록 작성" ++ [LF; LF] ++
  lit "[내용 구성]" ++ [LF] ++
  lit "1. 활동의 구체적 맥락과 참여 양상" ++ [LF] ++
  lit "2. 학생이 보여준 역량이나 태도" ++ [LF] ++
  lit "3. 활동을 통한 성장이나 발전 가능성" ++ [LF; LF] ++
  lit "[피해야 할 표현]" ++ [LF] ++
  lit "- AI, VR, AR 등 영문 약어 → 인공지능, 가상현실, 증강현실 사용" ++ [LF] ++
  lit "- 과도한 수식어나 빈 칭찬" ++ [LF] ++
  lit "- 모든 학생에게 적용 가능한 일반적인 표현" ++ [LF] ++
  lit "- 기계적이거나 정형화된 문장 패턴" ++ [LF; LF] ++
  lit "[좋은 예시 표현]" ++ [LF] ++
  lit "- " ++ [QUOTE] ++ lit "탐구 과정에서 꼼꼼한 자료 조사와 논리적 분석력을 보여줌" ++
     [QUOTE; LF] ++
  lit "- " ++ [QUOTE] ++ lit "모둠 활동 시 다양한 의견을 존중하며 협력적 태도로 참여함" ++
     [QUOTE; LF] ++
  lit "- " ++ [QUOTE] ++ lit "스스로 문제를 발견하고 해결책을 모색하는 자기주도적 학습 역량을 갖춤" ++
     [QUOTE; LF; LF] ++
  lit "[출력 형식]" ++ [LF] ++
  lit "- 추가 설명이나 머리말 없이 교사관찰기록 본문만 출력" ++ [LF] ++
  lit "- 자연스러운 한 문단으로 구성".

(** The user prompt shared by the four calls. *)
Definition userPromptOf (activity : StudentActivity.t) (targetCharCount : Z)
  : jsstring :=
  lit "[제약 조건]" ++ [LF] ++
  lit "- 목표 글자 수: " ++ numberToString targetCharCount ++ lit "자 (±10%)" ++ [LF; LF] ++
  lit "[입력]" ++ [LF] ++
  lit "학번: " ++ StudentActivity.studentId activity ++ [LF] ++
  lit "이름: " ++ StudentActivity.studentName activity ++ [LF] ++
  lit "활동내용: " ++ StudentActivity.activityContent activity ++ [LF; LF] ++
  lit "[출력]" ++ [LF] ++
  lit "교사관찰기록만 출력 (추가 설명 없이)".

(** JSON values: the request bodies handed to [JSON.stringify] and the
    parsed bodies of the answers.  An object lists its own properties,
    each key once. *)
#[warnings="-register-all"] Inductive json :=
| JNull
| JBool (b : bool)
| JNumber (x : float)
| JString (s : jsstring)
| JArray (items : list json)
| JObject (members : list (jsstring * json)).

(** What a property read yields: a JSON value or [undefined]. *)
Inductive jsvalue :=
| Undefined
| Value (v : json).

(** A property key: a name ([.choices]) or an index ([[0]]). *)
Inductive key :=
| Name (name : jsstring)
| Index (i : nat).

(** The TypeErrors of a chain of reads: reading a property of [undefined]
    or [null], and calling what is not a function. *)
Inductive fault :=
| CannotRead (subject : jsvalue) (k : key)
| NotAFunction (v : jsvalue) (k : key).

Fixpoint ownProperty (name : jsstring) (members : list (jsstring * json))
  : jsvalue :=
  match members with
  | [] => Undefined
  | (k, v) :: rest => if streq k name then Value v else ownProperty name rest
  end.

(** [v[k]] for the keys the plugin reads (choices, message, content,
    text, candidates, parts and the index 0); none of them is a built-in
    property of strings, numbers, booleans, arrays or objects.  [None] is
    the TypeError of reading [undefined] or [null]. *)
Definition getProperty (v : jsvalue) (k : key) : option jsvalue :=
  match v with
  | Undefined | Value JNull => None
  | Value (JObject members) =>
    match k with
    | Name name => Some (ownProperty name members)
    | Index i => Some (ownProperty (numberToString (Z.of_nat i)) members)
    end
  | Value (JArray items) =>
    match k with
    | Name _ => Some Undefined
    | Index i => Some (match items !! i with
                       | Some item => Value item
                       | None => Undefined
                       end)
    end
  | Value (JString s) =>
    match k with
    | Name _ => Some Undefined
    | Index i => Some (match s !! i with
                       | Some c => Value (JString [c])
                       | None => Undefined
                       end)
    end
  | Value (JNumber _) | Value (JBool _) => Some Undefined
  end.

Record request := {
  url : jsstring;
  method : jsstring;
  headers : list (jsstring * jsstring);
  body : json;
}.

(** The answer of [requestUrl]: the status and the parsed body, whose
    reading throws when the body is not JSON. *)
Record response := {
  status : Z;
  json_ : Plugin.completion json;
}.

(** The network and the vault: [requestUrl], the wording the engine gives
    to a TypeError, and the creation of the note. *)
Record Net := {
  NetWorld : Type;
  requestUrl : request -> NetWorld -> Plugin.completion response * NetWorld;
  faultText : fault -> jsstring;
  createNote : jsstring -> jsstring -> NetWorld -> Plugin.completion unit * NetWorld;
}.

Section Calls.
Variable net : Net.

Definition typeError (f : fault) : Plugin.thrown := Plugin.JsError (faultText net f).

(** One read in a chain, [v.k]. *)
Definition read (v : Plugin.completion jsvalue) (k : key)
  : Plugin.completion jsvalue :=
  match v with
  | Plugin.Throw e => Plugin.Throw e
  | Plugin.Normal value =>
    match getProperty value k with
    | Some result => Plugin.Normal result
    | None => Plugin.Throw (typeError (CannotRead value k))
    end
  end.

(** The closing [.trim()] of a chain: only a string has it. *)
Definition callTrim (v : Plugin.completion jsvalue) : Plugin.completion jsstring :=
  match v with
  | Plugin.Throw e => Plugin.Throw e
  | Plugin.Normal (Value (JString s)) => Plugin.Normal (trim s)
  | Plugin.Normal Undefined =>
    Plugin.Throw (typeError (CannotRead Undefined (Name (lit "trim"))))
  | Plugin.Normal (Value JNull) =>
    Plugin.Throw (typeError (CannotRead (Value JNull) (Name (lit "trim"))))
  | Plugin.Normal other =>
    Plugin.Throw (typeError (NotAFunction other (Name (lit "trim"))))
  end.

(** [response.json] as the start of a chain. *)
Definition bodyOf (r : response) : Plugin.completion jsvalue :=
  match json_ r with
  | Plugin.Normal j => Plugin.Normal (Value j)
  | Plugin.Throw e => Plugin.Throw e
  end.

(** The part after [await requestUrl(...)] that the four calls share: the
    status test with the vendor's name in the message, then the chain of
    reads of that vendor. *)
Definition afterRequest (vendor : jsstring)
    (extract : response -> Plugin.completion jsstring)
    (answer : Plugin.completion response * NetWorld net)
  : Plugin.completion jsstring * NetWorld net :=
  let '(result, w) := answer in
  match result with
  | Plugin.Throw e => (Plugin.Throw e, w)
  | Plugin.Normal r =>
    if negb (status r =? 200) then
      (Plugin.Throw
         (Plugin.JsError (vendor ++ lit " API 오류: " ++ numberToString (status r))),
       w)
    else (extract r, w)
  end.

(** [response.json.choices[0].message.content.trim()] *)
Definition chatContent (r : response) : Plugin.completion jsstring :=
  callTrim (read (read (read (read (bodyOf r) (Name (lit "choices"))) (Index 0))
                    (Name (lit "message"))) (Name (lit "content"))).

(** [response.json.content[0].text.trim()] *)
Definition claudeContent (r : response) : Plugin.completion jsstring :=
  callTrim (read (read (read (bodyOf r) (Name (lit "content"))) (Index 0))
              (Name (lit "text"))).

(** [response.json.candidates[0].content.parts[0].text.trim()] *)
Definition geminiContent (r : response) : Plugin.completion jsstring :=
  callTrim (read (read (read (read (read (read (bodyOf r)
              (Name (lit "candidates"))) (Index 0)) (Name (lit "content")))
              (Name (lit "parts"))) (Index 0)) (Name (lit "text"))).

#[warnings="-inexact-float"] Definition openaiRequest (apiKey modelId : jsstring)
    (activity : StudentActivity.t) (targetCharCount : Z) : request := {|
  url := lit "https://api.openai.com/v1/chat/completions";
  method := lit "POST";
  headers := [(lit "Content-Type", lit "application/json");
              (lit "Authorization", lit "Bearer " ++ apiKey)];
  body := JObject
    [(lit "model", JString modelId);
     (lit "messages", JArray
        [JObject [(lit "role", JString (lit "system"));
                  (lit "content", JString SYSTEM_PROMPT)];
         JObject [(lit "role", JString (lit "user"));
                  (lit "content", JString (userPromptOf activity targetCharCount))]]);
     (lit "max_tokens", JNumber 2000);
     (lit "temperature", JNumber 0.7)];
|}.

Definition claudeRequest (apiKey modelId : jsstring)
    (activity : StudentActivity.t) (targetCharCount : Z) : request := {|
  url := lit "https://api.anthropic.com/v1/messages";
  method := lit "POST";
  headers := [(lit "Content-Type", lit "application/json");
              (lit "x-api-key", apiKey);
              (lit "anthropic-version", lit "2023-06-01")];
  body := JObject
    [(lit "model", JString (Plugin.orElse modelId (lit "claude-3-5-sonnet-20241022")));
     (lit "max_tokens", JNumber 2000);
     (lit "system", JString SYSTEM_PROMPT);
     (lit "messages", JArray
        [JObject [(lit "role", JString (lit "user"));
                  (lit "content", JString (userPromptOf activity targetCharCount))]])];
|}.

#[warnings="-inexact-float"] Definition geminiRequest (apiKey modelId : jsstring)
    (activity : StudentActivity.t) (targetCharCount : Z) : request := {|
  url := lit "https://generativelanguage.googleapis.com/v1beta/models/"
         ++ Plugin.orElse modelId (lit "gemini-1.5-flash")
         ++ lit ":generateContent?key=" ++ apiKey;
  method := lit "POST";
  headers := [(lit "Content-Type", lit "application/json")];
  body := JObject
    [(lit "contents", JArray
        [JObject [(lit "parts", JArray
           [JObject [(lit "text",
              JString (SYSTEM_PROMPT ++ [LF; LF]
                       ++ userPromptOf activity targetCharCount))]])]]);
     (lit "generationConfig", JObject
        [(lit "temperature", JNumber 0.7);
         (lit "maxOutputTokens", JNumber 2000)])];
|}.

#[warnings="-inexact-float"] Definition grokRequest (apiKey modelId : jsstring)
    (activity : StudentActivity.t) (targetCharCount : Z) : request := {|
  url := lit "https://api.x.ai/v1/chat/completions";
  method := lit "POST";
  headers := [(lit "Content-Type", lit "application/json");
              (lit "Authorization", lit "Bearer " ++ apiKey)];
  body := JObject
    [(lit "model", JString (Plugin.orElse modelId (lit "grok-3-fast")));
     (lit "messages", JArray
        [JObject [(lit "role", JString (lit "system"));
                  (lit "content", JString SYSTEM_PROMPT)];
         JObject [(lit "role", JString (lit "user"));
                  (lit "content", JString (userPromptOf activity targetCharCount))]]);
     (lit "max_tokens", JNumber 2000);
     (lit "temperature", JNumber 0.7)];
|}.

Definition callOpenAI (apiKey modelId : jsstring) (activity : StudentActivity.t)
    (targetCharCount : Z) (w : NetWorld net)
  : Plugin.completion jsstring * NetWorld net :=
  afterRequest (lit "OpenAI") chatContent
    (requestUrl net (openaiRequest apiKey modelId activity targetCharCount) w).

Definition callClaude (apiKey modelId : jsstring) (activity : StudentActivity.t)
    (targetCharCount : Z) (w : NetWorld net)
  : Plugin.completion jsstring * NetWorld net :=
  afterRequest (lit "Claude") claudeContent
    (requestUrl net (claudeRequest apiKey modelId activity targetCharCount) w).

Definition callGemini (apiKey modelId : jsstring) (activity : StudentActivity.t)
    (targetCharCount : Z) (w : NetWorld net)
  : Plugin.completion jsstring * NetWorld net :=
  afterRequest (lit "Gemini") geminiContent
    (requestUrl net (geminiRequest apiKey modelId activity targetCharCount) w).

Definition callGrok (apiKey modelId : jsstring) (activity : StudentActivity.t)
    (targetCharCount : Z) (w : NetWorld net)
  : Plugin.completion jsstring * NetWorld net :=
  afterRequest (lit "Grok") chatContent
    (requestUrl net (grokRequest apiKey modelId activity targetCharCount) w).

(** The plugin running on this network. *)
Definition host : Plugin.Host := {|
  Plugin.World := NetWorld net;
  Plugin.callOpenAI := callOpenAI;
  Plugin.callClaude := callClaude;
  Plugin.callGemini := callGemini;
  Plugin.callGrok := callGrok;
  Plugin.vaultCreate := createNote net;
|}.

End Calls.

(** The name a provider's error messages carry. *)
Definition vendorLabel (provider : jsstring) : jsstring :=
  if streq provider (lit "openai") then lit "OpenAI"
  else if streq provider (lit "claude") then lit "Claude"
  else if streq provider (lit "gemini") then lit "Gemini"
  else lit "Grok".

Definition knownProvider (provider : jsstring) : bool :=
  streq provider (lit "openai") || streq provider (lit "claude")
  || streq provider (lit "gemini") || streq provider (lit "grok").

End Vendor.

(* ===================================================================== *)
(** ** The progress dialog: [ProgressModal]                               *)
(* ===================================================================== *)

Module ProgressModal.

(** The three backgrounds of the bar. *)
Inductive gradient :=
| RedToOrange       (* linear-gradient(90deg, #ff6b6b, #ffa502) *)
| OrangeToGreen     (* linear-gradient(90deg, #ffa502, #2ed573) *)
| GreenToBlue.      (* linear-gradient(90deg, #2ed573, #1e90ff) *)

(** The fields of the dialog and what its elements show.  [opened] says
    that [onOpen] has created the elements (they are [null] before).  The
    percentage is kept as the number that the bar width, the circle text
    and the circle angle are printed from. *)
Record t := make {
  opened : bool;
  currentIndex : Z;
  totalCount : Z;
  previousStudentName : jsstring;
  progressText : jsstring;
  percentage : float;
  fillBackground : option gradient;
  statusText : jsstring;
  studentList : list jsstring;
}.

(** [new ProgressModal(app)] *)
Definition create : t :=
  make false 0 0 [] [] 0 None [] [].

(** [onOpen] *)
Definition onOpen (m : t) : t :=
  make true (currentIndex m) (totalCount m) (previousStudentName m)
    (lit "AI 변환 준비 중...") 0 None (lit "잠시만 기다려주세요...") [].

(** The tag of a completed student. *)
Definition completedTag (studentName : jsstring) : jsstring :=
  lit "✓ " ++ studentName.

(** The list after the test [previousStudentName && studentListContainer]
    and the tag it guards. *)
Definition withPreviousTag (m : t) : list jsstring :=
  match previousStudentName m with
  | [] => studentList m
  | _ => if opened m then studentList m ++ [completedTag (previousStudentName m)]
         else studentList m
  end.

(** [updateProgress(current, total, studentName)] *)
Definition updateProgress (current total : Z) (studentName : jsstring) (m : t) : t :=
  let percentage :=
    Main.Math_round (Spec.toNumber current / Spec.toNumber total * 100)%float in
  let progressText' :=
    lit "<span class=" ++ [Vendor.QUOTE] ++ lit "current-student" ++ [Vendor.QUOTE]
    ++ lit ">🎯 " ++ studentName ++ lit "</span> 변환 중... <span class="
    ++ [Vendor.QUOTE] ++ lit "progress-count" ++ [Vendor.QUOTE] ++ lit ">("
    ++ numberToString current ++ lit "/" ++ numberToString total
    ++ lit "명)</span>" in
  let background :=
    if (percentage <? 30)%float then RedToOrange
    else if (percentage <? 70)%float then OrangeToGreen
    else GreenToBlue in
  let statusText' :=
    if current =? total then lit "✅ 변환 완료! 결과를 저장하고 있습니다..."
    else
      let remaining := total - current in
      let estimatedTime := remaining * 2 in
      lit "⏳ 남은 학생: <strong>" ++ numberToString remaining
      ++ lit "명</strong> (예상 " ++ numberToString estimatedTime ++ lit "초)" in
  make (opened m) current total studentName
    (if opened m then progressText' else progressText m)
    (if opened m then percentage else ProgressModal.percentage m)
    (if opened m then Some background else fillBackground m)
    (if opened m then statusText' else statusText m)
    (withPreviousTag m).

(** [markLastStudentComplete] *)
Definition markLastStudentComplete (m : t) : t :=
  make (opened m) (currentIndex m) (totalCount m) (previousStudentName m)
    (progressText m) (percentage m) (fillBackground m) (statusText m)
    (withPreviousTag m).

(** What the dialog goes through when the events of a conversion reach
    it: [open] creates it and runs [onOpen]; the calls to the vendors, the
    console and the pauses do not touch it; [close] empties the window and
    leaves the fields as they are. *)
Definition step (m : t) (ev : Plugin.event) : t :=
  match ev with
  | Plugin.OpenProgress => onOpen create
  | Plugin.UpdateProgress current total studentName =>
    updateProgress current total studentName m
  | Plugin.MarkLastStudentComplete => markLastStudentComplete m
  | Plugin.Attempt _ | Plugin.ConsoleError _ _ | Plugin.Sleep _
  | Plugin.CloseProgress => m
  end.

Definition replay (log : list Plugin.event) : t := fold_left step log create.

End ProgressModal.

(* ===================================================================== *)
(** ** The input dialog and the commands                                  *)
(* ===================================================================== *)

Module Builtins.

(** The value of a digit or letter as a digit. *)
Definition digitOf (c : Z) : option Z :=
  if (0x30 <=? c) && (c <=? 0x39) then Some (c - 0x30)
  else if (0x61 <=? c) && (c <=? 0x7A) then Some (c - 0x61 + 10)
  else if (0x41 <=? c) && (c <=? 0x5A) then Some (c - 0x41 + 10)
  else None.

(** The longest prefix of digits of the radix. *)
Fixpoint leadingDigits (radix : Z) (s : jsstring) : list Z :=
  match s with
  | [] => []
  | c :: s' =>
    match digitOf c with
    | Some d => if d <? radix then d :: leadingDigits radix s' else []
    | None => []
    end
  end.

Definition valueOfDigits (radix : Z) (digits : list Z) : Z :=
  fold_left (fun acc d => acc * radix + d) digits 0.

(** [parseInt(s)] without a radix (ECMA-262, 19.2.5): leading white space
    is skipped, then a sign, then [0x] or [0X] selects radix 16, then the
    longest run of digits is read; [None] is NaN.  The result is the exact
    integer; the Number the engine returns is this integer rounded to
    binary64, equal to it below 2^53 and of the same sign always. *)
Definition parseInt (s : jsstring) : option Z :=
  let s := trimStart s in
  let negative := match s with c :: _ => c =? 0x2D | [] => false end in
  let s := match s with
           | c :: r => if (c =? 0x2D) || (c =? 0x2B) then r else s
           | [] => s
           end in
  let hex := match s with
             | c0 :: c1 :: _ => (c0 =? 0x30) && ((c1 =? 0x78) || (c1 =? 0x58))
             | _ => false
             end in
  let radix := if hex then 16 else 10 in
  let s := if hex then drop 2 s else s in
  match leadingDigits radix s with
  | [] => None
  | digits =>
    Some ((if negative then -1 else 1) * valueOfDigits radix digits)
  end.

End Builtins.

Module InputModal.

(** The handler of the target field, [onChange]: the new target. *)
Definition onTargetChange (value : jsstring) (targetCharCount : Z) : Z :=
  match Builtins.parseInt value with
  | Some num => if 0 <? num then num else targetCharCount
  | None => targetCharCount
  end.

Definition previewRow (activity : StudentActivity.t) : jsstring :=
  lit "- " ++ StudentActivity.studentId activity ++ lit " "
  ++ StudentActivity.studentName activity ++ lit ": "
  ++ take 50 (StudentActivity.activityContent activity) ++ lit "..." ++ [LF].

(** [updatePreview]: the text set in the preview area. *)
Definition updatePreview (inputData : jsstring) : jsstring :=
  let activities := Main.parseTSV inputData in
  if len' activities =? 0 then
    lit "유효한 데이터가 없습니다. 형식: 학번 탭 이름 탭 활동내용"
  else
    let preview :=
      lit "총 " ++ numberToString (len' activities) ++ lit "명의 학생 데이터:"
      ++ [LF; LF] in
    let preview :=
      for_of (take 5 activities)
        (fun preview activity => preview ++ previewRow activity) preview in
    if 5 <? len' activities then
      preview ++ [LF] ++ lit "... 외 " ++ numberToString (len' activities - 5) ++ lit "명"
    else preview.

End InputModal.

Module Commands.

(** A command ends with a notice and nothing else, or runs the
    conversion. *)
Inductive result (W : Type) :=
| Notice (message : jsstring) (w : W)
| Ran (o : Plugin.outcome W).
Arguments Notice {W}.
Arguments Ran {W}.

(** The submit button of the input dialog, with the callback that
    [openConversionModal] installs: [processConversion(data, charCount)]. *)
Definition submit (h : Plugin.Host) (settings : Plugin.Settings)
    (inputData : jsstring) (targetCharCount : Z) (w : Plugin.World h)
  : result (Plugin.World h) :=
  if streq (trim inputData) [] then Notice (lit "데이터를 입력해주세요.") w
  else if len' (Main.parseTSV inputData) =? 0 then
    Notice (lit "유효한 데이터가 없습니다. 형식: 학번 [탭] 이름 [탭] 활동내용") w
  else Ran (Plugin.processConversion h settings inputData targetCharCount w).

(** The command [convert-from-selection]. *)
Definition convertFromSelection (h : Plugin.Host) (settings : Plugin.Settings)
    (selection : jsstring) (w : Plugin.World h) : result (Plugin.World h) :=
  if streq (trim selection) [] then Notice (lit "텍스트를 선택해주세요.") w
  else Ran (Plugin.processConversion h settings selection
              (Plugin.targetCharCount settings) w).

End Commands.

(* ===================================================================== *)
(** ** Further formulations and samples                                   *)
(* ===================================================================== *)

Module Facts.

(** The text with every line feed replaced by carriage return and line
    feed, as a Windows clipboard gives it. *)
Definition crlf (text : jsstring) : jsstring :=
  flat_map (fun c => if c =? LF then [CR; LF] else [c]) text.

(** The lines of a text with CR LF line ends, from the lines of the text
    with LF line ends: every line but the last gains a carriage return. *)
Fixpoint withCR (lines : list jsstring) : list jsstring :=
  match lines with
  | [] => []
  | [line] => [line]
  | line :: rest => (line ++ [CR]) :: withCR rest
  end.

(** A parsed row whose three fields are trimmed and hold no tab and no
    newline. *)
Definition cleanParsed (a : StudentActivity.t) : Prop :=
  Spec.cleanField (StudentActivity.studentId a)
  /\ Spec.cleanField (StudentActivity.studentName a)
  /\ Spec.cleanField (StudentActivity.activityContent a).

(** A code unit that both byte counters charge alike: below U+0100, or in
    one of the five ranges of [part_000]. *)
Definition sameCost (c : Z) : bool := (c <? 0x100) || Part000.isWideCode c.

(** Each pipe of the text comes right after a backslash. *)
Fixpoint pipesEscaped (s : jsstring) : bool :=
  match s with
  | [] => true
  | c :: rest =>
    if c =? PIPE then false
    else if c =? BACKSLASH then
      match rest with
      | d :: rest' => if d =? PIPE then pipesEscaped rest' else pipesEscaped rest
      | [] => true
      end
    else pipesEscaped rest
  end.

(** The number of occurrences of a code unit. *)
Definition occurrences (c : Z) (s : jsstring) : Z :=
  len (List.filter (fun d => d =? c) s).

(** Some line of the trimmed input holds at least two tab characters. *)
Definition hasRow (data : jsstring) : bool :=
  existsb (fun line => 2 <=? occurrences TAB line) (split LF (trim data)).

(** The pauses and the console errors of a log. *)
Definition isSleep (ev : Plugin.event) : bool :=
  match ev with Plugin.Sleep _ => true | _ => false end.
Definition isConsoleError (ev : Plugin.event) : bool :=
  match ev with Plugin.ConsoleError _ _ => true | _ => false end.

(** The calls to [updateProgress] of a log. *)
Fixpoint progressCalls (log : list Plugin.event) : list (Z * Z * jsstring) :=
  match log with
  | [] => []
  | Plugin.UpdateProgress current total studentName :: log' =>
    (current, total, studentName) :: progressCalls log'
  | _ :: log' => progressCalls log'
  end.

(** The calls the loop makes for the rows from index [i] on. *)
Fixpoint expectedProgress (i total : Z) (activities : list StudentActivity.t)
  : list (Z * Z * jsstring) :=
  match activities with
  | [] => []
  | a :: rest =>
    (i + 1, total, StudentActivity.studentName a) :: expectedProgress (i + 1) total rest
  end.

(** The pause of the turn at index [i]. *)
Definition pauseAt (activities : list StudentActivity.t) (i : nat)
  : list Plugin.event :=
  if Z.of_nat i <? len' activities - 1 then [Plugin.Sleep 500] else [].

(** What the log of the loop holds after the rows [pre] of [activities]:
    the calls to [updateProgress], the pauses, the console errors. *)
Definition logInv {W : Type} (activities pre : list StudentActivity.t)
    (st : Plugin.loopState W) : Prop :=
  Plugin.uncaught st = None
  /\ progressCalls (Plugin.log st)
     = expectedProgress 0 (len' activities) pre
  /\ List.filter isSleep (Plugin.log st)
     = repeat (Plugin.Sleep 500) (Nat.min (length pre) (length activities - 1))
  /\ Plugin.errorCount st = len' (List.filter isConsoleError (Plugin.log st))
  /\ (length pre = length activities ->
      isSleep (List.last (Plugin.log st) Plugin.OpenProgress) = false).

(** The names that are not empty. *)
Definition namedOnly (names : list jsstring) : list jsstring :=
  List.filter (fun name => negb (streq name [])) names.

(** A chat completion of fixed content, and the network that answers
    every request with it. *)
Definition chatAnswer (content : Vendor.json) : Vendor.json :=
  Vendor.JObject
    [(lit "choices", Vendor.JArray
        [Vendor.JObject
           [(lit "message", Vendor.JObject [(lit "content", content)])]])].

Definition answeringNet (content : Vendor.json) : Vendor.Net := {|
  Vendor.NetWorld := nat;
  Vendor.requestUrl := fun _ w =>
    (Plugin.Normal {| Vendor.status := 200;
                      Vendor.json_ := Plugin.Normal (chatAnswer content) |},
     Datatypes.S w);
  Vendor.faultText := fun _ => lit "TypeError";
  Vendor.createNote := fun _ _ w => (Plugin.Normal tt, w);
|}.

(** Settings naming a provider the plugin does not know. *)
Definition unknownProviderSettings : Plugin.Settings := {|
  Plugin.apiProvider := lit "mistral";
  Plugin.apiKey := lit "key";
  Plugin.targetCharCount := 500;
  Plugin.outputFolder := [];
  Plugin.modelId := [];
|}.

End Facts.

(* ===================================================================== *)
(** ** The batch whose calls all fail, and the note                       *)
(* ===================================================================== *)

Module Batch.

(** The observation of a failed row, spelled out: the message of the
    [Error] that was thrown, or the fixed text for any other thrown
    value. *)
Definition placeholderText (error : Plugin.thrown) : jsstring :=
  match error with
  | Plugin.JsError message => lit "[변환 실패: " ++ message ++ lit "]"
  | Plugin.NotAnError => lit "[변환 실패: 알 수 없는 오류]"
  end.

(** The placeholder record of the row [a] whose call threw [error]. *)
Definition placeholder (a : StudentActivity.t) (error : Plugin.thrown)
  : ObservationRecord.t :=
  ObservationRecord.make
    (StudentActivity.studentId a) (StudentActivity.studentName a)
    (StudentActivity.activityContent a) (placeholderText error) 0 0.

(** The line of the Markdown table that shows a placeholder. *)
Definition placeholderRow (a : StudentActivity.t) (error : Plugin.thrown)
  : jsstring :=
  lit "| " ++ StudentActivity.studentId a
  ++ lit " | " ++ StudentActivity.studentName a
  ++ lit " | " ++ Main.escapeCell (StudentActivity.activityContent a)
  ++ lit " | " ++ Main.escapeCell (placeholderText error)
  ++ lit " | 0 | 0 |" ++ [LF].

(** One invocation of the text generation for a row: a single call of
    the vendor that the settings name, with the key of the settings and
    the model of the settings or else the default model of that vendor.
    A provider that the plugin does not know is an error without a
    call. *)
Definition callVendor (h : Plugin.Host) (settings : Plugin.Settings)
    (a : StudentActivity.t) (target : Z) (w : Plugin.World h)
  : Plugin.completion jsstring * Plugin.World h :=
  let provider := Plugin.apiProvider settings in
  let model (fallback : jsstring) :=
    match Plugin.modelId settings with [] => fallback | _ => Plugin.modelId settings end in
  if streq provider (lit "openai") then
    Plugin.callOpenAI h (Plugin.apiKey settings) (model (lit "gpt-4o-mini")) a target w
  else if streq provider (lit "claude") then
    Plugin.callClaude h (Plugin.apiKey settings)
      (model (lit "claude-sonnet-4-5-20250929")) a target w
  else if streq provider (lit "gemini") then
    Plugin.callGemini h (Plugin.apiKey settings) (model (lit "gemini-2.5-flash"))
      a target w
  else if streq provider (lit "grok") then
    Plugin.callGrok h (Plugin.apiKey settings) (model (lit "grok-4-1-fast")) a target w
  else
    (Plugin.Throw (Plugin.JsError (lit "지원하지 않는 AI 제공자: " ++ provider)), w).

(** "Every generate invocation fails": invoked once for each row in input
    order, each time on the world that the invocation before left, the
    generation throws [errors] one after the other and leaves the world
    [w'].  Nothing is asked of a call that is not made. *)
Inductive eachCallFails (h : Plugin.Host) (settings : Plugin.Settings) (target : Z)
  : list StudentActivity.t -> Plugin.World h -> list Plugin.thrown
    -> Plugin.World h -> Prop :=
| noCall (w : Plugin.World h) : eachCallFails h settings target [] w [] w
| failedCall (a : StudentActivity.t) (rest : list StudentActivity.t)
    (w w1 w' : Plugin.World h) (error : Plugin.thrown) (errors : list Plugin.thrown) :
    callVendor h settings a target w = (Plugin.Throw error, w1) ->
    eachCallFails h settings target rest w1 errors w' ->
    eachCallFails h settings target (a :: rest) w (error :: errors) w'.

(** The host [h] with a recorder in front of its four vendors: every call
    that reaches a vendor is passed on to [h] and the row it is made for
    is written down. *)
Definition recording (h : Plugin.Host) : Plugin.Host := {|
  Plugin.World := Plugin.World h * list StudentActivity.t;
  Plugin.callOpenAI := fun key model a target '(w, seen) =>
    let '(result, w1) := Plugin.callOpenAI h key model a target w in
    (result, (w1, seen ++ [a]));
  Plugin.callClaude := fun key model a target '(w, seen) =>
    let '(result, w1) := Plugin.callClaude h key model a target w in
    (result, (w1, seen ++ [a]));
  Plugin.callGemini := fun key model a target '(w, seen) =>
    let '(result, w1) := Plugin.callGemini h key model a target w in
    (result, (w1, seen ++ [a]));
  Plugin.callGrok := fun key model a target '(w, seen) =>
    let '(result, w1) := Plugin.callGrok h key model a target w in
    (result, (w1, seen ++ [a]));
  Plugin.vaultCreate := fun tsv table '(w, seen) =>
    let '(result, w1) := Plugin.vaultCreate h tsv table w in
    (result, (w1, seen));
|}.

(** The end of [processConversion] after a loop that ended in [st]: the
    dialog is closed, the host is asked to create the note with the two
    renderings [tsv] and [table], and [notice] is shown when it did. *)
Definition noteWritten (h : Plugin.Host) (st : Plugin.loopState (Plugin.World h))
    (tsv table notice : jsstring) : Plugin.outcome (Plugin.World h) :=
  let closed := Plugin.LoopState (Plugin.records st) (Plugin.errorCount st)
                  (Plugin.world st)
                  (Plugin.log st
                   ++ [Plugin.MarkLastStudentComplete; Plugin.CloseProgress])
                  None in
  match Plugin.vaultCreate h tsv table (Plugin.world st) with
  | (Plugin.Normal _, w') => Plugin.Done closed notice w'
  | (Plugin.Throw error, _) => Plugin.Rejected error closed
  end.

(** A host that counts the calls it receives and fails each of them; its
    vault accepts the note. *)
Definition countingHost : Plugin.Host := {|
  Plugin.World := nat;
  Plugin.callOpenAI := fun _ _ _ _ calls =>
    (Plugin.Throw (Plugin.JsError (lit "network down")), Datatypes.S calls);
  Plugin.callClaude := fun _ _ _ _ calls =>
    (Plugin.Throw (Plugin.JsError (lit "network down")), Datatypes.S calls);
  Plugin.callGemini := fun _ _ _ _ calls =>
    (Plugin.Throw (Plugin.JsError (lit "network down")), Datatypes.S calls);
  Plugin.callGrok := fun _ _ _ _ calls =>
    (Plugin.Throw (Plugin.JsError (lit "network down")), Datatypes.S calls);
  Plugin.vaultCreate := fun _ _ calls => (Plugin.Normal tt, calls);
|}.

End Batch.

(* ===================================================================== *)
(** ** What goes to a vendor and what is read from its answer            *)
(* ===================================================================== *)

Module Answers.

(** The request that the call of the configured vendor sends for a row:
    the key of the settings, and the model of the settings or the default
    model of the vendor. *)
Definition requestOf (settings : Plugin.Settings) (activity : StudentActivity.t)
    (targetCharCount : Z) : Vendor.request :=
  let provider := Plugin.apiProvider settings in
  let model (fallback : jsstring) :=
    match Plugin.modelId settings with [] => fallback | chosen => chosen end in
  if streq provider (lit "openai") then
    Vendor.openaiRequest (Plugin.apiKey settings) (model (lit "gpt-4o-mini"))
      activity targetCharCount
  else if streq provider (lit "claude") then
    Vendor.claudeRequest (Plugin.apiKey settings)
      (model (lit "claude-sonnet-4-5-20250929")) activity targetCharCount
  else if streq provider (lit "gemini") then
    Vendor.geminiRequest (Plugin.apiKey settings) (model (lit "gemini-2.5-flash"))
      activity targetCharCount
  else
    Vendor.grokRequest (Plugin.apiKey settings) (model (lit "grok-4-1-fast"))
      activity targetCharCount.

(** The member of a JSON object under a name. *)
Fixpoint member (name : jsstring) (members : list (jsstring * Vendor.json))
  : option Vendor.json :=
  match members with
  | [] => None
  | (k, v) :: rest => if streq k name then Some v else member name rest
  end.

(** The value at a path of member names and array indices in a JSON
    document, when the document has one there. *)
Fixpoint lookupPath (path : list Vendor.key) (j : Vendor.json)
  : option Vendor.json :=
  match path with
  | [] => Some j
  | Vendor.Name name :: rest =>
    match j with
    | Vendor.JObject members =>
      match member name members with
      | Some v => lookupPath rest v
      | None => None
      end
    | _ => None
    end
  | Vendor.Index i :: rest =>
    match j with
    | Vendor.JArray items =>
      match items !! i with
      | Some v => lookupPath rest v
      | None => None
      end
    | _ => None
    end
  end.

(** Where the answer of each vendor holds the generated text:
    [choices[0].message.content] for OpenAI and Grok, [content[0].text]
    for Claude, [candidates[0].content.parts[0].text] for Gemini. *)
Definition contentPath (provider : jsstring) : list Vendor.key :=
  if streq provider (lit "openai") then
    [Vendor.Name (lit "choices"); Vendor.Index 0; Vendor.Name (lit "message");
     Vendor.Name (lit "content")]
  else if streq provider (lit "claude") then
    [Vendor.Name (lit "content"); Vendor.Index 0; Vendor.Name (lit "text")]
  else if streq provider (lit "gemini") then
    [Vendor.Name (lit "candidates"); Vendor.Index 0; Vendor.Name (lit "content");
     Vendor.Name (lit "parts"); Vendor.Index 0; Vendor.Name (lit "text")]
  else
    [Vendor.Name (lit "choices"); Vendor.Index 0; Vendor.Name (lit "message");
     Vendor.Name (lit "content")].

(** A network that answers each request with a status that depends on
    the request, none of them 200: 204 to OpenAI, 302 elsewhere. *)
Definition refusingNet : Vendor.Net := {|
  Vendor.NetWorld := nat;
  Vendor.requestUrl := fun request sent =>
    (Plugin.Normal
       {| Vendor.status :=
            if streq (Vendor.url request)
                 (lit "https://api.openai.com/v1/chat/completions")
            then 204 else 302;
          Vendor.json_ := Plugin.Normal Vendor.JNull |},
     Datatypes.S sent);
  Vendor.faultText := fun _ => lit "TypeError";
  Vendor.createNote := fun _ _ sent => (Plugin.Normal tt, sent);
|}.

End Answers.

(* ===================================================================== *)
(** ** The older table of [src/unnamed/part_000]                          *)
(* ===================================================================== *)

Module Part000Table.

(** [interface ObservationRecord] of [part_000]: no activity column yet. *)
Record ObservationRecord := make {
  studentId : jsstring;
  studentName : jsstring;
  observation : jsstring;
  charCount : Z;
  byteCount : Z;
}.

Definition tableHeader : jsstring :=
  lit "| 학번 | 이름 | 교사관찰기록 | 글자수 | 바이트수 |" ++ [LF].
Definition tableRule : jsstring :=
  lit "|------|------|-------------|--------|----------|" ++ [LF].

Definition tableRow (record : ObservationRecord) : jsstring :=
  let escapedObservation := Main.escapeCell (observation record) in
  lit "| " ++ studentId record
  ++ lit " | " ++ studentName record
  ++ lit " | " ++ escapedObservation
  ++ lit " | " ++ numberToString (charCount record)
  ++ lit " | " ++ numberToString (byteCount record)
  ++ lit " |" ++ [LF].

(** [generateMarkdownTable] of [part_000] *)
Definition generateMarkdownTable (records : list ObservationRecord) : jsstring :=
  let table := tableHeader in
  let table := table ++ tableRule in
  for_of records (fun table record => table ++ tableRow record) table.

(** A sample: the second observation holds a pipe and a newline. *)
Definition twoRecords : list ObservationRecord :=
  [make (lit "10101") (lit "김철수") (lit "리더 역할을 맡음") 9 23;
   make (lit "10102") (lit "이영희") (lit "a|b" ++ [LF] ++ lit "c") 5 5].

End Part000Table.

(* ===================================================================== *)
(** ** Loops                                                              *)
(* ===================================================================== *)

Section LoopRules.
Context {A S : Type}.

(** The rule of the counted loop over an array: an invariant of the
    elements seen so far, kept by every turn at an index in range. *)
Lemma for_from_invariant (xs : list A) (body : nat -> S -> S)
    (Inv : list A -> S -> Prop) :
  (forall pre a suf s,
      xs = pre ++ a :: suf -> Inv pre s -> Inv (pre ++ [a]) (body (length pre) s)) ->
  forall suf pre s,
    xs = pre ++ suf -> Inv pre s ->
    Inv xs (for_from (length pre) (length suf) body s).
Proof.
  intros Hstep suf. induction suf as [|a suf IH]; intros pre s Hxs Hinv.
  - simpl. rewrite app_nil_r in Hxs. by subst.
  - simpl.
    specialize (IH (pre ++ [a]) (body (length pre) s)).
    rewrite length_app in IH. simpl in IH.
    replace (length pre + 1)%nat with (Datatypes.S (length pre)) in IH by lia.
    apply IH.
    + by rewrite <- app_assoc.
    + by eapply Hstep.
Qed.

Lemma for_upto_invariant (xs : list A) (body : nat -> S -> S)
    (Inv : list A -> S -> Prop) (s0 : S) :
  Inv [] s0 ->
  (forall pre a suf s,
      xs = pre ++ a :: suf -> Inv pre s -> Inv (pre ++ [a]) (body (length pre) s)) ->
  Inv xs (for_upto (length xs) body s0).
Proof.
  intros H0 Hstep. unfold for_upto.
  by apply (for_from_invariant xs body Inv Hstep xs [] s0).
Qed.

(** A loop that appends one piece per element builds the concatenation. *)
Lemma for_of_append {B : Type} (piece : A -> list B) (xs : list A) (acc : list B) :
  for_of xs (fun acc x => acc ++ piece x) acc = acc ++ concat (map piece xs).
Proof.
  unfold for_of. revert acc. induction xs as [|x xs IH]; intros acc; simpl.
  - by rewrite app_nil_r.
  - rewrite IH. by rewrite <- app_assoc.
Qed.
End LoopRules.

Lemma lookup_middle_elem {A} (pre suf : list A) (a : A) :
  (pre ++ a :: suf) !! length pre = Some a.
Proof. by rewrite list_lookup_middle. Qed.

(* ===================================================================== *)
(** ** The byte counters                                                  *)
(* ===================================================================== *)

Lemma sumZ_app (xs ys : list Z) : Spec.sumZ (xs ++ ys) = Spec.sumZ xs + Spec.sumZ ys.
Proof. unfold Spec.sumZ. induction xs; simpl; lia. Qed.

(** One turn of the loop of [countBytes] adds the cost of the unit read. *)
Lemma countBytes_body_cost (pre suf : jsstring) (c bytes : Z) :
  Main.countBytes_body (pre ++ c :: suf) (length pre) bytes = bytes + Spec.charCost c.
Proof.
  unfold Main.countBytes_body, charAt, Spec.charCost, streq.
  rewrite lookup_middle_elem.
  destruct (Z.eqb_spec c LF) as [->|Hne].
  - by rewrite bool_decide_eq_true_2.
  - rewrite bool_decide_eq_false_2 by congruence.
    by destruct (4 <? len (escape [c])).
Qed.

Lemma countBytes_as_sum (text : jsstring) :
  Main.countBytes text = Spec.sumZ (map Spec.charCost text).
Proof.
  unfold Main.countBytes.
  apply (for_upto_invariant text (Main.countBytes_body text)
           (fun pre bytes => bytes = Spec.sumZ (map Spec.charCost pre))).
  - reflexivity.
  - intros pre c suf bytes -> ->.
    rewrite countBytes_body_cost, map_app, sumZ_app. simpl. lia.
Qed.

(** **** Claim C1.
    For every input string, [countBytes] returns the sum of the
    per-character costs over the UTF-16 code units of the string: 1 for a
    newline, 3 for any other unit whose escaped form is longer than 4
    characters, 1 for every remaining unit. *)
Theorem countBytes_sum_of_costs (text : jsstring) :
  Main.countBytes text = Spec.sumZ (map Spec.charCost text).
Proof.
  unfold Main.countBytes, for_upto.
  cut (forall suf pre bytes,
          for_from (length pre) (length suf) (Main.countBytes_body (pre ++ suf)) bytes
          = bytes + Spec.sumZ (map Spec.charCost suf)).
  { intros Hloop. exact (Hloop text [] 0). }
  induction suf as [|c suf IH]; intros pre bytes.
  - simpl. lia.
  - cbn [length for_from map]. rewrite countBytes_body_cost.
    replace (pre ++ c :: suf) with ((pre ++ [c]) ++ suf) by (by rewrite <- app_assoc).
    replace (Datatypes.S (length pre)) with (length (pre ++ [c]))
      by (rewrite length_app; simpl; lia).
    rewrite IH. change (Spec.sumZ (?x :: ?l)) with (x + Spec.sumZ l). lia.
Qed.

(** **** The escape rule is a threshold at U+0100. *)

Lemma isUnescaped_below_256 (c : Z) : isUnescaped c = true -> c < 256.
Proof.
  unfold isUnescaped.
  rewrite !orb_true_iff, !andb_true_iff, !Z.leb_le, !Z.eqb_eq. lia.
Qed.

Lemma escape_unit_length (c : Z) :
  len (escape [c]) = if isUnescaped c then 1 else if c <? 256 then 3 else 6.
Proof.
  unfold escape, len. simpl. rewrite app_nil_r. unfold escapeUnit.
  destruct (isUnescaped c); [reflexivity|].
  destruct (c <? 256); reflexivity.
Qed.

Lemma charCost_threshold (c : Z) : Spec.charCost c = Spec.thresholdCost c.
Proof.
  unfold Spec.charCost, Spec.thresholdCost.
  destruct (Z.eqb_spec c LF) as [->|_]; [reflexivity|].
  rewrite escape_unit_length.
  destruct (isUnescaped c) eqn:Hu.
  - apply isUnescaped_below_256 in Hu.
    destruct (Z.leb_spec 0x100 c); [lia | reflexivity].
  - destruct (Z.ltb_spec c 256), (Z.leb_spec 0x100 c); try reflexivity; lia.
Qed.

Lemma charCost_cases (c : Z) :
  (Spec.isWide c = true /\ Spec.charCost c = 3)
  \/ (Spec.isWide c = false /\ Spec.charCost c = 1).
Proof.
  unfold Spec.isWide. rewrite charCost_threshold. unfold Spec.thresholdCost.
  destruct (0x100 <=? c); [left | right]; split; reflexivity.
Qed.

Lemma charCost_ascii (c : Z) : Spec.isAsciiGraphic c = true -> Spec.charCost c = 1.
Proof.
  unfold Spec.isAsciiGraphic. rewrite andb_true_iff, !Z.leb_le. intros [_ Hc].
  rewrite charCost_threshold. unfold Spec.thresholdCost.
  destruct (Z.leb_spec 0x100 c); [lia | reflexivity].
Qed.

Lemma charCost_hangul (c : Z) : Spec.isHangulSyllable c = true -> Spec.charCost c = 3.
Proof.
  unfold Spec.isHangulSyllable. rewrite andb_true_iff, !Z.leb_le. intros [Hc _].
  rewrite charCost_threshold. unfold Spec.thresholdCost.
  destruct (Z.leb_spec 0x100 c); [reflexivity | lia].
Qed.

Lemma sum_of_costs_mixed (text : jsstring) :
  Spec.sumZ (map Spec.charCost text) = 3 * Spec.wideCount text + Spec.narrowCount text.
Proof.
  unfold Spec.wideCount, Spec.narrowCount, len.
  induction text as [|c text IH]; [reflexivity|].
  cbn [map List.filter]. change (Spec.sumZ (?x :: ?l)) with (x + Spec.sumZ l).
  rewrite IH.
  destruct (charCost_cases c) as [[-> ->]|[-> ->]]; cbn [negb length]; lia.
Qed.

Lemma sum_of_constant_cost (k : Z) (ok : Z -> bool) (text : jsstring) :
  (forall c, ok c = true -> Spec.charCost c = k) ->
  forallb ok text = true ->
  Spec.sumZ (map Spec.charCost text) = k * len text.
Proof.
  intros Hk. unfold len. induction text as [|c text IH]; intros Hall.
  - simpl. lia.
  - cbn [forallb] in Hall. apply andb_true_iff in Hall as [Hc Hall].
    cbn [map length]. change (Spec.sumZ (?x :: ?l)) with (x + Spec.sumZ l).
    rewrite IH, (Hk c Hc) by assumption. lia.
Qed.

(** **** Claim C2.
    For a string of [n] wide characters and [m] narrow or newline
    characters, in any order, [countBytes] returns [3n + m]; the byte count
    equals the character count on strings of ASCII letters, digits and
    punctuation, and three times the character count on strings of Hangul
    syllables. *)
Theorem countBytes_wide_narrow (text : jsstring) :
  Main.countBytes text = 3 * Spec.wideCount text + Spec.narrowCount text
  /\ Spec.wideCount text + Spec.narrowCount text = Main.countChars text
  /\ (forall c, Spec.isHangulSyllable c = true \/ Spec.isCJKIdeograph c = true ->
      Spec.isWide c = true)
  /\ (forall c, Spec.isAsciiGraphic c = true \/ c = SPACE \/ c = LF ->
      Spec.isWide c = false)
  /\ (forallb Spec.isAsciiGraphic text = true ->
      Main.countBytes text = Main.countChars text)
  /\ (forallb Spec.isHangulSyllable text = true ->
      Main.countBytes text = 3 * Main.countChars text).
Proof.
  rewrite countBytes_as_sum. repeat split.
  - apply sum_of_costs_mixed.
  - unfold Spec.wideCount, Spec.narrowCount, Main.countChars, len.
    induction text as [|c text IH]; [reflexivity|].
    cbn [List.filter]. destruct (Spec.isWide c); cbn [negb length]; lia.
  - intros c Hc. unfold Spec.isWide. rewrite charCost_threshold.
    unfold Spec.thresholdCost, Spec.isHangulSyllable, Spec.isCJKIdeograph in *.
    rewrite !andb_true_iff, !Z.leb_le in Hc.
    destruct (Z.leb_spec 0x100 c); [reflexivity | lia].
  - intros c Hc. unfold Spec.isWide. rewrite charCost_threshold.
    unfold Spec.thresholdCost, Spec.isAsciiGraphic, SPACE, LF in *.
    rewrite !andb_true_iff, !Z.leb_le in Hc.
    destruct (Z.leb_spec 0x100 c); [lia | reflexivity].
  - intros Hall. unfold Main.countChars.
    rewrite (sum_of_constant_cost 1 Spec.isAsciiGraphic) by auto using charCost_ascii.
    lia.
  - intros Hall. unfold Main.countChars.
    by rewrite (sum_of_constant_cost 3 Spec.isHangulSyllable) by auto using charCost_hangul.
Qed.

Lemma countBytes_wide_narrow_witness :
  Spec.isWide 0xD55C = true
  /\ Spec.isWide 0x41 = false
  /\ (forallb Spec.isAsciiGraphic (lit "Hello,World!2024") = true
   /\ Main.countBytes (lit "Hello,World!2024")
      = Main.countChars (lit "Hello,World!2024"))
  /\ (forallb Spec.isHangulSyllable (lit "교사관찰기록") = true
      /\ Main.countBytes (lit "교사관찰기록")
         = 3 * Main.countChars (lit "교사관찰기록")).
Proof.
  split; [|split].
  - apply (countBytes_wide_narrow []). left. reflexivity.
  - apply (countBytes_wide_narrow []). left. reflexivity.
  - split; (split; [reflexivity|]).
    + apply (countBytes_wide_narrow (lit "Hello,World!2024")). reflexivity.
    + apply (countBytes_wide_narrow (lit "교사관찰기록")). reflexivity.
Defined.

(** **** Claim C9.
    The escape-based [countBytes] computes, on every string, what the
    threshold counter computes: 3 bytes for each code unit at or above
    U+0100 and 1 byte for each code unit below it.  So U+00E9 costs 1 byte,
    and Greek or Cyrillic letters cost 3 like Hangul. *)
Theorem countBytes_is_threshold (text : jsstring) :
  Main.countBytes text = Spec.countBytes_threshold text
  /\ Main.countBytes [0xE9] = 1
  /\ (forall c, 0x100 <= c -> Main.countBytes [c] = 3)
  /\ (forall c, c < 0x100 -> Main.countBytes [c] = 1).
Proof.
  assert (Hone : forall c, Main.countBytes [c] = Spec.thresholdCost c).
  { intros c. rewrite countBytes_as_sum. simpl.
    rewrite charCost_threshold. unfold Spec.sumZ. simpl. lia. }
  repeat split.
  - rewrite countBytes_as_sum. unfold Spec.countBytes_threshold.
    f_equal. apply map_ext. exact charCost_threshold.
  - intros c Hc. rewrite Hone. unfold Spec.thresholdCost.
    destruct (Z.leb_spec 0x100 c); [reflexivity | lia].
  - intros c Hc. rewrite Hone. unfold Spec.thresholdCost.
    destruct (Z.leb_spec 0x100 c); [lia | reflexivity].
Qed.

Lemma countBytes_is_threshold_witness :
  Main.countBytes (lit "α") = 3 /\ Main.countBytes (lit "é") = 1.
Proof.
  split.
  - apply (countBytes_is_threshold []). vm_compute. discriminate.
  - apply (countBytes_is_threshold []). reflexivity.
Defined.

(** **** Bytes against characters. *)

Lemma charCost_positive (c : Z) : 1 <= Spec.charCost c.
Proof. destruct (charCost_cases c) as [[_ ->]|[_ ->]]; lia. Qed.

(** The counter of [src/main.ts] never goes below the character count. *)
Lemma main_countBytes_ge_countChars (text : jsstring) :
  Main.countChars text <= Main.countBytes text.
Proof.
  rewrite countBytes_as_sum. unfold Main.countChars, len.
  induction text as [|c text IH]; [reflexivity|].
  cbn [map length]. change (Spec.sumZ (?x :: ?l)) with (x + Spec.sumZ l).
  pose proof (charCost_positive c). lia.
Qed.

(** Without a high surrogate the iterator of [part_000] yields the code
    units one by one, and its counter charges each at least one byte. *)
Lemma stringIterator_units (text : jsstring) :
  forallb (fun c => negb (isHighSurrogate c)) text = true ->
  stringIterator text = map (fun c => [c]) text.
Proof.
  induction text as [|c text IH]; [reflexivity|].
  cbn [forallb]. rewrite andb_true_iff. intros [Hc Hall].
  apply negb_true_iff in Hc.
  cbn [stringIterator map]. destruct text as [|d text]; [reflexivity|].
  rewrite Hc. cbn [andb]. by rewrite IH.
Qed.

Lemma part000_fold_ge (chars : list Z) (bytes : Z) :
  bytes + len chars
  <= fold_left Part000.countBytes_body (map (fun c => [c]) chars) bytes.
Proof.
  unfold len. revert bytes. induction chars as [|c chars IH]; intros bytes.
  - simpl. lia.
  - cbn [map fold_left length]. etransitivity; [|apply IH].
    unfold Part000.countBytes_body, charCodeAt0. simpl.
    destruct (Part000.isWideCode c); lia.
Qed.

Lemma part000_countBytes_ge_without_surrogates (text : jsstring) :
  forallb (fun c => negb (isHighSurrogate c)) text = true ->
  Part000.countChars text <= Part000.countBytes text.
Proof.
  intros Hall. unfold Part000.countBytes, Part000.countChars, for_of.
  rewrite stringIterator_units by assumption.
  pose proof (part000_fold_ge text 0). lia.
Qed.

(** **** Claim C4.
    [countBytes(s) >= countChars(s)] holds for every string with the
    escape-based counter of [src/main.ts].  The range-based counter of
    [src/unnamed/part_000] walks the string by code point while
    [countChars] counts code units: on the one-emoji string U+1F600, two
    code units, it returns 1 byte against 2 characters. *)
Theorem byteCount_charCount_both_counters :
  (forall text, Main.countChars text <= Main.countBytes text)
  /\ lit "😀" = [0xD83D; 0xDE00]
  /\ Part000.countChars [0xD83D; 0xDE00] = 2
  /\ Part000.countBytes [0xD83D; 0xDE00] = 1
  /\ ~ (Part000.countBytes [0xD83D; 0xDE00] >= Part000.countChars [0xD83D; 0xDE00]).
Proof.
  split; [exact main_countBytes_ge_countChars|].
  repeat split; vm_compute; congruence.
Qed.

(* ===================================================================== *)
(** ** The byte estimator                                                 *)
(* ===================================================================== *)

Lemma in_integersFrom (count : nat) (start c : Z) :
  start <= c < start + Z.of_nat count -> In c (Spec.integersFrom start count).
Proof.
  revert start. induction count as [|k IH]; intros start Hc; [lia|].
  cbn [Spec.integersFrom]. destruct (Z.eq_dec start c) as [->|Hne].
  - by left.
  - right. apply IH. lia.
Qed.

Lemma estimateAgrees_upto_10000 :
  forallb Spec.estimateAgrees (Spec.integersFrom 0 (Z.to_nat 10001)) = true.
Proof. vm_compute. reflexivity. Qed.

Lemma estimateBytes_exact_in_range (c : Z) :
  0 <= c <= 10000 ->
  Spec.toInteger (Main.estimateBytes (Spec.toNumber c)) = Some (Spec.estimateBytes_exact c).
Proof.
  intros Hc.
  pose proof estimateAgrees_upto_10000 as Hall.
  rewrite forallb_forall in Hall.
  assert (Hin : In c (Spec.integersFrom 0 (Z.to_nat 10001))).
  { apply in_integersFrom. lia. }
  specialize (Hall c Hin).
  unfold Spec.estimateAgrees in Hall.
  destruct (Spec.toInteger _) as [bytes|]; [|discriminate Hall].
  f_equal. by apply Z.eqb_eq.
Qed.

(** [round] on exact numbers gives the nearest integer: the exact value
    13c/5 is never halfway between two integers. *)
Lemma estimateBytes_exact_nearest (c : Z) :
  -4 <= 26 * c - 10 * Spec.estimateBytes_exact c <= 4.
Proof. unfold Spec.estimateBytes_exact. Z.div_mod_to_equations. lia. Qed.




(* ===================================================================== *)
(** ** The tab-separated parser                                           *)
(* ===================================================================== *)

Lemma parseTSV_body_spec (activities : list StudentActivity.t) (line : jsstring) :
  Main.parseTSV_body activities line = activities ++ Spec.parseLines [line].
Proof.
  unfold Main.parseTSV_body, Spec.parseLines, Spec.accepted, Spec.fields.
  cbn [map List.filter].
  destruct (3 <=? len' (split TAB line)).
  - reflexivity.
  - by rewrite app_nil_r.
Qed.

Lemma parseLines_app (xs ys : list jsstring) :
  Spec.parseLines (xs ++ ys) = Spec.parseLines xs ++ Spec.parseLines ys.
Proof. unfold Spec.parseLines. by rewrite map_app, List.filter_app, map_app. Qed.

Lemma parseTSV_loop (lines : list jsstring) (activities : list StudentActivity.t) :
  for_of lines Main.parseTSV_body activities = activities ++ Spec.parseLines lines.
Proof.
  unfold for_of. revert activities.
  induction lines as [|line lines IH]; intros activities.
  - simpl. by rewrite app_nil_r.
  - cbn [fold_left]. rewrite IH, parseTSV_body_spec, <- app_assoc.
    by rewrite <- parseLines_app.
Qed.

(** [parseTSV] trims the whole input, then reads its lines. *)
Lemma parseTSV_lines (data : jsstring) :
  Main.parseTSV data = Spec.parseLines (split LF (trim data)).
Proof. unfold Main.parseTSV. by rewrite parseTSV_loop. Qed.

(** **** Claim C3.
    [parseTSV] trims the whole input before it splits it into lines, so
    the separator tabs at the start of the first line and at the end of
    the last line are lost.  The input "1<TAB>A<TAB>" is one line of
    three fields, of which the claim makes the record ("1", "A", "");
    [parseTSV] returns no record for it, although it keeps the same line
    when another row follows.  A first line with an empty id loses its
    first tab and its fields move one column to the left.  On the lines
    of the trimmed input the parser does what the claim says, and the
    example row yields its one record. *)
Theorem parseTSV_trim_eats_separators :
  Spec.parseTSV_raw Sample.trailingTab
  = [StudentActivity.make (lit "1") (lit "A") []]
  /\ Main.parseTSV Sample.trailingTab = []
  /\ Main.parseTSV Sample.trailingTabThenRow
     = [StudentActivity.make (lit "1") (lit "A") [];
        StudentActivity.make (lit "2") (lit "B") (lit "x")]
  /\ Spec.parseTSV_raw Sample.emptyIdFirst
     = [StudentActivity.make [] (lit "Kim") (lit "led the team extra");
        StudentActivity.make (lit "2") (lit "Lee") (lit "debate")]
  /\ Main.parseTSV Sample.emptyIdFirst
     = [StudentActivity.make (lit "Kim") (lit "led the team") (lit "extra");
        StudentActivity.make (lit "2") (lit "Lee") (lit "debate")]
  /\ (forall data, Main.parseTSV data = Spec.parseTSV_raw (trim data))
  /\ Main.parseTSV Sample.exampleRow
     = [StudentActivity.make (lit "10101") (lit "김철수")
          (lit "프로젝트 활동에서 리더 역할을 맡아 팀원들을 이끌었음")].
Proof.
  split; [vm_compute; reflexivity|]. split; [vm_compute; reflexivity|].
  split; [vm_compute; reflexivity|]. split; [vm_compute; reflexivity|].
  split; [vm_compute; reflexivity|]. split; [exact parseTSV_lines|].
  vm_compute. reflexivity.
Qed.

(** **** Claim C10.
    Empty fields count toward the three-field test, but only on a line
    that the trimming of the whole input leaves alone.  The line of two
    tabs yields the record of three empty strings when it stands between
    two rows; as the whole input, or as the last line, it is trimmed away
    before the fields are counted and yields nothing.  In the same way a
    row whose name and content are blank is kept between two rows, with
    empty name and content, and rejected when it is the last line. *)
Theorem parseTSV_drops_two_tab_line :
  Spec.parseTSV_raw [TAB; TAB] = [Spec.emptyActivity]
  /\ Main.parseTSV [TAB; TAB] = []
  /\ Main.parseTSV Sample.blankFields
     = [StudentActivity.make (lit "1") (lit "A") (lit "x");
        Spec.emptyActivity;
        StudentActivity.make (lit "2") [] [];
        StudentActivity.make (lit "3") (lit "C") (lit "z")]
  /\ Main.parseTSV Sample.twoTabsLast
     = [StudentActivity.make (lit "1") (lit "A") (lit "x")]
  /\ Spec.parseTSV_raw Sample.blankLast = [StudentActivity.make (lit "2") [] []]
  /\ Main.parseTSV Sample.blankLast = [].
Proof.
  split; [vm_compute; reflexivity|]. split; [vm_compute; reflexivity|].
  split; [vm_compute; reflexivity|]. split; [vm_compute; reflexivity|].
  split; [vm_compute; reflexivity|]. vm_compute. reflexivity.
Qed.

(* ===================================================================== *)
(** ** The conversion loop                                                *)
(* ===================================================================== *)

Section Conversion.
Import Plugin.
Variable h : Host.
Variable settings : Settings.
Variable target : Z.

Lemma attempts_app (l1 l2 : list event) :
  Spec.attempts (l1 ++ l2) = Spec.attempts l1 ++ Spec.attempts l2.
Proof.
  induction l1 as [|ev l1 IH]; [reflexivity|].
  destruct ev; cbn [app Spec.attempts]; by rewrite IH.
Qed.

Lemma attempts_pause (activities : list StudentActivity.t) (i : nat) :
  Spec.attempts (if Z.of_nat i <? len' activities - 1 then [Sleep 500] else []) = [].
Proof. by destruct (Z.of_nat i <? len' activities - 1). Qed.

(** What one turn does at an index in range, when no exception is
    pending: one call, then one record pushed. *)
Lemma convert_body_in_range (pre suf : list StudentActivity.t)
    (a : StudentActivity.t) (st : loopState (World h)) :
  uncaught st = None ->
  let st' := convert_body h settings (pre ++ a :: suf) target (length pre) st in
  uncaught st' = None
  /\ world st' = snd (generate h settings a target (world st))
  /\ Spec.attempts (log st') = Spec.attempts (log st) ++ [a]
  /\ match fst (generate h settings a target (world st)) with
     | Normal observation =>
       records st' = records st ++ [successRecord a observation]
       /\ errorCount st' = errorCount st
     | Throw error =>
       records st' = records st ++ [failureRecord a error]
       /\ errorCount st' = errorCount st + 1
     end.
Proof.
  intros Hnone. cbv zeta. unfold convert_body.
  rewrite Hnone, lookup_middle_elem.
  destruct (generate h settings a target (world st)) as [[observation|error] w];
    cbn [fst snd uncaught world log records errorCount];
    rewrite !attempts_app, attempts_pause; cbn [Spec.attempts];
    rewrite ?app_nil_r; auto.
Qed.

Lemma convertAll_invariant (activities : list StudentActivity.t) (w : World h) :
  Spec.convertInv h settings target activities
    (convertAll h settings activities target w).
Proof.
  unfold convertAll.
  apply (for_upto_invariant activities _ (Spec.convertInv h settings target)).
  - repeat split; [constructor | reflexivity | reflexivity].
  - intros pre a suf st -> (Hnone & Hrows & Hlog & Hcount).
    destruct (convert_body_in_range pre suf a st Hnone) as (Hn' & _ & Hlog' & Hres).
    unfold Spec.convertInv. rewrite Hlog', Hlog. unfold len' in *. rewrite length_app.
    destruct (generate h settings a target (world st)) as [[observation|error] w1] eqn:Hgen;
      cbn [fst] in Hres; destruct Hres as [-> ->];
      (split; [assumption|]); (split; [|split; [reflexivity | cbn [length]; lia]]);
      (apply Forall2_app; [assumption|]); (constructor; [|constructor]).
    + left. exists observation, (world st), w1. by split.
    + right. exists error, (world st), w1. by split.
Qed.

End Conversion.

Lemma sourceOf_rowOf (h : Plugin.Host) (settings : Plugin.Settings) (target : Z)
    (a : StudentActivity.t) (r : ObservationRecord.t) :
  Spec.rowOf h settings target a r -> Spec.sourceOf r = a.
Proof.
  intros [(obs & w0 & w1 & _ & ->)|(e & w0 & w1 & _ & ->)]; by destruct a.
Qed.

Lemma sourceOf_rows (h : Plugin.Host) (settings : Plugin.Settings) (target : Z)
    (activities : list StudentActivity.t) (records : list ObservationRecord.t) :
  Forall2 (Spec.rowOf h settings target) activities records ->
  map Spec.sourceOf records = activities.
Proof.
  induction 1 as [|a r activities records Hrow _ IH]; [reflexivity|].
  cbn [map]. by rewrite (sourceOf_rowOf _ _ _ _ _ Hrow), IH.
Qed.

Lemma generateMarkdownTable_rows (records : list ObservationRecord.t) :
  Main.generateMarkdownTable records
  = Main.tableHeader ++ Main.tableRule ++ concat (map Main.tableRow records).
Proof.
  unfold Main.generateMarkdownTable. cbv zeta.
  by rewrite for_of_append, <- app_assoc.
Qed.

(** **** Claim C6.
    For every input sequence of rows, whichever calls fail, the loop ends
    without an exception with exactly one record per row, in input order:
    the i-th record carries the id, name and activity of the i-th row, and
    is either its success record or its failure placeholder.  The Markdown
    table is the header followed by one line per record in that order. *)
Theorem conversion_preserves_order (h : Plugin.Host) (settings : Plugin.Settings)
    (activities : list StudentActivity.t) (target : Z) (w : Plugin.World h) :
  let st := Plugin.convertAll h settings activities target w in
  Plugin.uncaught st = None
  /\ length (Plugin.records st) = length activities
  /\ Forall2 (Spec.rowOf h settings target) activities (Plugin.records st)
  /\ map Spec.sourceOf (Plugin.records st) = activities
  /\ Main.generateMarkdownTable (Plugin.records st)
     = Main.tableHeader ++ Main.tableRule
       ++ concat (map Main.tableRow (Plugin.records st)).
Proof.
  cbv zeta.
  destruct (convertAll_invariant h settings target activities w)
    as (Hnone & Hrows & _ & _).
  repeat split.
  - exact Hnone.
  - symmetry. exact (Forall2_length _ _ _ Hrows).
  - exact Hrows.
  - exact (sourceOf_rows _ _ _ _ _ Hrows).
  - apply generateMarkdownTable_rows.
Qed.

(* ===================================================================== *)
(** ** Splitting, joining and trimming                                    *)
(* ===================================================================== *)

Lemma split_no_sep (sep : Z) (s : jsstring) :
  ~ In sep s -> split sep s = [s].
Proof.
  induction s as [|c s IH]; intros Hno; [reflexivity|].
  cbn [split]. destruct (Z.eqb_spec c sep) as [->|Hne].
  - exfalso. apply Hno. by left.
  - rewrite IH; [reflexivity|]. intros Hin. apply Hno. by right.
Qed.

Lemma split_app_sep (sep : Z) (a b : jsstring) :
  ~ In sep a -> split sep (a ++ sep :: b) = a :: split sep b.
Proof.
  induction a as [|c a IH]; intros Hno.
  - cbn [app split]. by rewrite Z.eqb_refl.
  - cbn [app split]. destruct (Z.eqb_spec c sep) as [->|Hne].
    + exfalso. apply Hno. by left.
    + rewrite IH; [reflexivity|]. intros Hin. apply Hno. by right.
Qed.

Lemma split_join (sep : Z) (parts : list jsstring) :
  parts <> [] ->
  Forall (fun part => ~ In sep part) parts ->
  split sep (join [sep] parts) = parts.
Proof.
  intros Hne Hall. induction Hall as [|p ps Hp Hps IH]; [congruence|].
  destruct ps as [|q ps].
  - cbn [join]. by apply split_no_sep.
  - change (join [sep] (p :: q :: ps)) with (p ++ sep :: join [sep] (q :: ps)).
    rewrite split_app_sep by assumption. f_equal. by apply IH.
Qed.

Lemma split_fields_no_sep (sep : Z) (s : jsstring) :
  Forall (fun field => ~ In sep field) (split sep s).
Proof.
  induction s as [|c s IH]; [constructor; [tauto | constructor]|].
  cbn [split]. destruct (Z.eqb_spec c sep) as [->|Hne].
  - constructor; [tauto | assumption].
  - destruct (split sep s) as [|field fields]; cbv iota.
    + constructor; [|constructor]. cbn. intuition.
    + inversion IH as [|? ? Hf Hfs]; subst. constructor; [|assumption].
      cbn. intuition.
Qed.

Lemma split_fields_chars (sep : Z) (s : jsstring) :
  Forall (fun field => forall c, In c field -> In c s) (split sep s).
Proof.
  induction s as [|c s IH]; [constructor; [tauto | constructor]|].
  cbn [split]. destruct (Z.eqb_spec c sep) as [->|Hne].
  - constructor; [cbn; tauto|].
    eapply Forall_impl; [exact IH|]. cbn. auto.
  - destruct (split sep s) as [|field fields]; cbv iota.
    + constructor; [|constructor]. intros d [->|[]]. by left.
    + inversion IH as [|? ? Hf Hfs]; subst. constructor.
      * intros d [->|Hd]; [by left | right; auto].
      * eapply Forall_impl; [exact Hfs|]. cbn. auto.
Qed.

Lemma lines_join (lines : list jsstring) :
  lines <> [] ->
  concat (map (fun line => line ++ [LF]) lines) = join [LF] lines ++ [LF].
Proof.
  induction lines as [|l lines IH]; [congruence|]. intros _.
  destruct lines as [|l' lines]; [cbn; by rewrite app_nil_r|].
  change (join [LF] (l :: l' :: lines)) with (l ++ [LF] ++ join [LF] (l' :: lines)).
  cbn [map concat] in *. rewrite IH by discriminate.
  by rewrite <- !app_assoc.
Qed.

(** **** [trim] *)

Lemma trimStart_suffix (s : jsstring) : exists p, s = p ++ trimStart s.
Proof.
  induction s as [|c s [p Hp]]; [by exists []|].
  cbn [trimStart]. destruct (isWhiteSpace c).
  - exists (c :: p). cbn. by f_equal.
  - by exists [].
Qed.

Lemma trimStart_head (s : jsstring) :
  trimStart s = [] \/ exists c r, trimStart s = c :: r /\ isWhiteSpace c = false.
Proof.
  induction s as [|c s IH]; [by left|].
  cbn [trimStart]. destruct (isWhiteSpace c) eqn:Hc; [exact IH|].
  right. by exists c, s.
Qed.

Lemma trimStart_fixed (c : Z) (r : jsstring) :
  isWhiteSpace c = false -> trimStart (c :: r) = c :: r.
Proof. intros Hc. cbn [trimStart]. by rewrite Hc. Qed.

Lemma trimStart_idempotent (s : jsstring) : trimStart (trimStart s) = trimStart s.
Proof.
  destruct (trimStart_head s) as [->|(c & r & -> & Hc)]; [reflexivity|].
  by apply trimStart_fixed.
Qed.

Lemma trimEnd_prefix (s : jsstring) : exists q, s = trimEnd s ++ q.
Proof.
  unfold trimEnd. destruct (trimStart_suffix (rev s)) as [p Hp].
  exists (rev p). rewrite <- rev_app_distr, <- Hp. by rewrite rev_involutive.
Qed.

Lemma trimEnd_idempotent (s : jsstring) : trimEnd (trimEnd s) = trimEnd s.
Proof. unfold trimEnd. by rewrite rev_involutive, trimStart_idempotent. Qed.

Lemma trimEnd_snoc_fixed (s : jsstring) (c : Z) :
  isWhiteSpace c = false -> trimEnd (s ++ [c]) = s ++ [c].
Proof.
  intros Hc. unfold trimEnd. rewrite rev_app_distr. cbn [rev app].
  rewrite trimStart_fixed by assumption.
  cbn [rev]. by rewrite rev_involutive.
Qed.

Lemma trimEnd_snoc_whitespace (s : jsstring) (c : Z) :
  isWhiteSpace c = true -> trimEnd (s ++ [c]) = trimEnd s.
Proof.
  intros Hc. unfold trimEnd. rewrite rev_app_distr. cbn [rev app trimStart].
  by rewrite Hc.
Qed.

(** [trim] takes a piece out of the middle. *)
Lemma trim_decompose (s : jsstring) : exists p q, s = p ++ trim s ++ q.
Proof.
  unfold trim. destruct (trimStart_suffix s) as [p Hp].
  destruct (trimEnd_prefix (trimStart s)) as [q Hq].
  exists p, q. by rewrite <- Hq.
Qed.

Lemma trim_chars (s : jsstring) (c : Z) : In c (trim s) -> In c s.
Proof.
  destruct (trim_decompose s) as (p & q & Hs). intros Hin.
  rewrite Hs, !in_app_iff. auto.
Qed.

Lemma trim_idempotent (s : jsstring) : trim (trim s) = trim s.
Proof.
  unfold trim at 1.
  assert (Hstart : trimStart (trim s) = trim s).
  { unfold trim.
    destruct (trimStart_head s) as [->|(c & r & Hs & Hc)]; [reflexivity|].
    rewrite Hs. destruct (trimEnd_prefix (c :: r)) as [q Hq].
    destruct (trimEnd (c :: r)) as [|c' r']; [reflexivity|].
    injection Hq as <- _. by apply trimStart_fixed. }
  rewrite Hstart. unfold trim. apply trimEnd_idempotent.
Qed.

(** A text that starts and ends with a character that is not white space,
    followed by one newline, trims to itself. *)
Lemma trim_line_break (c d : Z) (r y : jsstring) :
  isWhiteSpace c = false -> isWhiteSpace d = false ->
  c :: r = y ++ [d] ->
  trim ((c :: r) ++ [LF]) = c :: r.
Proof.
  intros Hc Hd Hy. unfold trim.
  change ((c :: r) ++ [LF]) with (c :: (r ++ [LF])).
  rewrite trimStart_fixed by assumption.
  change (c :: (r ++ [LF])) with ((c :: r) ++ [LF]).
  rewrite trimEnd_snoc_whitespace by reflexivity.
  rewrite Hy. by apply trimEnd_snoc_fixed.
Qed.

(* ===================================================================== *)
(** ** The TSV re-export read back by the parser                          *)
(* ===================================================================== *)

(** **** Numbers print as digits. *)

Lemma utf8_ascii (bs : list Z) :
  forallb (fun b => b <? 0x80) bs = true -> utf8_code_points bs = bs.
Proof.
  induction bs as [|b bs IH]; [reflexivity|].
  cbn [forallb]. rewrite andb_true_iff. intros [Hb Hbs].
  cbn [utf8_code_points]. rewrite Hb. by rewrite IH.
Qed.

Lemma utf16_ascii (bs : list Z) :
  forallb (fun b => b <? 0x80) bs = true -> flat_map utf16_units bs = bs.
Proof.
  induction bs as [|b bs IH]; [reflexivity|].
  cbn [forallb]. rewrite andb_true_iff. intros [Hb Hbs].
  cbn [flat_map]. unfold utf16_units at 1.
  apply Z.ltb_lt in Hb. destruct (Z.ltb_spec b 0x10000); [|lia].
  cbn [app]. by rewrite IH.
Qed.

Lemma lit_ascii (s : string) :
  forallb (fun b => b <? 0x80) (bytes_of_string s) = true ->
  lit s = bytes_of_string s.
Proof. intros Hs. unfold lit. by rewrite utf8_ascii, utf16_ascii. Qed.

Lemma isNumeric_ascii (c : Z) : Spec.isNumeric c = true -> (c <? 0x80) = true.
Proof.
  unfold Spec.isNumeric.
  rewrite orb_true_iff, andb_true_iff, Z.eqb_eq, !Z.leb_le, Z.ltb_lt. lia.
Qed.

Lemma isNumeric_not_whitespace (c : Z) :
  Spec.isNumeric c = true -> isWhiteSpace c = false.
Proof.
  unfold Spec.isNumeric.
  rewrite orb_true_iff, andb_true_iff, Z.eqb_eq, !Z.leb_le. intros Hc.
  destruct (isWhiteSpace c) eqn:Hws; [exfalso|reflexivity].
  unfold isWhiteSpace in Hws.
  rewrite !orb_true_iff, !andb_true_iff, !Z.leb_le, !Z.eqb_eq in Hws. lia.
Qed.

Lemma isNumeric_not_break (c : Z) :
  Spec.isNumeric c = true -> c <> TAB /\ c <> LF.
Proof.
  unfold Spec.isNumeric, TAB, LF.
  rewrite orb_true_iff, andb_true_iff, Z.eqb_eq, !Z.leb_le. lia.
Qed.

Lemma uint_digits (d : Decimal.uint) :
  forallb Spec.isNumeric (bytes_of_string (NilEmpty.string_of_uint d)) = true.
Proof.
  induction d; cbn [NilEmpty.string_of_uint bytes_of_string forallb];
    rewrite ?IHd; reflexivity.
Qed.

Lemma int_digits (d : Decimal.int) :
  forallb Spec.isNumeric (bytes_of_string (NilZero.string_of_int d)) = true
  /\ bytes_of_string (NilZero.string_of_int d) <> [].
Proof.
  destruct d as [u|u]; cbn [NilZero.string_of_int].
  - destruct u; split; try discriminate; try reflexivity;
      exact (uint_digits (_ u)).
  - split; [|discriminate]. cbn [bytes_of_string forallb].
    destruct u; try reflexivity; exact (uint_digits (_ u)).
Qed.

Lemma numberToString_digits (n : Z) :
  forallb Spec.isNumeric (numberToString n) = true /\ numberToString n <> [].
Proof.
  unfold numberToString.
  destruct (int_digits (Z.to_int n)) as [Hall Hne].
  rewrite lit_ascii; [by split|].
  rewrite forallb_forall in *. intros c Hc. apply isNumeric_ascii. auto.
Qed.

(** **** Texts that end tight. *)

Lemma endsTight_app (a b : jsstring) : Spec.endsTight b -> Spec.endsTight (a ++ b).
Proof.
  intros (y & d & -> & Hd). exists (a ++ y), d. by rewrite app_assoc.
Qed.

Lemma endsTight_all (ok : Z -> bool) (s : jsstring) :
  (forall c, ok c = true -> isWhiteSpace c = false) ->
  s <> [] -> forallb ok s = true -> Spec.endsTight s.
Proof.
  intros Hok Hne Hall.
  destruct (exists_last Hne) as (y & d & ->).
  exists y, d. split; [reflexivity|]. apply Hok.
  rewrite forallb_app in Hall. apply andb_true_iff in Hall as [_ Hd].
  cbn in Hd. by rewrite andb_true_r in Hd.
Qed.

Lemma endsTight_join (sep : jsstring) (parts : list jsstring) (final : jsstring) :
  Spec.endsTight final -> Spec.endsTight (join sep (parts ++ [final])).
Proof.
  intros Hfinal. induction parts as [|p parts IH]; [exact Hfinal|].
  cbn [app]. destruct (parts ++ [final]) as [|q rest] eqn:Hrest.
  - by destruct parts.
  - change (join sep (p :: q :: rest)) with (p ++ sep ++ join sep (q :: rest)).
    by do 2 apply endsTight_app.
Qed.

(** **** The lines of the re-export. *)

Lemma join_chars (sep : jsstring) (parts : list jsstring) (c : Z) :
  In c (join sep parts) -> In c sep \/ exists part, In part parts /\ In c part.
Proof.
  induction parts as [|p parts IH]; [intros []|].
  destruct parts as [|q parts].
  - cbn [join]. intros Hc. right. exists p. split; [by left | assumption].
  - change (join sep (p :: q :: parts)) with (p ++ sep ++ join sep (q :: parts)).
    rewrite !in_app_iff. intros [Hc|[Hc|Hc]].
    + right. exists p. split; [by left | assumption].
    + by left.
    + destruct (IH Hc) as [Hsep|(part & Hpart & Hin)]; [by left|].
      right. exists part. split; [by right | assumption].
Qed.

Lemma cleanCell_chars (s : jsstring) (c : Z) :
  In c (Main.cleanCell s) -> c <> TAB /\ c <> LF.
Proof.
  unfold Main.cleanCell, replaceAll. rewrite in_flat_map.
  intros (x & _ & Hc). destruct (Main.isTabOrBreak x) eqn:Hx.
  - destruct Hc as [<-|[]]. by split.
  - destruct Hc as [<-|[]]. unfold Main.isTabOrBreak in Hx.
    rewrite !orb_false_iff, !Z.eqb_neq in Hx. tauto.
Qed.

Lemma noTabOrNewline_chars (s : jsstring) (c : Z) :
  Spec.noTabOrNewline s = true -> In c s -> c <> TAB /\ c <> LF.
Proof.
  unfold Spec.noTabOrNewline. rewrite forallb_forall. intros Hall Hc.
  specialize (Hall c Hc). rewrite negb_true_iff, orb_false_iff, !Z.eqb_neq in Hall.
  exact Hall.
Qed.

Lemma numberToString_chars (n c : Z) :
  In c (numberToString n) -> c <> TAB /\ c <> LF.
Proof.
  intros Hc. apply isNumeric_not_break.
  destruct (numberToString_digits n) as [Hall _].
  rewrite forallb_forall in Hall. auto.
Qed.

(** No field of a row of clean id and name holds a tab or a newline. *)
Lemma rowFields_chars (r : ObservationRecord.t) :
  Spec.cleanRecord r ->
  Forall (fun field => forall c, In c field -> c <> TAB /\ c <> LF) (Spec.rowFields r).
Proof.
  intros [[_ Hid] [_ Hname]]. unfold Spec.rowFields.
  do 6 (constructor;
        [intros c Hc;
         eauto using noTabOrNewline_chars, cleanCell_chars, numberToString_chars|]).
  constructor.
Qed.

Lemma rowLine_fields (r : ObservationRecord.t) :
  Spec.cleanRecord r -> split TAB (Spec.rowLine r) = Spec.rowFields r.
Proof.
  intros Hr. unfold Spec.rowLine. apply split_join; [discriminate|].
  eapply Forall_impl; [exact (rowFields_chars r Hr)|].
  intros field Hfield Hin. by destruct (Hfield TAB Hin).
Qed.

Lemma rowLine_no_newline (r : ObservationRecord.t) :
  Spec.cleanRecord r -> ~ In LF (Spec.rowLine r).
Proof.
  intros Hr Hin. unfold Spec.rowLine in Hin.
  destruct (join_chars _ _ _ Hin) as [[Heq|[]]|(field & Hfield & Hc)];
    [discriminate Heq|].
  pose proof (rowFields_chars r Hr) as Hall.
  rewrite List.Forall_forall in Hall. by destruct (Hall field Hfield LF Hc).
Qed.

Lemma rowLine_endsTight (r : ObservationRecord.t) : Spec.endsTight (Spec.rowLine r).
Proof.
  unfold Spec.rowLine, Spec.rowFields.
  apply (endsTight_join [TAB]
           [ObservationRecord.studentId r; ObservationRecord.studentName r;
            Main.cleanCell (ObservationRecord.activityContent r);
            Main.cleanCell (ObservationRecord.observation r);
            numberToString (ObservationRecord.charCount r)]).
  destruct (numberToString_digits (ObservationRecord.byteCount r)) as [Hall Hne].
  exact (endsTight_all _ _ isNumeric_not_whitespace Hne Hall).
Qed.

Lemma tsvRow_line (r : ObservationRecord.t) : Main.tsvRow r = Spec.rowLine r ++ [LF].
Proof.
  unfold Main.tsvRow, Spec.rowLine, Spec.rowFields. cbv zeta. cbn [join].
  by rewrite <- !app_assoc.
Qed.

Lemma tsvHeader_line : Main.tsvHeader = Spec.headerLine ++ [LF].
Proof. vm_compute. reflexivity. Qed.

Lemma headerLine_facts :
  (exists r, Spec.headerLine = 0xD559 :: r)
  /\ Spec.endsTight Spec.headerLine
  /\ ~ In LF Spec.headerLine
  /\ Spec.parseLines [Spec.headerLine]
     = [StudentActivity.make (lit "학번") (lit "성명")
          (lit "학생활동기록 교사관찰기록 글자 수 바이트 수")].
Proof.
  split; [eexists; vm_compute; reflexivity|].
  split; [|split; [|vm_compute; reflexivity]].
  - exists (List.removelast Spec.headerLine), (List.last Spec.headerLine 0).
    split; vm_compute; reflexivity.
  - vm_compute. intuition discriminate.
Qed.

Lemma join_cons (sep p : jsstring) (ps : list jsstring) :
  join sep (p :: ps) = p ++ match ps with [] => [] | _ => sep ++ join sep ps end.
Proof. destruct ps; [by rewrite app_nil_r | reflexivity]. Qed.

(** The re-export is its lines, each followed by a newline. *)
Lemma generateTSVData_lines (records : list ObservationRecord.t) :
  Main.generateTSVData records
  = join [LF] (Spec.headerLine :: map Spec.rowLine records) ++ [LF].
Proof.
  unfold Main.generateTSVData. rewrite for_of_append, tsvHeader_line.
  rewrite <- lines_join by discriminate. cbn [map concat].
  apply (f_equal (app (Spec.headerLine ++ [LF]))). f_equal.
  rewrite map_map. apply map_ext. exact tsvRow_line.
Qed.

(** Trimming the re-export removes its last newline and nothing else. *)
Lemma generateTSVData_trim (records : list ObservationRecord.t) :
  trim (Main.generateTSVData records)
  = join [LF] (Spec.headerLine :: map Spec.rowLine records).
Proof.
  rewrite generateTSVData_lines.
  destruct headerLine_facts as ((r0 & Hhead) & Htight & _ & _).
  assert (Hends : Spec.endsTight (join [LF] (Spec.headerLine :: map Spec.rowLine records))).
  { assert (Hne : Spec.headerLine :: map Spec.rowLine records <> []) by discriminate.
    destruct (exists_last Hne) as (parts & final & Hlines).
    rewrite Hlines. apply endsTight_join.
    assert (Hin : In final (Spec.headerLine :: map Spec.rowLine records)).
    { rewrite Hlines, in_app_iff. right. by left. }
    destruct Hin as [<-|Hin]; [assumption|].
    apply in_map_iff in Hin as (r & <- & _). apply rowLine_endsTight. }
  destruct Hends as (y & d & Hy & Hd).
  rewrite join_cons, Hhead in *. cbn [app] in *.
  by apply (trim_line_break 0xD559 d _ y).
Qed.

Lemma parseLines_cons (line : jsstring) (lines : list jsstring) :
  Spec.parseLines (line :: lines) = Spec.parseLines [line] ++ Spec.parseLines lines.
Proof. exact (parseLines_app [line] lines). Qed.

Lemma parseLines_rowLine (r : ObservationRecord.t) :
  Spec.cleanRecord r ->
  Spec.parseLines [Spec.rowLine r] = [Spec.recordOf (Spec.rowFields r)].
Proof.
  intros Hr. unfold Spec.parseLines, Spec.fields. cbn [map].
  by rewrite rowLine_fields.
Qed.

Lemma parseLines_rows (records : list ObservationRecord.t) :
  Forall Spec.cleanRecord records ->
  map Spec.activityPair (Spec.parseLines (map Spec.rowLine records))
  = map Spec.recordPair records.
Proof.
  induction 1 as [|r records Hr _ IH]; [reflexivity|].
  cbn [map]. rewrite parseLines_cons, parseLines_rowLine by assumption.
  cbn [app map]. rewrite IH. f_equal.
  destruct Hr as [[Hid _] [Hname _]].
  change (Spec.activityPair (Spec.recordOf (Spec.rowFields r)))
    with (trim (ObservationRecord.studentId r), trim (ObservationRecord.studentName r)).
  by rewrite Hid, Hname.
Qed.

(** The rows read back from the re-export of records of clean id and
    name: the header line first, then one row per record. *)
Lemma reexport_parsed (records : list ObservationRecord.t) :
  Forall Spec.cleanRecord records ->
  map Spec.activityPair (Main.parseTSV (Main.generateTSVData records))
  = Spec.headerPair :: map Spec.recordPair records.
Proof.
  intros Hclean.
  destruct headerLine_facts as (_ & _ & Hnl & Hheader).
  rewrite parseTSV_lines, generateTSVData_trim.
  rewrite split_join; [|discriminate|].
  - rewrite parseLines_cons, Hheader. cbn [app map].
    by rewrite parseLines_rows.
  - constructor; [assumption|]. apply Forall_map.
    eapply Forall_impl; [exact Hclean|]. exact rowLine_no_newline.
Qed.

(** **** What [parseTSV] produces is clean. *)

Lemma cleanField_trim (field : jsstring) :
  (forall c, In c field -> c <> TAB /\ c <> LF) -> Spec.cleanField (trim field).
Proof.
  intros Hchars. split; [apply trim_idempotent|].
  unfold Spec.noTabOrNewline. apply forallb_forall. intros c Hc.
  destruct (Hchars c (trim_chars _ _ Hc)) as [Htab Hlf].
  apply negb_true_iff, orb_false_iff. by rewrite !Z.eqb_neq.
Qed.

Lemma parseLines_clean (lines : list jsstring) :
  Forall (fun line => ~ In LF line) lines ->
  Forall Spec.cleanActivity (Spec.parseLines lines).
Proof.
  induction 1 as [|line lines Hline _ IH]; [constructor|].
  rewrite parseLines_cons. apply Forall_app. split; [|exact IH].
  unfold Spec.parseLines, Spec.fields. cbn [map List.filter].
  pose proof (split_fields_no_sep TAB line) as Hno.
  pose proof (split_fields_chars TAB line) as Hsub.
  destruct (split TAB line) as [|p0 [|p1 [|p2 rest]]]; try (cbn; constructor).
  inversion Hno as [|? ? Hno0 Hno']; subst. inversion Hno' as [|? ? Hno1 _]; subst.
  inversion Hsub as [|? ? Hsub0 Hsub']; subst. inversion Hsub' as [|? ? Hsub1 _]; subst.
  destruct (Spec.accepted _); cbn [map]; constructor; [|constructor].
  split; apply cleanField_trim; intros c Hc; split; intros ->; auto.
Qed.

Lemma parseTSV_clean (data : jsstring) :
  Forall Spec.cleanActivity (Main.parseTSV data).
Proof.
  rewrite parseTSV_lines. apply parseLines_clean. apply split_fields_no_sep.
Qed.

Lemma rows_clean (h : Plugin.Host) (settings : Plugin.Settings) (target : Z)
    (activities : list StudentActivity.t) (records : list ObservationRecord.t) :
  Forall2 (Spec.rowOf h settings target) activities records ->
  Forall Spec.cleanActivity activities ->
  Forall Spec.cleanRecord records
  /\ map Spec.recordPair records = map Spec.activityPair activities.
Proof.
  induction 1 as [|a r activities records Hrow _ IH]; intros Hclean.
  - by split.
  - inversion Hclean as [|? ? Ha Hrest]; subst.
    destruct (IH Hrest) as [IHclean IHpairs].
    assert (Hr : Spec.sourceOf r = a) by exact (sourceOf_rowOf _ _ _ _ _ Hrow).
    subst a. split; [constructor; assumption | cbn [map]; by rewrite IHpairs].
Qed.

(** **** Claim C7, as the code has it.
    The re-export starts with a header line, which the parser reads as a
    row.  For every sequence of records whose studentId and studentName are
    trimmed and hold no tab or newline, parsing the re-export yields the
    pair ("학번", "성명") of the header followed by the ordered sequence of
    (studentId, studentName) pairs of the records.  Every batch that was
    parsed and converted is such a sequence, whichever calls failed. *)
Theorem reexport_round_trip :
  (forall records,
      Forall Spec.cleanRecord records ->
      map Spec.activityPair (Main.parseTSV (Main.generateTSVData records))
      = Spec.headerPair :: map Spec.recordPair records)
  /\ (forall (h : Plugin.Host) settings data target w,
         let records :=
           Plugin.records (Plugin.convertAll h settings (Main.parseTSV data) target w) in
         map Spec.activityPair (Main.parseTSV (Main.generateTSVData records))
         = Spec.headerPair :: map Spec.activityPair (Main.parseTSV data)).
Proof.
  split; [exact reexport_parsed|].
  intros h settings data target w. cbv zeta.
  destruct (convertAll_invariant h settings target (Main.parseTSV data) w)
    as (_ & Hrows & _ & _).
  destruct (rows_clean _ _ _ _ _ Hrows (parseTSV_clean data)) as [Hclean Hpairs].
  by rewrite reexport_parsed, Hpairs.
Qed.

Lemma reexport_round_trip_witness :
  Forall Spec.cleanRecord Sample.twoRecords
  /\ map Spec.activityPair (Main.parseTSV (Main.generateTSVData Sample.twoRecords))
     = [(lit "학번", lit "성명");
        (lit "10101", lit "김철수");
        (lit "10102", lit "이영희")].
Proof.
  assert (Hclean : Forall Spec.cleanRecord Sample.twoRecords).
  { repeat constructor. }
  split; [exact Hclean|].
  exact (proj1 reexport_round_trip Sample.twoRecords Hclean).
Defined.

(** Claim C7 as stated fails on every input, the empty one included: the
    header line comes back as a first pair. *)
Lemma reexport_round_trip_counterexample :
  map Spec.activityPair (Main.parseTSV (Main.generateTSVData Sample.twoRecords))
  <> map Spec.recordPair Sample.twoRecords
  /\ map Spec.activityPair (Main.parseTSV (Main.generateTSVData []))
     = [(lit "학번", lit "성명")].
Proof. vm_compute. split; [discriminate | reflexivity]. Qed.

(* ===================================================================== *)
(** ** Further properties of the byte counters                            *)
(* ===================================================================== *)

Lemma sumZ_cons (x : Z) (xs : list Z) : Spec.sumZ (x :: xs) = x + Spec.sumZ xs.
Proof. reflexivity. Qed.

Lemma charCost_at_most_3 (c : Z) : Spec.charCost c <= 3.
Proof. destruct (charCost_cases c) as [[_ ->]|[_ ->]]; lia. Qed.

Lemma countBytes_between (text : jsstring) :
  Z.of_nat (length text) <= Main.countBytes text <= 3 * Z.of_nat (length text).
Proof.
  rewrite countBytes_as_sum. induction text as [|c text IH]; [cbn; lia|].
  cbn [map length]. rewrite sumZ_cons.
  pose proof (charCost_positive c). pose proof (charCost_at_most_3 c). lia.
Qed.

(** **** Extra X1.
    The byte count of [src/main.ts] is additive over concatenation and
    lies between the character count and three times the character
    count. *)
Theorem countBytes_additive_and_bounded (a b : jsstring) :
  Main.countBytes (a ++ b) = Main.countBytes a + Main.countBytes b
  /\ Main.countChars a <= Main.countBytes a <= 3 * Main.countChars a.
Proof.
  rewrite !countBytes_as_sum, map_app, sumZ_app. split; [reflexivity|].
  unfold Main.countChars, len. induction a as [|c a IH]; [cbn; lia|].
  cbn [map length]. change (Spec.sumZ (?x :: ?l)) with (x + Spec.sumZ l).
  pose proof (charCost_positive c). pose proof (charCost_at_most_3 c). lia.
Qed.

(** The cost [part_000] gives to the first code unit of a character. *)
Lemma part000_body_cost (bytes c : Z) (rest : jsstring) :
  Part000.countBytes_body bytes (c :: rest)
  = bytes + (if Part000.isWideCode c then 3 else 1).
Proof.
  unfold Part000.countBytes_body, charCodeAt0. cbn.
  by destruct (Part000.isWideCode c).
Qed.

Lemma part000_fold_shift (chars : list jsstring) (bytes : Z) :
  Forall (fun char => char <> []) chars ->
  fold_left Part000.countBytes_body chars bytes
  = bytes + fold_left Part000.countBytes_body chars 0.
Proof.
  intros Hne. revert bytes. induction Hne as [|char chars Hchar _ IH]; intros bytes.
  - cbn. lia.
  - destruct char as [|c rest]; [congruence|].
    cbn [fold_left]. rewrite !part000_body_cost, (IH (bytes + _)), (IH (0 + _)). lia.
Qed.

Lemma stringIterator_pair (c d : Z) (rest : jsstring) :
  stringIterator (c :: d :: rest)
  = if isHighSurrogate c && isLowSurrogate d
    then [c; d] :: stringIterator rest
    else [c] :: stringIterator (d :: rest).
Proof. reflexivity. Qed.

Lemma stringIterator_nonempty (text : jsstring) :
  Forall (fun char => char <> []) (stringIterator text).
Proof.
  assert (Hboth : Forall (fun char => char <> []) (stringIterator text)
                  /\ forall c, Forall (fun char => char <> []) (stringIterator (c :: text))).
  { induction text as [|d text [IH1 IH2]].
    - split; [constructor|]. intros c. cbn. by repeat constructor.
    - split; [apply IH2|]. intros c.
      rewrite stringIterator_pair.
      destruct (isHighSurrogate c && isLowSurrogate d); by constructor. }
  exact (proj1 Hboth).
Qed.

Lemma isWideCode_above_255 (c : Z) : Part000.isWideCode c = true -> 0x100 <= c.
Proof.
  unfold Part000.isWideCode.
  rewrite !orb_true_iff, !andb_true_iff, !Z.leb_le. lia.
Qed.

Lemma isWideCode_not_surrogate (c : Z) :
  isHighSurrogate c = true -> Part000.isWideCode c = false.
Proof.
  unfold isHighSurrogate. rewrite andb_true_iff, !Z.leb_le. intros Hc.
  destruct (Part000.isWideCode c) eqn:Hw; [exfalso|reflexivity].
  unfold Part000.isWideCode in Hw.
  rewrite !orb_true_iff, !andb_true_iff, !Z.leb_le in Hw. lia.
Qed.

Lemma part000_cost_le_threshold (c : Z) :
  (if Part000.isWideCode c then 3 else 1) <= Spec.thresholdCost c.
Proof.
  unfold Spec.thresholdCost. destruct (Part000.isWideCode c) eqn:Hw.
  - apply isWideCode_above_255 in Hw. destruct (Z.leb_spec 0x100 c); lia.
  - destruct (0x100 <=? c); lia.
Qed.

Lemma thresholdCost_positive (c : Z) : 1 <= Spec.thresholdCost c.
Proof. unfold Spec.thresholdCost. destruct (0x100 <=? c); lia. Qed.

(** The counter of [part_000] never exceeds the sum of the thresholds. *)
Lemma part000_le_threshold (text : jsstring) :
  Part000.countBytes text <= Spec.sumZ (map Spec.thresholdCost text)
  /\ forall c, Part000.countBytes (c :: text)
               <= Spec.sumZ (map Spec.thresholdCost (c :: text)).
Proof.
  unfold Part000.countBytes, for_of.
  induction text as [|d text [IH1 IH2]].
  - split; [cbn; lia|]. intros c. cbn [stringIterator fold_left map].
    rewrite part000_body_cost. pose proof (part000_cost_le_threshold c).
    unfold Spec.sumZ. cbn. lia.
  - split; [apply IH2|]. intros c.
    rewrite stringIterator_pair.
    cbn [map]. rewrite !sumZ_cons.
    destruct (isHighSurrogate c && isLowSurrogate d) eqn:Hpair.
    + cbn [fold_left]. rewrite part000_body_cost.
      rewrite part000_fold_shift by apply stringIterator_nonempty.
      apply andb_true_iff in Hpair as [Hc _].
      rewrite (isWideCode_not_surrogate c Hc).
      pose proof (thresholdCost_positive c). pose proof (thresholdCost_positive d).
      lia.
    + cbn [fold_left]. rewrite part000_body_cost.
      rewrite part000_fold_shift by apply stringIterator_nonempty.
      pose proof (part000_cost_le_threshold c).
      specialize (IH2 d). cbn [map] in IH2. rewrite sumZ_cons in IH2. lia.
Qed.

Lemma main_countBytes_threshold (text : jsstring) :
  Main.countBytes text = Spec.sumZ (map Spec.thresholdCost text).
Proof.
  rewrite countBytes_as_sum. f_equal. apply map_ext. exact charCost_threshold.
Qed.

Lemma sameCost_not_surrogate (c : Z) :
  Facts.sameCost c = true -> negb (isHighSurrogate c) = true.
Proof.
  unfold Facts.sameCost. intros Hc. apply negb_true_iff.
  destruct (isHighSurrogate c) eqn:Hs; [|reflexivity].
  rewrite (isWideCode_not_surrogate c Hs), orb_false_r in Hc.
  unfold isHighSurrogate in Hs.
  rewrite andb_true_iff, !Z.leb_le in Hs. apply Z.ltb_lt in Hc. lia.
Qed.

Lemma sameCost_costs (c : Z) :
  Facts.sameCost c = true ->
  (if Part000.isWideCode c then 3 else 1) = Spec.thresholdCost c.
Proof.
  unfold Facts.sameCost, Spec.thresholdCost. intros Hc.
  destruct (Part000.isWideCode c) eqn:Hw.
  - apply isWideCode_above_255 in Hw. destruct (Z.leb_spec 0x100 c); lia.
  - rewrite orb_false_r in Hc. apply Z.ltb_lt in Hc.
    destruct (Z.leb_spec 0x100 c); lia.
Qed.

Lemma part000_units_sum (chars : jsstring) (bytes : Z) :
  forallb Facts.sameCost chars = true ->
  fold_left Part000.countBytes_body (map (fun c => [c]) chars) bytes
  = bytes + Spec.sumZ (map Spec.thresholdCost chars).
Proof.
  revert bytes. induction chars as [|c chars IH]; intros bytes Hall.
  - cbn. lia.
  - cbn [forallb] in Hall. apply andb_true_iff in Hall as [Hc Hall].
    cbn [map fold_left]. rewrite part000_body_cost, IH by assumption.
    rewrite (sameCost_costs c Hc).
    change (Spec.sumZ (?x :: ?l)) with (x + Spec.sumZ l). lia.
Qed.

(** **** Extra X2.
    The older counter of [part_000] never reports more bytes than the
    counter of [src/main.ts], and the two agree on every string whose code
    units are below U+0100 or in one of the five ranges of [part_000]
    (Hangul syllables and Jamo, CJK ideographs and their compatibility
    blocks). *)
Theorem part000_against_main (text : jsstring) :
  Part000.countBytes text <= Main.countBytes text
  /\ (forallb Facts.sameCost text = true ->
      Part000.countBytes text = Main.countBytes text).
Proof.
  rewrite main_countBytes_threshold. split.
  - exact (proj1 (part000_le_threshold text)).
  - intros Hall. unfold Part000.countBytes, for_of.
    rewrite stringIterator_units.
    + rewrite part000_units_sum by assumption. lia.
    + rewrite forallb_forall in *. intros c Hc.
      apply sameCost_not_surrogate. auto.
Qed.

Lemma part000_against_main_witness :
  forallb Facts.sameCost (lit "NEIS 2024: 교사관찰기록 漢字") = true
  /\ Part000.countBytes (lit "NEIS 2024: 교사관찰기록 漢字")
     = Main.countBytes (lit "NEIS 2024: 교사관찰기록 漢字").
Proof.
  split; [reflexivity|].
  apply (part000_against_main (lit "NEIS 2024: 교사관찰기록 漢字")). reflexivity.
Defined.

(* ===================================================================== *)
(** ** Further properties of the parser                                   *)
(* ===================================================================== *)

Lemma parseLines_fields_clean (lines : list jsstring) :
  Forall (fun line => ~ In LF line) lines ->
  Forall Facts.cleanParsed (Spec.parseLines lines).
Proof.
  induction 1 as [|line lines Hline _ IH]; [constructor|].
  rewrite parseLines_cons. apply Forall_app. split; [|exact IH].
  unfold Spec.parseLines, Spec.fields. cbn [map List.filter].
  pose proof (split_fields_no_sep TAB line) as Hno.
  pose proof (split_fields_chars TAB line) as Hsub.
  destruct (split TAB line) as [|p0 [|p1 [|p2 rest]]]; try (cbn; constructor).
  inversion Hno as [|? ? Hno0 Hno']; subst. inversion Hno' as [|? ? Hno1 Hno'']; subst.
  inversion Hsub as [|? ? Hsub0 Hsub']; subst. inversion Hsub' as [|? ? Hsub1 Hsub'']; subst.
  destruct (Spec.accepted _); cbn [map]; constructor; [|constructor].
  split; [|split];
    try (apply cleanField_trim; intros c Hc; split; intros ->; by auto).
  apply cleanField_trim. intros c Hc.
  change (drop 2 (p0 :: p1 :: p2 :: rest)) with (p2 :: rest) in Hc.
  destruct (join_chars _ _ _ Hc) as [[<-|[]]|(part & Hpart & Hin)]; [by split|].
  rewrite List.Forall_forall in Hno'', Hsub''.
  split; intros ->.
  - exact (Hno'' part Hpart Hin).
  - exact (Hline (Hsub'' part Hpart LF Hin)).
Qed.

(** **** Extra X3.
    Every row that [parseTSV] returns has a studentId, a studentName and an
    activityContent that are trimmed and hold neither a tab nor a
    newline, whatever the input. *)
Theorem parseTSV_fields_are_clean (data : jsstring) :
  Forall (fun a =>
            (trim (StudentActivity.studentId a) = StudentActivity.studentId a
             /\ ~ In TAB (StudentActivity.studentId a)
             /\ ~ In LF (StudentActivity.studentId a))
            /\ (trim (StudentActivity.studentName a) = StudentActivity.studentName a
                /\ ~ In TAB (StudentActivity.studentName a)
                /\ ~ In LF (StudentActivity.studentName a))
            /\ (trim (StudentActivity.activityContent a)
                = StudentActivity.activityContent a
                /\ ~ In TAB (StudentActivity.activityContent a)
                /\ ~ In LF (StudentActivity.activityContent a)))
         (Main.parseTSV data).
Proof.
  rewrite parseTSV_lines.
  eapply Forall_impl; [apply parseLines_fields_clean, split_fields_no_sep|].
  intros a ([Hid1 Hid2] & [Hn1 Hn2] & [Hc1 Hc2]).
  repeat split; try assumption; intros Hin;
    match goal with
    | H : Spec.noTabOrNewline ?s = true, Hin : In _ ?s |- _ =>
      destruct (noTabOrNewline_chars s _ H Hin); congruence
    end.
Qed.

(** **** CR LF line ends. *)

Lemma crlf_app (a b : jsstring) : Facts.crlf (a ++ b) = Facts.crlf a ++ Facts.crlf b.
Proof. unfold Facts.crlf. apply flat_map_app. Qed.

Lemma trimStart_crlf (s : jsstring) :
  trimStart (Facts.crlf s) = Facts.crlf (trimStart s).
Proof.
  induction s as [|c s IH]; [reflexivity|].
  change (Facts.crlf (c :: s)) with ((if c =? LF then [CR; LF] else [c]) ++ Facts.crlf s).
  destruct (Z.eqb_spec c LF) as [->|Hne].
  - cbn [app trimStart]. change (isWhiteSpace CR) with true.
    change (isWhiteSpace LF) with true. cbv iota. exact IH.
  - cbn [app trimStart]. destruct (isWhiteSpace c) eqn:Hc; [exact IH|].
    change (Facts.crlf (c :: s)) with ((if c =? LF then [CR; LF] else [c]) ++ Facts.crlf s).
    destruct (Z.eqb_spec c LF); [congruence | reflexivity].
Qed.

Lemma trimEnd_crlf (s : jsstring) :
  trimEnd (Facts.crlf s) = Facts.crlf (trimEnd s).
Proof.
  induction s as [|c s IH] using rev_ind; [reflexivity|].
  rewrite crlf_app.
  change (Facts.crlf [c]) with ((if c =? LF then [CR; LF] else [c]) ++ []).
  rewrite app_nil_r. destruct (Z.eqb_spec c LF) as [->|Hne].
  - change [CR; LF] with ([CR] ++ [LF]). rewrite app_assoc.
    rewrite !trimEnd_snoc_whitespace by reflexivity. exact IH.
  - destruct (isWhiteSpace c) eqn:Hc.
    + rewrite !trimEnd_snoc_whitespace by assumption. exact IH.
    + rewrite !trimEnd_snoc_fixed by assumption. rewrite crlf_app.
      change (Facts.crlf [c]) with ((if c =? LF then [CR; LF] else [c]) ++ []).
      rewrite app_nil_r. destruct (Z.eqb_spec c LF); [congruence | reflexivity].
Qed.

Lemma trim_crlf (s : jsstring) : trim (Facts.crlf s) = Facts.crlf (trim s).
Proof. unfold trim. by rewrite trimStart_crlf, trimEnd_crlf. Qed.

Lemma split_nonempty (sep : Z) (s : jsstring) : split sep s <> [].
Proof.
  induction s as [|c s IH]; [discriminate|].
  cbn [split]. destruct (c =? sep); [discriminate|].
  destruct (split sep s); [congruence | discriminate].
Qed.

Lemma split_crlf (s : jsstring) :
  split LF (Facts.crlf s) = Facts.withCR (split LF s).
Proof.
  induction s as [|c s IH]; [reflexivity|].
  change (Facts.crlf (c :: s)) with ((if c =? LF then [CR; LF] else [c]) ++ Facts.crlf s).
  pose proof (split_nonempty LF s) as Hne.
  destruct (Z.eqb_spec c LF) as [->|Hc].
  - cbn [app split]. change (CR =? LF) with false. rewrite Z.eqb_refl. cbv iota.
    rewrite IH. destruct (split LF s) as [|l ls]; [congruence | reflexivity].
  - cbn [app split]. destruct (Z.eqb_spec c LF) as [|_]; [congruence|].
    rewrite IH. destruct (split LF s) as [|l ls]; [congruence|].
    destruct ls; reflexivity.
Qed.

Lemma split_snoc (sep c : Z) (s : jsstring) :
  c <> sep ->
  exists init final,
    split sep s = init ++ [final] /\ split sep (s ++ [c]) = init ++ [final ++ [c]].
Proof.
  intros Hc. induction s as [|d s (init & final & Hs & Hsc)].
  - exists [], []. cbn [app split]. destruct (Z.eqb_spec c sep); [congruence|].
    by split.
  - cbn [app split]. destruct (d =? sep).
    + exists ([] :: init), final. rewrite Hs, Hsc. by split.
    + rewrite Hs, Hsc. destruct init as [|first init].
      * exists [], (d :: final). by split.
      * exists ((d :: first) :: init), final. by split.
Qed.

Lemma join_snoc_last (sep : jsstring) (parts : list jsstring) (final tail : jsstring) :
  join sep (parts ++ [final ++ tail]) = join sep (parts ++ [final]) ++ tail.
Proof.
  induction parts as [|p parts IH]; [reflexivity|].
  cbn [app]. rewrite !join_cons, IH.
  destruct parts; cbn [app]; by rewrite <- !app_assoc.
Qed.

Lemma trim_snoc_whitespace (s : jsstring) (c : Z) :
  isWhiteSpace c = true -> trim (s ++ [c]) = trim s.
Proof.
  intros Hc. induction s as [|d s IH].
  - unfold trim. cbn [app trimStart]. by rewrite Hc.
  - unfold trim in *. cbn [app trimStart]. destruct (isWhiteSpace d); [exact IH|].
    change (d :: s ++ [c]) with ((d :: s) ++ [c]).
    by apply trimEnd_snoc_whitespace.
Qed.

(** A carriage return at the end of a line does not change its row. *)
Lemma parseLines_line_cr (line : jsstring) :
  Spec.parseLines [line ++ [CR]] = Spec.parseLines [line].
Proof.
  unfold Spec.parseLines, Spec.fields. cbn [map List.filter].
  destruct (split_snoc TAB CR line ltac:(discriminate)) as (init & final & -> & ->).
  unfold Spec.accepted, len'. rewrite !length_app. cbn [length].
  destruct (Z.leb_spec 3 (Z.of_nat (length init + 1))) as [Hlen|_]; [|reflexivity].
  cbn [map]. f_equal. unfold Spec.recordOf.
  destruct init as [|p0 [|p1 init]]; cbn [length] in Hlen; try lia.
  cbn [app]. f_equal.
  change (drop 2 (p0 :: p1 :: ?l)) with l.
  by rewrite join_snoc_last, trim_snoc_whitespace.
Qed.

Lemma parseLines_withCR (lines : list jsstring) :
  Spec.parseLines (Facts.withCR lines) = Spec.parseLines lines.
Proof.
  induction lines as [|line lines IH]; [reflexivity|].
  destruct lines as [|next lines]; [reflexivity|].
  change (Facts.withCR (line :: next :: lines))
    with ((line ++ [CR]) :: Facts.withCR (next :: lines)).
  rewrite parseLines_cons, parseLines_line_cr, IH.
  symmetry. apply parseLines_cons.
Qed.

(** **** Extra X4.
    [parseTSV] reads a text with CR LF line ends as it reads the same text
    with LF line ends: the carriage returns are trimmed away with the last
    field of each line. *)
Theorem parseTSV_ignores_carriage_returns (data : jsstring) :
  Main.parseTSV (Facts.crlf data) = Main.parseTSV data.
Proof.
  rewrite !parseTSV_lines, trim_crlf, split_crlf. apply parseLines_withCR.
Qed.

(* ===================================================================== *)
(** ** Further properties of the two renderers                            *)
(* ===================================================================== *)

Lemma occurrences_app (c : Z) (a b : jsstring) :
  Facts.occurrences c (a ++ b) = Facts.occurrences c a + Facts.occurrences c b.
Proof.
  unfold Facts.occurrences, len. rewrite List.filter_app, length_app. lia.
Qed.

Lemma occurrences_none (c : Z) (s : jsstring) :
  ~ In c s -> Facts.occurrences c s = 0.
Proof.
  unfold Facts.occurrences, len. induction s as [|d s IH]; intros Hno; [reflexivity|].
  cbn [List.filter]. destruct (Z.eqb_spec d c) as [->|_].
  - exfalso. apply Hno. by left.
  - apply IH. intros Hin. apply Hno. by right.
Qed.

Lemma occurrences_zero (c : Z) (s : jsstring) :
  Facts.occurrences c s = 0 -> ~ In c s.
Proof.
  unfold Facts.occurrences, len. induction s as [|d s IH]; intros Hzero; [tauto|].
  cbn [List.filter] in Hzero. destruct (Z.eqb_spec d c) as [->|Hne].
  - cbn [length] in Hzero. lia.
  - intros [Heq|Hin]; [congruence | by apply IH].
Qed.

(** The piece the two replacements of [escapeCell] make of one code
    unit. *)
Lemma escapeCell_cons (c : Z) (s : jsstring) :
  Main.escapeCell (c :: s)
  = (if c =? PIPE then [BACKSLASH; PIPE] else if c =? LF then [SPACE] else [c])
    ++ Main.escapeCell s.
Proof.
  unfold Main.escapeCell, replaceAll, Main.isPipe, Main.isNewline.
  cbn [flat_map]. rewrite flat_map_app. f_equal.
  destruct (Z.eqb_spec c PIPE) as [->|_]; [reflexivity|].
  cbn [flat_map]. by rewrite app_nil_r.
Qed.

Lemma escapeCell_shape (s : jsstring) :
  Facts.pipesEscaped (Main.escapeCell s) = true
  /\ ~ In LF (Main.escapeCell s)
  /\ (forall rest, Main.escapeCell s <> PIPE :: rest).
Proof.
  induction s as [|c s (IHp & IHn & IHh)]; [repeat split; [tauto | discriminate]|].
  rewrite escapeCell_cons.
  destruct (Z.eqb_spec c PIPE) as [->|Hpipe]; [|destruct (Z.eqb_spec c LF) as [->|Hlf]].
  - repeat split; [exact IHp | | discriminate].
    intros [Heq|[Heq|Hin]]; [discriminate Heq | discriminate Heq | auto].
  - repeat split; [exact IHp | | discriminate].
    intros [Heq|Hin]; [discriminate Heq | auto].
  - repeat split.
    + cbn [app Facts.pipesEscaped]. destruct (Z.eqb_spec c PIPE); [congruence|].
      destruct (c =? BACKSLASH); [|exact IHp].
      destruct (Main.escapeCell s) as [|d rest] eqn:Hs; [reflexivity|].
      destruct (Z.eqb_spec d PIPE) as [->|_]; [|exact IHp].
      exfalso. exact (IHh rest eq_refl).
    + intros [Heq|Hin]; [congruence | auto].
    + intros rest. cbn [app]. congruence.
Qed.

Lemma escapeCell_plain (s : jsstring) :
  ~ In PIPE s -> ~ In LF s -> Main.escapeCell s = s.
Proof.
  induction s as [|c s IH]; intros Hp Hn; [reflexivity|].
  rewrite escapeCell_cons.
  destruct (Z.eqb_spec c PIPE) as [->|_]; [exfalso; apply Hp; by left|].
  destruct (Z.eqb_spec c LF) as [->|_]; [exfalso; apply Hn; by left|].
  cbn [app]. f_equal. apply IH; intros Hin; [apply Hp | apply Hn]; by right.
Qed.

(** **** Extra X5.
    A cell of the Markdown table, as [generateMarkdownTable] escapes the
    activity and the observation: it holds no newline, each of its pipes
    comes right after a backslash, and a text without pipe and newline is
    left as it is. *)
Theorem escaped_cell_keeps_the_row (s : jsstring) :
  ~ In LF (Main.escapeCell s)
  /\ Facts.pipesEscaped (Main.escapeCell s) = true
  /\ (~ In PIPE s -> ~ In LF s -> Main.escapeCell s = s).
Proof.
  destruct (escapeCell_shape s) as (Hp & Hn & _).
  repeat split; [exact Hn | exact Hp | apply escapeCell_plain].
Qed.

Lemma escaped_cell_keeps_the_row_witness :
  Main.escapeCell (lit "leader-role 2024") = lit "leader-role 2024".
Proof.
  apply (escaped_cell_keeps_the_row (lit "leader-role 2024"));
    vm_compute; intuition discriminate.
Defined.

Lemma cleanCell_cons (c : Z) (s : jsstring) :
  Main.cleanCell (c :: s)
  = (if Main.isTabOrBreak c then SPACE else c) :: Main.cleanCell s.
Proof.
  unfold Main.cleanCell, replaceAll. cbn [flat_map].
  by destruct (Main.isTabOrBreak c).
Qed.

(** **** Extra X6.
    A cell of the TSV re-export, as [generateTSVData] cleans the activity
    and the observation: it has the length of the original, holds no tab,
    newline or carriage return, and a text without them is left as it
    is; cleaning twice changes nothing more. *)
Theorem cleaned_cell_keeps_the_column (s : jsstring) :
  length (Main.cleanCell s) = length s
  /\ (forall c, In c (Main.cleanCell s) -> c <> TAB /\ c <> LF /\ c <> CR)
  /\ Main.cleanCell (Main.cleanCell s) = Main.cleanCell s
  /\ (forallb (fun c => negb (Main.isTabOrBreak c)) s = true -> Main.cleanCell s = s).
Proof.
  induction s as [|c s (IHlen & IHin & IHidem & IHplain)].
  - split; [reflexivity|]. split; [intros d []|]. split; reflexivity.
  - rewrite cleanCell_cons. split; [|split; [|split]].
    + cbn [length]. by rewrite IHlen.
    + intros d [<-|Hin]; [|by apply IHin]. unfold Main.isTabOrBreak.
      destruct (Z.eqb_spec c TAB), (Z.eqb_spec c LF), (Z.eqb_spec c CR);
        cbn [orb]; repeat split; try discriminate; assumption.
    + rewrite cleanCell_cons, IHidem. f_equal.
      destruct (Main.isTabOrBreak c) eqn:Hc; [reflexivity | by rewrite Hc].
    + cbn [forallb]. rewrite andb_true_iff, negb_true_iff. intros [-> Hrest].
      f_equal. by apply IHplain.
Qed.

Lemma cleaned_cell_keeps_the_column_witness :
  Main.cleanCell (lit "leader-role 2024") = lit "leader-role 2024".
Proof.
  apply (cleaned_cell_keeps_the_column (lit "leader-role 2024")). reflexivity.
Defined.

(** **** The lines of the table. *)

Lemma numberToString_no_newline (n : Z) : Facts.occurrences LF (numberToString n) = 0.
Proof.
  apply occurrences_none. intros Hin. by destruct (numberToString_chars n LF Hin).
Qed.

Lemma tableRow_one_line (r : ObservationRecord.t) :
  Facts.occurrences LF (ObservationRecord.studentId r) = 0 ->
  Facts.occurrences LF (ObservationRecord.studentName r) = 0 ->
  Facts.occurrences LF (Main.tableRow r) = 1.
Proof.
  intros Hid Hname. unfold Main.tableRow. cbv zeta.
  rewrite !occurrences_app, Hid, Hname, !numberToString_no_newline.
  rewrite !(occurrences_none LF (Main.escapeCell _))
    by apply escapeCell_shape.
  reflexivity.
Qed.

Lemma table_lines (records : list ObservationRecord.t) :
  Forall (fun r => Facts.occurrences LF (ObservationRecord.studentId r) = 0
                   /\ Facts.occurrences LF (ObservationRecord.studentName r) = 0)
         records ->
  Facts.occurrences LF (Main.generateMarkdownTable records) = len' records + 2.
Proof.
  intros Hall. rewrite generateMarkdownTable_rows, !occurrences_app.
  change (Facts.occurrences LF Main.tableHeader) with 1.
  change (Facts.occurrences LF Main.tableRule) with 1.
  enough (Facts.occurrences LF (concat (map Main.tableRow records)) = len' records) by lia.
  unfold len'. induction Hall as [|r records [Hid Hname] _ IH]; [reflexivity|].
  cbn [map concat length]. rewrite occurrences_app, IH, tableRow_one_line by assumption.
  lia.
Qed.

(** **** Extra X7.
    The Markdown table has exactly one line per record after its two
    header lines whenever no studentId and no studentName holds a newline,
    whatever the activity and observation texts hold; this is so for every
    batch that was parsed and converted, whichever calls failed. *)
Theorem table_has_one_line_per_record :
  (forall records,
      Forall (fun r => ~ In LF (ObservationRecord.studentId r)
                       /\ ~ In LF (ObservationRecord.studentName r)) records ->
      Facts.occurrences LF (Main.generateMarkdownTable records) = len' records + 2)
  /\ (forall (h : Plugin.Host) settings data target w,
         Facts.occurrences LF
           (Main.generateMarkdownTable
              (Plugin.records
                 (Plugin.convertAll h settings (Main.parseTSV data) target w)))
         = len' (Main.parseTSV data) + 2).
Proof.
  assert (Hfirst : forall records,
             Forall (fun r => ~ In LF (ObservationRecord.studentId r)
                              /\ ~ In LF (ObservationRecord.studentName r)) records ->
             Facts.occurrences LF (Main.generateMarkdownTable records)
             = len' records + 2).
  { intros records Hall. apply table_lines.
    eapply Forall_impl; [exact Hall|]. intros r [Hid Hname].
    split; by apply occurrences_none. }
  split; [exact Hfirst|].
  intros h settings data target w.
  destruct (convertAll_invariant h settings target (Main.parseTSV data) w)
    as (_ & Hrows & _ & _).
  destruct (rows_clean _ _ _ _ _ Hrows (parseTSV_clean data)) as [Hclean _].
  rewrite Hfirst.
  - unfold len'. by rewrite (Forall2_length _ _ _ Hrows).
  - eapply Forall_impl; [exact Hclean|].
    intros r [[_ Hid] [_ Hname]]. split; intros Hin.
    + by destruct (noTabOrNewline_chars _ _ Hid Hin).
    + by destruct (noTabOrNewline_chars _ _ Hname Hin).
Qed.

Lemma table_has_one_line_per_record_witness :
  Facts.occurrences LF (Main.generateMarkdownTable Sample.twoRecords) = 4.
Proof.
  apply (proj1 table_has_one_line_per_record Sample.twoRecords).
  repeat constructor; vm_compute; intuition discriminate.
Defined.

(** **** Extra X8.
    For records whose studentId and studentName are trimmed and hold no
    tab or newline, the TSV re-export, once trimmed, has one line per
    record after the header line, and each of these lines splits on the
    tab into exactly six fields: the id, the name, the activity and the
    observation with tabs and line breaks replaced by spaces, and the two
    counts.  No activity or observation text can add a line or a
    column. *)
Theorem reexport_has_six_columns (records : list ObservationRecord.t) :
  Forall Spec.cleanRecord records ->
  map (split TAB) (split LF (trim (Main.generateTSVData records)))
  = [lit "학번"; lit "성명"; lit "학생활동기록"; lit "교사관찰기록";
     lit "글자 수"; lit "바이트 수"]
    :: map (fun r =>
              [ObservationRecord.studentId r;
               ObservationRecord.studentName r;
               Main.cleanCell (ObservationRecord.activityContent r);
               Main.cleanCell (ObservationRecord.observation r);
               numberToString (ObservationRecord.charCount r);
               numberToString (ObservationRecord.byteCount r)]) records.
Proof.
  intros Hclean.
  destruct headerLine_facts as (_ & _ & Hnl & _).
  rewrite generateTSVData_trim, split_join; [|discriminate|].
  - cbn [map]. apply (f_equal2 cons); [vm_compute; reflexivity|].
    rewrite map_map. induction Hclean as [|r records Hr _ IH]; [reflexivity|].
    cbn [map]. by rewrite rowLine_fields, IH.
  - constructor; [assumption|]. apply Forall_map.
    eapply Forall_impl; [exact Hclean|]. exact rowLine_no_newline.
Qed.

Lemma reexport_has_six_columns_witness :
  length (map (split TAB) (split LF (trim (Main.generateTSVData Sample.twoRecords))))
  = 3%nat.
Proof.
  rewrite (reexport_has_six_columns Sample.twoRecords); [reflexivity|].
  repeat constructor.
Defined.

(* ===================================================================== *)
(** ** Further properties of the conversion loop                          *)
(* ===================================================================== *)

Section ConversionLog.
Import Plugin.
Variable h : Host.
Variable settings : Settings.
Variable target : Z.

(** One turn at an index in range, in full. *)
Lemma convert_body_step (pre suf : list StudentActivity.t)
    (a : StudentActivity.t) (st : loopState (World h)) :
  uncaught st = None ->
  let activities := pre ++ a :: suf in
  let shown := log st ++ [UpdateProgress (Z.of_nat (length pre) + 1) (len' activities)
                            (StudentActivity.studentName a);
                          Attempt a] in
  convert_body h settings activities target (length pre) st
  = match generate h settings a target (world st) with
    | (Normal observation, w) =>
      LoopState (records st ++ [successRecord a observation]) (errorCount st) w
        (shown ++ Facts.pauseAt activities (length pre)) None
    | (Throw error, w) =>
      LoopState (records st ++ [failureRecord a error]) (errorCount st + 1) w
        (shown ++ [ConsoleError (StudentActivity.studentName a) error]
           ++ Facts.pauseAt activities (length pre)) None
    end.
Proof.
  intros Hnone. cbv zeta. unfold convert_body, Facts.pauseAt.
  rewrite Hnone, lookup_middle_elem.
  by destruct (generate h settings a target (world st)) as [[observation|error] w].
Qed.

Lemma pauseAt_middle (pre suf : list StudentActivity.t) (a : StudentActivity.t) :
  Facts.pauseAt (pre ++ a :: suf) (length pre)
  = match suf with [] => [] | _ => [Sleep 500] end.
Proof.
  unfold Facts.pauseAt, len'. rewrite length_app. cbn [length].
  destruct suf as [|b suf]; cbn [length].
  - destruct (Z.ltb_spec (Z.of_nat (length pre)) (Z.of_nat (length pre + 1) - 1));
      [lia | reflexivity].
  - destruct (Z.ltb_spec (Z.of_nat (length pre))
                (Z.of_nat (length pre + Datatypes.S (Datatypes.S (length suf))) - 1));
      [reflexivity | lia].
Qed.

Lemma last_app_two {A : Type} (l : list A) (x y d : A) :
  List.last (l ++ [x; y]) d = y.
Proof. change [x; y] with ([x] ++ [y]). rewrite app_assoc. apply last_last. Qed.

Lemma progressCalls_app (l1 l2 : list event) :
  Facts.progressCalls (l1 ++ l2) = Facts.progressCalls l1 ++ Facts.progressCalls l2.
Proof.
  induction l1 as [|ev l1 IH]; [reflexivity|].
  destruct ev; cbn [app Facts.progressCalls]; by rewrite IH.
Qed.

Lemma expectedProgress_app (i total : Z) (xs ys : list StudentActivity.t) :
  Facts.expectedProgress i total (xs ++ ys)
  = Facts.expectedProgress i total xs
    ++ Facts.expectedProgress (i + len' xs) total ys.
Proof.
  unfold len'. revert i. induction xs as [|x xs IH]; intros i.
  - cbn. by rewrite Z.add_0_r.
  - cbn [app Facts.expectedProgress length]. rewrite IH. do 3 f_equal. lia.
Qed.

Lemma convertAll_log (activities : list StudentActivity.t) (w : World h) :
  Facts.logInv activities activities (convertAll h settings activities target w).
Proof.
  unfold convertAll.
  apply (for_upto_invariant activities _ (Facts.logInv activities)).
  - repeat split.
  - intros pre a suf st -> (Hnone & Hprog & Hsleep & Herr & _).
    rewrite convert_body_step by assumption. rewrite pauseAt_middle.
    assert (Hmin : Nat.min (length (pre ++ [a])) (length (pre ++ a :: suf) - 1)
                   = (Nat.min (length pre) (length (pre ++ a :: suf) - 1)
                      + match suf with [] => 0 | _ => 1 end)%nat).
    { rewrite !length_app. cbn [length]. destruct suf; cbn [length]; lia. }
    assert (Hlast : length (pre ++ [a]) = length (pre ++ a :: suf) -> suf = []).
    { rewrite !length_app. cbn [length]. destruct suf; cbn [length]; [auto | lia]. }
    unfold Facts.logInv.
    destruct (generate h settings a target (world st)) as [[observation|error] w1];
      cbn [uncaught log errorCount];
      rewrite !progressCalls_app, !List.filter_app, Hprog, Hsleep, Hmin, repeat_app,
        expectedProgress_app;
      (split; [reflexivity|]); (split; [|split; [|split]]).
    + destruct suf; cbn; rewrite ?app_nil_r, Z.add_0_l; reflexivity.
    + destruct suf; cbn; rewrite ?app_nil_r; reflexivity.
    + unfold len' in *. rewrite !length_app. cbn [List.filter].
      destruct suf; cbn [length Facts.isSleep Facts.isConsoleError List.filter]; lia.
    + intros Hlen. rewrite (Hlast Hlen), app_nil_r, last_app_two. reflexivity.
    + destruct suf; cbn; rewrite ?app_nil_r, Z.add_0_l; reflexivity.
    + destruct suf; cbn; rewrite ?app_nil_r; reflexivity.
    + unfold len' in *. rewrite !length_app. cbn [List.filter].
      destruct suf; cbn [length Facts.isSleep Facts.isConsoleError List.filter app];
        rewrite ?length_app; cbn [length]; lia.
    + intros Hlen. rewrite (Hlast Hlen), app_nil_r, last_last. reflexivity.
Qed.

End ConversionLog.


Lemma rowOf_measures (h : Plugin.Host) (settings : Plugin.Settings) (target : Z)
    (a : StudentActivity.t) (r : ObservationRecord.t) :
  Spec.rowOf h settings target a r ->
  (ObservationRecord.charCount r = 0 /\ ObservationRecord.byteCount r = 0)
  \/ (ObservationRecord.charCount r = Main.countChars (ObservationRecord.observation r)
      /\ ObservationRecord.byteCount r
         = Main.countBytes (ObservationRecord.observation r)).
Proof.
  intros [(obs & w0 & w1 & _ & ->)|(e & w0 & w1 & _ & ->)]; [right | left]; by split.
Qed.

(** **** Extra X10.
    Every record the loop produces carries either the counts 0 and 0 or
    the character and byte counts of its own observation, and in both
    cases [0 <= charCount <= byteCount <= 3 * charCount].  The error
    counter equals the number of errors written to the console and never
    exceeds the number of records, so the number of successes announced
    at the end is never negative. *)
Theorem records_measured_errors_counted (h : Plugin.Host)
    (settings : Plugin.Settings) (activities : list StudentActivity.t)
    (target : Z) (w : Plugin.World h) :
  let st := Plugin.convertAll h settings activities target w in
  Forall (fun r =>
            ((ObservationRecord.charCount r = 0 /\ ObservationRecord.byteCount r = 0)
             \/ (ObservationRecord.charCount r
                 = Main.countChars (ObservationRecord.observation r)
                 /\ ObservationRecord.byteCount r
                    = Main.countBytes (ObservationRecord.observation r)))
            /\ 0 <= ObservationRecord.charCount r <= ObservationRecord.byteCount r
            /\ ObservationRecord.byteCount r <= 3 * ObservationRecord.charCount r)
         (Plugin.records st)
  /\ Plugin.errorCount st
     = len' (List.filter Facts.isConsoleError (Plugin.log st))
  /\ 0 <= len' (Plugin.records st) - Plugin.errorCount st.
Proof.
  cbv zeta.
  destruct (convertAll_invariant h settings target activities w)
    as (_ & Hrows & _ & Hcount).
  destruct (convertAll_log h settings target activities w)
    as (_ & _ & _ & Herr & _).
  split; [|split; [exact Herr|]].
  - clear Hcount Herr. induction Hrows as [|a r ? ? Hrow _ IH]; constructor; [|exact IH].
    pose proof (rowOf_measures _ _ _ _ _ Hrow) as Hm. split; [exact Hm|].
    destruct Hm as [[-> ->]|[-> ->]]; [lia|].
    pose proof (countBytes_between (ObservationRecord.observation r)).
    unfold Main.countChars, len in *. lia.
  - unfold len' in *. rewrite <- (Forall2_length _ _ _ Hrows). lia.
Qed.

Lemma generate_unknown (h : Plugin.Host) (settings : Plugin.Settings)
    (a : StudentActivity.t) (target : Z) (w : Plugin.World h) :
  Vendor.knownProvider (Plugin.apiProvider settings) = false ->
  Plugin.generate h settings a target w
  = (Plugin.Throw
       (Plugin.JsError (lit "지원하지 않는 AI 제공자: " ++ Plugin.apiProvider settings)),
     w).
Proof.
  unfold Vendor.knownProvider, Plugin.generate. cbv zeta.
  rewrite !orb_false_iff. intros [[[-> ->] ->] ->]. reflexivity.
Qed.

(** **** Extra X11.
    With a provider other than openai, claude, gemini and grok in the
    settings, no vendor is called: the loop leaves the outside world as it
    was, every row becomes a failure record whose observation says that
    the provider is not supported, and the error counter ends at the number
    of rows. *)
Theorem unknown_provider_fails_every_row (h : Plugin.Host)
    (settings : Plugin.Settings) (activities : list StudentActivity.t)
    (target : Z) (w : Plugin.World h) :
  Vendor.knownProvider (Plugin.apiProvider settings) = false ->
  let st := Plugin.convertAll h settings activities target w in
  Plugin.world st = w
  /\ Plugin.records st
     = map (fun a =>
              ObservationRecord.make
                (StudentActivity.studentId a) (StudentActivity.studentName a)
                (StudentActivity.activityContent a)
                (lit "[변환 실패: 지원하지 않는 AI 제공자: "
                 ++ Plugin.apiProvider settings ++ lit "]") 0 0)
           activities
  /\ Plugin.errorCount st = len' activities
  /\ Plugin.uncaught st = None.
Proof.
  intros Hunknown. cbv zeta. unfold Plugin.convertAll.
  apply (for_upto_invariant activities _
           (fun pre st =>
              Plugin.world st = w
              /\ Plugin.records st
                 = map (fun a =>
                          ObservationRecord.make
                            (StudentActivity.studentId a) (StudentActivity.studentName a)
                            (StudentActivity.activityContent a)
                            (lit "[변환 실패: 지원하지 않는 AI 제공자: "
                             ++ Plugin.apiProvider settings ++ lit "]") 0 0) pre
              /\ Plugin.errorCount st = len' pre
              /\ Plugin.uncaught st = None)).
  - repeat split.
  - intros pre a suf st -> (Hw & Hrec & Herr & Hnone).
    rewrite convert_body_step, generate_unknown by assumption.
    cbn [Plugin.world Plugin.records Plugin.errorCount Plugin.uncaught].
    rewrite Hrec, Herr, map_app. unfold len'. rewrite length_app. cbn [length map].
    split; [assumption|]. split; [|split; [lia | reflexivity]].
    reflexivity.
Qed.

Lemma unknown_provider_fails_every_row_witness :
  Plugin.errorCount
    (Plugin.convertAll Sample.failingHost Facts.unknownProviderSettings
       Sample.twoActivities 500 tt) = 2.
Proof.
  apply (unknown_provider_fails_every_row Sample.failingHost
           Facts.unknownProviderSettings Sample.twoActivities 500 tt).
  reflexivity.
Defined.

(* ===================================================================== *)
(** ** The batch whose calls all fail                                     *)
(* ===================================================================== *)

Lemma failureRecord_placeholder (a : StudentActivity.t) (error : Plugin.thrown) :
  Plugin.failureRecord a error = Batch.placeholder a error.
Proof. by destruct error. Qed.

Lemma tableRow_placeholder (a : StudentActivity.t) (error : Plugin.thrown) :
  Main.tableRow (Batch.placeholder a error) = Batch.placeholderRow a error.
Proof.
  unfold Main.tableRow, Batch.placeholder, Batch.placeholderRow. cbv zeta.
  cbn [ObservationRecord.studentId ObservationRecord.studentName
       ObservationRecord.activityContent ObservationRecord.observation
       ObservationRecord.charCount ObservationRecord.byteCount].
  do 8 (apply (f_equal2 app); [reflexivity|]). reflexivity.
Qed.

Lemma generate_callVendor (h : Plugin.Host) (settings : Plugin.Settings)
    (a : StudentActivity.t) (target : Z) (w : Plugin.World h) :
  Plugin.generate h settings a target w = Batch.callVendor h settings a target w.
Proof. reflexivity. Qed.

(** Behind the recorder a call does what it does on the host itself, and
    the row is written down when a vendor was reached. *)
Lemma callVendor_recording (h : Plugin.Host) (settings : Plugin.Settings)
    (a : StudentActivity.t) (target : Z) (w : Plugin.World h)
    (seen : list StudentActivity.t) :
  Batch.callVendor (Batch.recording h) settings a target (w, seen)
  = (fst (Batch.callVendor h settings a target w),
     (snd (Batch.callVendor h settings a target w),
      seen ++ if Vendor.knownProvider (Plugin.apiProvider settings) then [a] else [])).
Proof.
  unfold Batch.callVendor, Vendor.knownProvider. cbv zeta.
  destruct (streq (Plugin.apiProvider settings) (lit "openai")).
  { cbn [Batch.recording Plugin.callOpenAI orb].
    by destruct (Plugin.callOpenAI h _ _ _ _ _). }
  destruct (streq (Plugin.apiProvider settings) (lit "claude")).
  { cbn [Batch.recording Plugin.callClaude orb].
    by destruct (Plugin.callClaude h _ _ _ _ _). }
  destruct (streq (Plugin.apiProvider settings) (lit "gemini")).
  { cbn [Batch.recording Plugin.callGemini orb].
    by destruct (Plugin.callGemini h _ _ _ _ _). }
  destruct (streq (Plugin.apiProvider settings) (lit "grok")).
  { cbn [Batch.recording Plugin.callGrok orb].
    by destruct (Plugin.callGrok h _ _ _ _ _). }
  cbn [orb fst snd]. by rewrite app_nil_r.
Qed.

Lemma eachCallFails_recording (h : Plugin.Host) (settings : Plugin.Settings)
    (target : Z) (activities : list StudentActivity.t) (w w' : Plugin.World h)
    (errors : list Plugin.thrown) :
  Batch.eachCallFails h settings target activities w errors w' ->
  forall seen,
    Batch.eachCallFails (Batch.recording h) settings target activities (w, seen) errors
      (w', seen ++ if Vendor.knownProvider (Plugin.apiProvider settings)
                   then activities else []).
Proof.
  induction 1 as [w|a rest w w1 w' error errors Hcall _ IH]; intros seen.
  - destruct (Vendor.knownProvider _); rewrite app_nil_r;
      apply (Batch.noCall (Batch.recording h)).
  - apply (Batch.failedCall (Batch.recording h))
      with (w1 := (w1, seen ++ if Vendor.knownProvider (Plugin.apiProvider settings)
                                then [a] else [])).
    + by rewrite callVendor_recording, Hcall.
    + specialize (IH (seen ++ if Vendor.knownProvider (Plugin.apiProvider settings)
                              then [a] else [])).
      destruct (Vendor.knownProvider _); rewrite <- ?app_assoc in IH; exact IH.
Qed.

Lemma eachCallFails_length (h : Plugin.Host) (settings : Plugin.Settings)
    (target : Z) (activities : list StudentActivity.t) (w w' : Plugin.World h)
    (errors : list Plugin.thrown) :
  Batch.eachCallFails h settings target activities w errors w' ->
  length errors = length activities.
Proof. induction 1; cbn [length]; congruence. Qed.

(** The loop on a batch whose calls all fail: it makes exactly these
    calls. *)
Lemma convertAll_each_call_fails (h : Plugin.Host) (settings : Plugin.Settings)
    (target : Z) (activities : list StudentActivity.t) (w w' : Plugin.World h)
    (errors : list Plugin.thrown) :
  Batch.eachCallFails h settings target activities w errors w' ->
  let st := Plugin.convertAll h settings activities target w in
  Plugin.uncaught st = None
  /\ Plugin.records st = zip_with Batch.placeholder activities errors
  /\ Plugin.errorCount st = len' activities
  /\ Plugin.world st = w'.
Proof.
  intros Hfail. cbv zeta. unfold Plugin.convertAll.
  set (Inv := fun (pre : list StudentActivity.t)
                  (st : Plugin.loopState (Plugin.World h)) =>
              exists suf done todo,
                activities = pre ++ suf /\ errors = done ++ todo
                /\ length done = length pre
                /\ Batch.eachCallFails h settings target suf (Plugin.world st) todo w'
                /\ Plugin.uncaught st = None
                /\ Plugin.records st = zip_with Batch.placeholder pre done
                /\ Plugin.errorCount st = len' pre).
  assert (Hfinal : Inv activities
                     (for_upto (length activities)
                        (Plugin.convert_body h settings activities target)
                        (Plugin.LoopState [] 0 w [Plugin.OpenProgress] None))).
  { apply (for_upto_invariant activities _ Inv).
    - exists activities, [], errors. by repeat split.
    - intros pre a suf st Hxs (suf0 & done & todo & Hsplit & -> & Hlen & Hrest & Hnone
                               & Hrec & Hcount).
      assert (Hsuf : suf0 = a :: suf).
      { apply (app_inv_head pre). by rewrite <- Hsplit. }
      subst suf0. inversion Hrest as [|? ? ? w1 ? error todo' Hgen Hrest']; subst.
      rewrite <- generate_callVendor in Hgen.
      destruct (convert_body_in_range h settings target pre suf a st Hnone)
        as (Hnone' & Hworld & _ & Hres).
      rewrite Hgen in Hres, Hworld. cbn [fst snd] in Hres, Hworld.
      destruct Hres as [Hrec' Hcount'].
      exists suf, (done ++ [error]), todo'.
      split; [by rewrite <- app_assoc|]. split; [by rewrite <- app_assoc|].
      split; [by rewrite !length_app, Hlen|].
      split; [by rewrite Hworld|]. split; [exact Hnone'|]. split.
      + rewrite Hrec', Hrec, failureRecord_placeholder.
        by rewrite zip_with_app by (by symmetry).
      + rewrite Hcount', Hcount. unfold len'. rewrite length_app. cbn [length]. lia. }
  destruct Hfinal as (suf & done & todo & Hsplit & -> & Hlen & Hrest & Hnone & Hrec
                      & Hcount).
  assert (Hsuf : suf = []).
  { apply (app_inv_head activities). by rewrite app_nil_r, <- Hsplit. }
  subst suf. inversion Hrest; subst. rewrite app_nil_r. by repeat split.
Qed.

(** [processConversion] on an input with at least one valid row: the loop
    runs to its end, the host is asked to create the note with the two
    renderings of the records, and the closing notice counts the records
    and the errors. *)
Lemma processConversion_writes_note (h : Plugin.Host) (settings : Plugin.Settings)
    (data : jsstring) (target : Z) (w : Plugin.World h) :
  Main.parseTSV data <> [] ->
  let st := Plugin.convertAll h settings (Main.parseTSV data) target w in
  let N := len' (Main.parseTSV data) in
  Plugin.processConversion h settings data target w
  = Batch.noteWritten h st
      (Main.generateTSVData (Plugin.records st))
      (Main.generateMarkdownTable (Plugin.records st))
      (if 0 <? Plugin.errorCount st then
         lit "변환 완료! (" ++ numberToString (N - Plugin.errorCount st)
         ++ lit "명 성공, " ++ numberToString (Plugin.errorCount st) ++ lit "명 실패)"
       else numberToString N ++ lit "명의 교사관찰기록 변환 완료!").
Proof.
  intros Hrows. cbv zeta. unfold Plugin.processConversion. cbv zeta.
  destruct (Z.eqb_spec (len' (Main.parseTSV data)) 0) as [Hlen|_].
  - unfold len' in Hlen. destruct (Main.parseTSV data); [congruence | discriminate Hlen].
  - destruct (convertAll_invariant h settings target (Main.parseTSV data) w)
      as (Hnone & Hrecords & _ & _).
    rewrite Hnone. unfold Batch.noteWritten, Plugin.createResultNote, Plugin.finalNotice.
    cbn [Plugin.records Plugin.world Plugin.errorCount].
    assert (Hlen : len' (Plugin.records
                           (Plugin.convertAll h settings (Main.parseTSV data) target w))
                   = len' (Main.parseTSV data)).
    { unfold len'. by rewrite (Forall2_length _ _ _ Hrecords). }
    rewrite Hlen.
    destruct (Plugin.vaultCreate h _ _ _) as [[u|error] w']; reflexivity.
Qed.

Lemma placeholders_rows (activities : list StudentActivity.t)
    (errors : list Plugin.thrown) :
  map Main.tableRow (zip_with Batch.placeholder activities errors)
  = zip_with Batch.placeholderRow activities errors.
Proof.
  revert errors. induction activities as [|a activities IH]; intros [|e errors];
    try reflexivity.
  cbn [zip_with map]. by rewrite tableRow_placeholder, IH.
Qed.

Lemma placeholders_one_line (activities : list StudentActivity.t)
    (errors : list Plugin.thrown) :
  Forall Spec.cleanActivity activities ->
  Forall (fun r => Facts.occurrences LF (ObservationRecord.studentId r) = 0
                   /\ Facts.occurrences LF (ObservationRecord.studentName r) = 0)
         (zip_with Batch.placeholder activities errors).
Proof.
  intros Hclean. revert errors.
  induction Hclean as [|a activities [[_ Hid] [_ Hname]] _ IH]; intros [|e errors];
    try constructor; [|apply IH].
  cbn [Batch.placeholder ObservationRecord.studentId ObservationRecord.studentName].
  split; apply occurrences_none; intros Hin.
  - by destruct (noTabOrNewline_chars _ _ Hid Hin).
  - by destruct (noTabOrNewline_chars _ _ Hname Hin).
Qed.

(** **** Claim C5.
    Take a batch of N rows and invoke the generation once for each row,
    in input order, each time on the world that the invocation before
    left; suppose that every one of these invocations throws.  Then the
    loop of [processConversion] ends without an exception and has made
    exactly these N calls: the world it leaves is the one they leave, and
    a recorder put in front of the vendors sees each row once, in input
    order (no row is tried twice, none is skipped after a failure).  Its
    records are the N placeholders in input order, the i-th carrying the
    id, name and activity of the i-th row, the observation
    "[변환 실패: <message>]" with the message of the error thrown for that
    row (the fixed text "알 수 없는 오류" when what was thrown is not an
    Error), and the counts 0 and 0; the error counter ends at N.  The
    Markdown table of these records is the header and one line per row
    showing the placeholder; for a batch parsed from an input text the
    table has N + 2 lines, and [processConversion] asks the host to
    create the note with the TSV re-export and this table, then announces
    0 successes and N failures. *)
Theorem all_calls_fail_all_rows_kept (h : Plugin.Host) (settings : Plugin.Settings)
    (activities : list StudentActivity.t) (target : Z) (w w' : Plugin.World h)
    (errors : list Plugin.thrown) :
  Batch.eachCallFails h settings target activities w errors w' ->
  let st := Plugin.convertAll h settings activities target w in
  let N := len' activities in
  let failed := zip_with Batch.placeholder activities errors in
  Plugin.uncaught st = None
  /\ Plugin.records st = failed
  /\ len' failed = N
  /\ map Spec.sourceOf failed = activities
  /\ Forall (fun r => ObservationRecord.charCount r = 0
                      /\ ObservationRecord.byteCount r = 0) failed
  /\ Plugin.errorCount st = N
  /\ Plugin.world st = w'
  /\ snd (Plugin.world
            (Plugin.convertAll (Batch.recording h) settings activities target (w, [])))
     = (if Vendor.knownProvider (Plugin.apiProvider settings) then activities else [])
  /\ Main.generateMarkdownTable failed
     = Main.tableHeader ++ Main.tableRule
       ++ concat (zip_with Batch.placeholderRow activities errors)
  /\ (forall data, Main.parseTSV data = activities -> activities <> [] ->
      Facts.occurrences LF (Main.generateMarkdownTable failed) = N + 2
      /\ Plugin.processConversion h settings data target w
         = Batch.noteWritten h st
             (Main.generateTSVData failed) (Main.generateMarkdownTable failed)
             (lit "변환 완료! (0명 성공, " ++ numberToString N ++ lit "명 실패)")).
Proof.
  intros Hfail. cbv zeta.
  destruct (convertAll_each_call_fails h settings target activities w w' errors Hfail)
    as (Hnone & Hrecords & Hcount & Hworld).
  pose proof (eachCallFails_length h settings target activities w w' errors Hfail)
    as Hlength.
  assert (Hlen : len' (zip_with Batch.placeholder activities errors) = len' activities).
  { unfold len'. rewrite length_zip_with. lia. }
  split; [exact Hnone|]. split; [exact Hrecords|]. split; [exact Hlen|].
  split.
  { clear -Hlength. revert errors Hlength.
    induction activities as [|a activities IH]; intros [|e errors] Hlength;
      try discriminate Hlength; [reflexivity|].
    cbn [zip_with map]. rewrite IH by (by injection Hlength).
    by destruct a. }
  split.
  { clear. revert errors. induction activities as [|a activities IH]; intros [|e errors];
      try constructor; [by split | apply IH]. }
  split; [exact Hcount|]. split; [exact Hworld|]. split.
  { pose proof (eachCallFails_recording h settings target activities w w' errors
                  Hfail []) as Hrecorded.
    destruct (convertAll_each_call_fails (Batch.recording h) settings target
                activities (w, []) _ errors Hrecorded) as (_ & _ & _ & ->).
    reflexivity. }
  split.
  { by rewrite generateMarkdownTable_rows, placeholders_rows. }
  intros data Hparse Hne. split.
  - rewrite table_lines, Hlen; [reflexivity|].
    apply placeholders_one_line. rewrite <- Hparse. apply parseTSV_clean.
  - subst activities. rewrite processConversion_writes_note by assumption. cbv zeta.
    rewrite Hrecords, Hcount.
    assert (Hpos : (0 <? len' (Main.parseTSV data)) = true).
    { apply Z.ltb_lt. unfold len'. destruct (Main.parseTSV data); [congruence|].
      cbn [length]. lia. }
    rewrite Hpos, Z.sub_diag. reflexivity.
Qed.

Lemma all_calls_fail_all_rows_kept_witness :
  Plugin.world
    (Plugin.convertAll Batch.countingHost Sample.settings Sample.twoActivities 500 0%nat)
  = 2%nat
  /\ Plugin.records
       (Plugin.convertAll Batch.countingHost Sample.settings Sample.twoActivities 500
          0%nat)
     = [ObservationRecord.make (lit "10101") (lit "김철수") (lit "프로젝트 활동")
          (lit "[변환 실패: network down]") 0 0;
        ObservationRecord.make (lit "10102") (lit "이영희") (lit "독서 토론")
          (lit "[변환 실패: network down]") 0 0]
  /\ Plugin.errorCount
       (Plugin.convertAll Batch.countingHost Sample.settings Sample.twoActivities 500
          0%nat) = 2.
Proof.
  assert (Hfail : Batch.eachCallFails Batch.countingHost Sample.settings 500
                    Sample.twoActivities 0%nat
                    [Plugin.JsError (lit "network down");
                     Plugin.JsError (lit "network down")] 2%nat).
  { apply (Batch.failedCall Batch.countingHost) with (w1 := 1%nat); [reflexivity|].
    apply (Batch.failedCall Batch.countingHost) with (w1 := 2%nat); [reflexivity|].
    apply (Batch.noCall Batch.countingHost). }
  destruct (all_calls_fail_all_rows_kept Batch.countingHost Sample.settings
              Sample.twoActivities 500 0%nat 2%nat _ Hfail)
    as (_ & Hrecords & _ & _ & _ & Hcount & Hworld & _).
  split; [exact Hworld|]. split; [|exact Hcount].
  rewrite Hrecords. vm_compute. reflexivity.
Defined.

(** **** The entry points. *)

Lemma parseTSV_blank (data : jsstring) : trim data = [] -> Main.parseTSV data = [].
Proof. intros Hblank. by rewrite parseTSV_lines, Hblank. Qed.

Lemma processConversion_no_rows (h : Plugin.Host) (settings : Plugin.Settings)
    (data : jsstring) (target : Z) (w : Plugin.World h) :
  Main.parseTSV data = [] ->
  Plugin.processConversion h settings data target w
  = Plugin.NoData (lit "변환할 데이터가 없습니다.") w.
Proof. intros Hnone. unfold Plugin.processConversion. by rewrite Hnone. Qed.

Lemma split_count (sep : Z) (s : jsstring) :
  len' (split sep s) = Facts.occurrences sep s + 1.
Proof.
  unfold len', Facts.occurrences, len. induction s as [|c s IH]; [reflexivity|].
  cbn [split List.filter]. destruct (c =? sep).
  - cbn [length]. lia.
  - pose proof (split_nonempty sep s) as Hne.
    destruct (split sep s) as [|field fields]; [congruence|].
    cbn [length] in *. lia.
Qed.

Lemma parseLines_none (lines : list jsstring) :
  Spec.parseLines lines = []
  <-> existsb (fun line => 2 <=? Facts.occurrences TAB line) lines = false.
Proof.
  induction lines as [|line lines IH]; [by split|].
  rewrite parseLines_cons. cbn [existsb].
  unfold Spec.parseLines at 1. unfold Spec.accepted, Spec.fields. cbn [map List.filter].
  rewrite split_count.
  destruct (Z.leb_spec 3 (Facts.occurrences TAB line + 1));
    destruct (Z.leb_spec 2 (Facts.occurrences TAB line)); try lia.
  - cbn [map app orb]. split; discriminate.
  - cbn [map app orb]. exact IH.
Qed.

Lemma parseTSV_none (data : jsstring) :
  Main.parseTSV data = [] <-> Facts.hasRow data = false.
Proof. rewrite parseTSV_lines. apply parseLines_none. Qed.



(* ===================================================================== *)
(** ** Properties of the vendor calls                                     *)
(* ===================================================================== *)

Section VendorCalls.
Variable net : Vendor.Net.

Lemma callTrim_normal (v : Plugin.completion Vendor.jsvalue) (obs : jsstring) :
  Vendor.callTrim net v = Plugin.Normal obs -> exists content, obs = trim content.
Proof.
  destruct v as [[|[| | |s| |]]|e]; cbn; intros Heq; try discriminate Heq.
  injection Heq as <-. by exists s.
Qed.

Lemma afterRequest_normal (vendor : jsstring)
    (extract : Vendor.response -> Plugin.completion jsstring)
    (answer : Plugin.completion Vendor.response * Vendor.NetWorld net)
    (obs : jsstring) (w : Vendor.NetWorld net) :
  Vendor.afterRequest net vendor extract answer = (Plugin.Normal obs, w) ->
  exists r, Vendor.status r = 200 /\ extract r = Plugin.Normal obs.
Proof.
  unfold Vendor.afterRequest. destruct answer as [[r|e] w1]; [|discriminate].
  destruct (Z.eqb_spec (Vendor.status r) 200) as [Hok|_]; cbn [negb]; [|discriminate].
  intros [= Hobs Hw]. by exists r.
Qed.

Lemma afterRequest_refused (vendor : jsstring)
    (extract : Vendor.response -> Plugin.completion jsstring)
    (r : Vendor.response) (w : Vendor.NetWorld net) :
  Vendor.status r <> 200 ->
  Vendor.afterRequest net vendor extract (Plugin.Normal r, w)
  = (Plugin.Throw
       (Plugin.JsError
          (vendor ++ lit " API 오류: " ++ numberToString (Vendor.status r))), w).
Proof.
  intros Hstatus. unfold Vendor.afterRequest.
  by destruct (Z.eqb_spec (Vendor.status r) 200).
Qed.

(** The call that [generate] makes for a known provider. *)
Lemma generate_known (settings : Plugin.Settings) (a : StudentActivity.t)
    (target : Z) (w : Vendor.NetWorld net) :
  Vendor.knownProvider (Plugin.apiProvider settings) = true ->
  exists extract request,
    (extract = Vendor.chatContent net \/ extract = Vendor.claudeContent net
     \/ extract = Vendor.geminiContent net)
    /\ Plugin.generate (Vendor.host net) settings a target w
       = Vendor.afterRequest net (Vendor.vendorLabel (Plugin.apiProvider settings))
           extract (Vendor.requestUrl net request w).
Proof.
  unfold Vendor.knownProvider, Vendor.vendorLabel, Plugin.generate. cbv zeta.
  destruct (streq (Plugin.apiProvider settings) (lit "openai")).
  { intros _. eexists _, _. split; [left; reflexivity | reflexivity]. }
  destruct (streq (Plugin.apiProvider settings) (lit "claude")).
  { intros _. eexists _, _. split; [right; left; reflexivity | reflexivity]. }
  destruct (streq (Plugin.apiProvider settings) (lit "gemini")).
  { intros _. eexists _, _. split; [right; right; reflexivity | reflexivity]. }
  destruct (streq (Plugin.apiProvider settings) (lit "grok")); [|discriminate].
  intros _. eexists _, _. split; [left; reflexivity | reflexivity].
Qed.

Lemma generate_trimmed (settings : Plugin.Settings) (a : StudentActivity.t)
    (target : Z) (w w' : Vendor.NetWorld net) (obs : jsstring) :
  Plugin.generate (Vendor.host net) settings a target w = (Plugin.Normal obs, w') ->
  exists content, obs = trim content.
Proof.
  destruct (Vendor.knownProvider (Plugin.apiProvider settings)) eqn:Hknown.
  - destruct (generate_known settings a target w Hknown)
      as (extract & request & Hextract & ->).
    intros Hnormal. apply afterRequest_normal in Hnormal as (r & _ & Hr).
    destruct Hextract as [-> | [-> | ->]]; exact (callTrim_normal _ _ Hr).
  - rewrite generate_unknown by assumption. discriminate.
Qed.

End VendorCalls.

Lemma trim_tight (c d : Z) (r y : jsstring) :
  isWhiteSpace c = false -> isWhiteSpace d = false -> c :: r = y ++ [d] ->
  trim (c :: r) = c :: r.
Proof.
  intros Hc Hd Hy. unfold trim. rewrite trimStart_fixed by assumption.
  rewrite Hy. by apply trimEnd_snoc_fixed.
Qed.

Lemma failureText_trimmed (message : jsstring) :
  trim (lit "[변환 실패: " ++ message ++ lit "]")
  = lit "[변환 실패: " ++ message ++ lit "]".
Proof.
  apply (trim_tight 0x5B 0x5D _ (lit "[변환 실패: " ++ message));
    [reflexivity | reflexivity |].
  by rewrite <- app_assoc.
Qed.

(* ===================================================================== *)
(** ** The answers of the vendors                                        *)
(* ===================================================================== *)

Section VendorAnswers.
Variable net : Vendor.Net.

(** The call that [generate] makes for a known provider: the request of
    the row, then the status test and the reads of that vendor. *)
Lemma generate_request (settings : Plugin.Settings) (a : StudentActivity.t)
    (target : Z) (w : Vendor.NetWorld net) :
  Vendor.knownProvider (Plugin.apiProvider settings) = true ->
  Plugin.generate (Vendor.host net) settings a target w
  = Vendor.afterRequest net (Vendor.vendorLabel (Plugin.apiProvider settings))
      (fun r =>
         Vendor.callTrim net
           (fold_left (Vendor.read net)
              (Answers.contentPath (Plugin.apiProvider settings)) (Vendor.bodyOf r)))
      (Vendor.requestUrl net (Answers.requestOf settings a target) w).
Proof.
  unfold Vendor.knownProvider, Vendor.vendorLabel, Plugin.generate,
    Answers.requestOf, Answers.contentPath. cbv zeta.
  unfold Plugin.orElse. intros Hknown.
  destruct (streq (Plugin.apiProvider settings) (lit "openai"));
    [by destruct (Plugin.modelId settings)|].
  destruct (streq (Plugin.apiProvider settings) (lit "claude"));
    [by destruct (Plugin.modelId settings)|].
  destruct (streq (Plugin.apiProvider settings) (lit "gemini"));
    [by destruct (Plugin.modelId settings)|].
  destruct (streq (Plugin.apiProvider settings) (lit "grok"));
    [by destruct (Plugin.modelId settings) | discriminate Hknown].
Qed.

Lemma member_ownProperty (name : jsstring) (members : list (jsstring * Vendor.json))
    (v : Vendor.json) :
  Answers.member name members = Some v ->
  Vendor.ownProperty name members = Vendor.Value v.
Proof.
  induction members as [|[k u] members IH]; [discriminate|].
  cbn [Answers.member Vendor.ownProperty].
  destruct (streq k name); [congruence | exact IH].
Qed.

(** The reads of the plugin along a path arrive where the document has
    its value. *)
Lemma read_path (path : list Vendor.key) (j v : Vendor.json) :
  Answers.lookupPath path j = Some v ->
  fold_left (Vendor.read net) path (Plugin.Normal (Vendor.Value j))
  = Plugin.Normal (Vendor.Value v).
Proof.
  revert j. induction path as [|[name|i] path IH]; intros j; cbn [Answers.lookupPath].
  - by intros [= ->].
  - destruct j as [| | | | |members]; try discriminate.
    destruct (Answers.member name members) as [u|] eqn:Hu; [|discriminate].
    intros Hrest. cbn [fold_left Vendor.read Vendor.getProperty].
    rewrite (member_ownProperty _ _ _ Hu). by apply IH.
  - destruct j as [| | | |items|]; try discriminate.
    destruct (items !! i) as [u|] eqn:Hu; [|discriminate].
    intros Hrest. cbn [fold_left Vendor.read Vendor.getProperty].
    rewrite Hu. by apply IH.
Qed.

(** An answer with status 200 and a JSON body: what the call returns is
    decided by the value at the vendor's path. *)
Lemma generate_answered (settings : Plugin.Settings) (a : StudentActivity.t)
    (target : Z) (w w1 : Vendor.NetWorld net) (r : Vendor.response)
    (j v : Vendor.json) :
  Vendor.knownProvider (Plugin.apiProvider settings) = true ->
  Vendor.requestUrl net (Answers.requestOf settings a target) w
  = (Plugin.Normal r, w1) ->
  Vendor.status r = 200 ->
  Vendor.json_ r = Plugin.Normal j ->
  Answers.lookupPath (Answers.contentPath (Plugin.apiProvider settings)) j = Some v ->
  Plugin.generate (Vendor.host net) settings a target w
  = (Vendor.callTrim net (Plugin.Normal (Vendor.Value v)), w1).
Proof.
  intros Hknown Hrequest Hstatus Hjson Hpath.
  rewrite generate_request, Hrequest by assumption.
  unfold Vendor.afterRequest, Vendor.bodyOf. rewrite Hstatus, Hjson. cbn [Z.eqb negb].
  by rewrite (read_path _ _ _ Hpath).
Qed.

(** An answer with a status other than 200. *)
Lemma generate_refused (settings : Plugin.Settings) (a : StudentActivity.t)
    (target : Z) (w w1 : Vendor.NetWorld net) (r : Vendor.response) :
  Vendor.knownProvider (Plugin.apiProvider settings) = true ->
  Vendor.requestUrl net (Answers.requestOf settings a target) w
  = (Plugin.Normal r, w1) ->
  Vendor.status r <> 200 ->
  Plugin.generate (Vendor.host net) settings a target w
  = (Plugin.Throw
       (Plugin.JsError
          (Vendor.vendorLabel (Plugin.apiProvider settings)
           ++ lit " API 오류: " ++ numberToString (Vendor.status r))), w1).
Proof.
  intros Hknown Hrequest Hstatus.
  rewrite generate_request, Hrequest by assumption.
  by apply afterRequest_refused.
Qed.

End VendorAnswers.

(** Vendors that throw for every row throw along every run. *)
Lemma eachCallFails_always (h : Plugin.Host) (settings : Plugin.Settings)
    (target : Z) (errorOf : StudentActivity.t -> Plugin.thrown) :
  (forall a w0, exists w1,
      Plugin.generate h settings a target w0 = (Plugin.Throw (errorOf a), w1)) ->
  forall activities w, exists w',
    Batch.eachCallFails h settings target activities w (map errorOf activities) w'.
Proof.
  intros Hall activities.
  induction activities as [|a activities IH]; intros w.
  - exists w. apply Batch.noCall.
  - destruct (Hall a w) as (w1 & Hcall). destruct (IH w1) as (w' & Hrest).
    exists w'. apply (Batch.failedCall h) with (w1 := w1); [|exact Hrest].
    rewrite <- generate_callVendor. exact Hcall.
Qed.

Lemma placeholders_map (activities : list StudentActivity.t)
    (errorOf : StudentActivity.t -> Plugin.thrown) :
  zip_with Batch.placeholder activities (map errorOf activities)
  = map (fun a => Batch.placeholder a (errorOf a)) activities.
Proof.
  induction activities as [|a activities IH]; [reflexivity|].
  cbn [map zip_with]. by rewrite IH.
Qed.

(** **** Extra X13.
    A vendor call sends the request of its row and, when [requestUrl]
    returns an answer whose status is not 200, throws an Error that names
    the vendor and exactly that status; what [requestUrl] itself throws
    passes through unchanged.  So on a network that answers each request
    with a status other than 200, every row becomes a failure record
    whose observation is "[변환 실패: <Vendor> API 오류: <status>]" with
    the status answered to the request of that row, and the error counter
    ends at the number of rows. *)
Theorem refused_requests_name_the_status (net : Vendor.Net)
    (settings : Plugin.Settings) (activities : list StudentActivity.t)
    (target : Z) (w : Vendor.NetWorld net) (statusOf : Vendor.request -> Z) :
  Vendor.knownProvider (Plugin.apiProvider settings) = true ->
  (forall a w0 w1 r,
      Vendor.requestUrl net (Answers.requestOf settings a target) w0
      = (Plugin.Normal r, w1) ->
      Vendor.status r <> 200 ->
      Plugin.generate (Vendor.host net) settings a target w0
      = (Plugin.Throw
           (Plugin.JsError
              (Vendor.vendorLabel (Plugin.apiProvider settings)
               ++ lit " API 오류: " ++ numberToString (Vendor.status r))), w1))
  /\ (forall a w0 w1 e,
         Vendor.requestUrl net (Answers.requestOf settings a target) w0
         = (Plugin.Throw e, w1) ->
         Plugin.generate (Vendor.host net) settings a target w0 = (Plugin.Throw e, w1))
  /\ ((forall request w0, exists r w1,
          Vendor.requestUrl net request w0 = (Plugin.Normal r, w1)
          /\ Vendor.status r = statusOf request) ->
      (forall request, statusOf request <> 200) ->
      let st := Plugin.convertAll (Vendor.host net) settings activities target w in
      Plugin.records st
      = map (fun a =>
               ObservationRecord.make
                 (StudentActivity.studentId a) (StudentActivity.studentName a)
                 (StudentActivity.activityContent a)
                 (lit "[변환 실패: "
                  ++ Vendor.vendorLabel (Plugin.apiProvider settings)
                  ++ lit " API 오류: "
                  ++ numberToString (statusOf (Answers.requestOf settings a target))
                  ++ lit "]")
                 0 0)
            activities
      /\ Plugin.errorCount st = len' activities).
Proof.
  intros Hknown. split; [|split].
  - intros a w0 w1 r Hrequest Hstatus. by apply generate_refused.
  - intros a w0 w1 e Hrequest. by rewrite generate_request, Hrequest.
  - intros Hanswers Hrefused. cbv zeta.
    set (errorOf := fun a =>
           Plugin.JsError
             (Vendor.vendorLabel (Plugin.apiProvider settings)
              ++ lit " API 오류: "
              ++ numberToString (statusOf (Answers.requestOf settings a target)))).
    assert (Hall : forall a w0, exists w1,
               Plugin.generate (Vendor.host net) settings a target w0
               = (Plugin.Throw (errorOf a), w1)).
    { intros a w0.
      destruct (Hanswers (Answers.requestOf settings a target) w0)
        as (r & w1 & Hrequest & Hstatus).
      exists w1. unfold errorOf. rewrite <- Hstatus.
      apply (generate_refused net settings a target w0 w1 r Hknown Hrequest).
      rewrite Hstatus. apply Hrefused. }
    destruct (eachCallFails_always (Vendor.host net) settings target errorOf Hall
                activities w) as (w' & Hfail).
    destruct (convertAll_each_call_fails (Vendor.host net) settings target activities
                w w' _ Hfail) as (_ & Hrecords & Hcount & _).
    split; [|exact Hcount].
    rewrite Hrecords, placeholders_map. apply map_ext. intros a.
    unfold Batch.placeholder, errorOf, Batch.placeholderText.
    by rewrite <- !app_assoc.
Qed.

Lemma refused_requests_name_the_status_witness :
  map ObservationRecord.observation
    (Plugin.records
       (Plugin.convertAll (Vendor.host Answers.refusingNet) Sample.settings
          Sample.twoActivities 500 0%nat))
  = [lit "[변환 실패: OpenAI API 오류: 204]"; lit "[변환 실패: OpenAI API 오류: 204]"].
Proof.
  destruct (refused_requests_name_the_status Answers.refusingNet Sample.settings
              Sample.twoActivities 500 0%nat
              (fun request =>
                 if streq (Vendor.url request)
                      (lit "https://api.openai.com/v1/chat/completions")
                 then 204 else 302) eq_refl) as (_ & _ & Hbatch).
  destruct Hbatch as [Hrecords _].
  - intros request w0. eexists _, _. split; reflexivity.
  - intros request. destruct (streq _ _); discriminate.
  - rewrite Hrecords. vm_compute. reflexivity.
Defined.

(** **** Extra X14.
    When [requestUrl] returns an answer with status 200 whose JSON body
    holds a string at the place of the configured vendor
    ([choices[0].message.content] for OpenAI and Grok, [content[0].text]
    for Claude, [candidates[0].content.parts[0].text] for Gemini), the
    vendor call returns exactly that string trimmed; when the body holds
    there a value that is not a string, the call throws.  Every
    observation a call returns is a trimmed text, and every observation
    of every record of the loop, a returned text or a failure
    placeholder, has no white space at its start or end. *)
Theorem observations_are_trimmed (net : Vendor.Net) (settings : Plugin.Settings)
    (activities : list StudentActivity.t) (target : Z) (w : Vendor.NetWorld net) :
  (forall a w0 w1 r j v,
      Vendor.knownProvider (Plugin.apiProvider settings) = true ->
      Vendor.requestUrl net (Answers.requestOf settings a target) w0
      = (Plugin.Normal r, w1) ->
      Vendor.status r = 200 ->
      Vendor.json_ r = Plugin.Normal j ->
      Answers.lookupPath (Answers.contentPath (Plugin.apiProvider settings)) j
      = Some v ->
      match v with
      | Vendor.JString content =>
        Plugin.generate (Vendor.host net) settings a target w0
        = (Plugin.Normal (trim content), w1)
      | _ =>
        exists e, Plugin.generate (Vendor.host net) settings a target w0
                  = (Plugin.Throw e, w1)
      end)
  /\ (forall a w0 w1 obs,
         Plugin.generate (Vendor.host net) settings a target w0
         = (Plugin.Normal obs, w1) ->
         exists content, obs = trim content)
  /\ Forall (fun r => trim (ObservationRecord.observation r)
                      = ObservationRecord.observation r)
       (Plugin.records (Plugin.convertAll (Vendor.host net) settings activities target w)).
Proof.
  split; [|split].
  - intros a w0 w1 r j v Hknown Hrequest Hstatus Hjson Hpath.
    rewrite (generate_answered net settings a target w0 w1 r j v) by assumption.
    destruct v; cbn [Vendor.callTrim]; try reflexivity; by eexists.
  - intros a w0 w1 obs. apply generate_trimmed.
  - destruct (convertAll_invariant (Vendor.host net) settings target activities w)
      as (_ & Hrows & _ & _).
    induction Hrows as [|a r ? ? Hrow _ IH]; constructor; [|exact IH].
    destruct Hrow as [(obs & w0 & w1 & Hgen & ->)|(e & w0 & w1 & _ & ->)].
    + cbn [ObservationRecord.observation].
      destruct (generate_trimmed net settings a target w0 w1 obs Hgen) as (content & ->).
      apply trim_idempotent.
    + cbn [ObservationRecord.observation]. destruct e; [apply failureText_trimmed|].
      change (Plugin.errorText Plugin.NotAnError) with (lit "알 수 없는 오류").
      apply failureText_trimmed.
Qed.

Lemma observations_are_trimmed_witness :
  Plugin.generate
    (Vendor.host (Facts.answeringNet (Vendor.JString (lit "  성실히 참여함. "))))
    Sample.settings (hd Spec.emptyActivity Sample.twoActivities) 500 0%nat
  = (Plugin.Normal (lit "성실히 참여함."), 1%nat).
Proof.
  apply (proj1 (observations_are_trimmed
                  (Facts.answeringNet (Vendor.JString (lit "  성실히 참여함. ")))
                  Sample.settings Sample.twoActivities 500 0%nat)
           (hd Spec.emptyActivity Sample.twoActivities) 0%nat 1%nat
           {| Vendor.status := 200;
              Vendor.json_ :=
                Plugin.Normal
                  (Facts.chatAnswer (Vendor.JString (lit "  성실히 참여함. "))) |}
           (Facts.chatAnswer (Vendor.JString (lit "  성실히 참여함. ")))
           (Vendor.JString (lit "  성실히 참여함. ")));
    reflexivity.
Defined.

(* ===================================================================== *)
(** ** The progress dialog during a conversion                            *)
(* ===================================================================== *)

Lemma replay_app (l1 l2 : list Plugin.event) :
  ProgressModal.replay (l1 ++ l2)
  = fold_left ProgressModal.step l2 (ProgressModal.replay l1).
Proof. unfold ProgressModal.replay. apply fold_left_app. Qed.

Lemma step_pause (m : ProgressModal.t) (activities : list StudentActivity.t) (i : nat) :
  fold_left ProgressModal.step (Facts.pauseAt activities i) m = m.
Proof. unfold Facts.pauseAt. by destruct (Z.of_nat i <? len' activities - 1). Qed.

Lemma namedOnly_snoc (names : list jsstring) (name : jsstring) :
  map ProgressModal.completedTag (Facts.namedOnly (names ++ [name]))
  = map ProgressModal.completedTag (Facts.namedOnly names)
    ++ match name with [] => [] | _ => [ProgressModal.completedTag name] end.
Proof.
  unfold Facts.namedOnly. rewrite List.filter_app, map_app. f_equal.
  by destruct name.
Qed.

(** After [updateProgress] the tag that is due is the one of the row just
    announced. *)
Lemma withPreviousTag_update (current total : Z) (name : jsstring)
    (m : ProgressModal.t) :
  ProgressModal.opened m = true ->
  ProgressModal.withPreviousTag (ProgressModal.updateProgress current total name m)
  = ProgressModal.withPreviousTag m
    ++ match name with [] => [] | _ => [ProgressModal.completedTag name] end.
Proof.
  intros Hopen. unfold ProgressModal.withPreviousTag at 1.
  cbn [ProgressModal.updateProgress ProgressModal.previousStudentName
       ProgressModal.studentList ProgressModal.opened].
  rewrite Hopen. destruct name; [by rewrite app_nil_r | reflexivity].
Qed.

Section ProgressDuringConversion.
Import Plugin.
Variable h : Host.
Variable settings : Settings.
Variable target : Z.

Lemma convertAll_progress (activities : list StudentActivity.t) (w : World h) :
  let st := convertAll h settings activities target w in
  let m := ProgressModal.replay (log st) in
  uncaught st = None
  /\ ProgressModal.opened m = true
  /\ ProgressModal.withPreviousTag m
     = map ProgressModal.completedTag
         (Facts.namedOnly (map StudentActivity.studentName activities))
  /\ (activities <> [] ->
      ProgressModal.currentIndex m = len' activities
      /\ ProgressModal.totalCount m = len' activities
      /\ ProgressModal.statusText m = lit "✅ 변환 완료! 결과를 저장하고 있습니다...").
Proof.
  cbv zeta. unfold convertAll.
  set (Inv := fun (pre : list StudentActivity.t) (st : loopState (World h)) =>
              uncaught st = None
              /\ ProgressModal.opened (ProgressModal.replay (log st)) = true
              /\ ProgressModal.withPreviousTag (ProgressModal.replay (log st))
                 = map ProgressModal.completedTag
                     (Facts.namedOnly (map StudentActivity.studentName pre))
              /\ (pre <> [] ->
                  ProgressModal.currentIndex (ProgressModal.replay (log st)) = len' pre
                  /\ ProgressModal.totalCount (ProgressModal.replay (log st))
                     = len' activities
                  /\ (len' pre = len' activities ->
                      ProgressModal.statusText (ProgressModal.replay (log st))
                      = lit "✅ 변환 완료! 결과를 저장하고 있습니다..."))).
  assert (Hfinal : Inv activities
                     (for_upto (length activities)
                        (convert_body h settings activities target)
                        (LoopState [] 0 w [OpenProgress] None))).
  { apply (for_upto_invariant activities _ Inv).
    - unfold Inv. split; [reflexivity|]. split; [reflexivity|].
      split; [reflexivity|]. intros Hne. congruence.
    - intros pre a suf st Hxs (Hnone & Hopen & Htags & _).
      assert (Hstep :
                convert_body h settings activities target (length pre) st
                = convert_body h settings (pre ++ a :: suf) target (length pre) st)
        by (by rewrite <- Hxs).
      rewrite convert_body_step in Hstep by assumption. rewrite <- Hxs in Hstep.
      assert (Hreplay :
                ProgressModal.replay
                  (log (convert_body h settings activities target (length pre) st))
                = ProgressModal.updateProgress (Z.of_nat (length pre) + 1)
                    (len' activities) (StudentActivity.studentName a)
                    (ProgressModal.replay (log st))).
      { rewrite Hstep.
        destruct (generate h settings a target (world st)) as [[observation|error] w1];
          cbn [log]; rewrite !replay_app; cbn [fold_left ProgressModal.step];
          rewrite ?fold_left_app, step_pause; reflexivity. }
      assert (Huncaught :
                uncaught (convert_body h settings activities target (length pre) st)
                = None).
      { rewrite Hstep.
        by destruct (generate h settings a target (world st)) as [[observation|error] w1]. }
      unfold Inv. rewrite Hreplay. split; [exact Huncaught|]. split; [exact Hopen|]. split.
      + rewrite withPreviousTag_update, Htags, map_app by assumption.
        cbn [map]. by rewrite namedOnly_snoc.
      + intros _. unfold len'. rewrite length_app. cbn [length].
        cbn [ProgressModal.updateProgress ProgressModal.currentIndex
             ProgressModal.totalCount ProgressModal.statusText].
        rewrite Hopen. split; [lia|]. split; [reflexivity|].
        intros Hlen.
        destruct (Z.eqb_spec (Z.of_nat (length pre) + 1)
                    (Z.of_nat (length activities))); [reflexivity | lia]. }
  destruct Hfinal as (Hnone & Hopen & Htags & Hstatus).
  split; [exact Hnone|]. split; [exact Hopen|]. split; [exact Htags|].
  intros Hne. destruct (Hstatus Hne) as (Hc & Ht & Hs).
  split; [exact Hc|]. split; [exact Ht|]. apply Hs. reflexivity.
Qed.

End ProgressDuringConversion.

(** **** Extra X15.
    When the conversion has run and [markLastStudentComplete] has been
    called, the list of completed students in the progress dialog shows
    "✓ name" once for every row with a non-empty name, in input order; a
    row without a name is not listed.  For a batch of at least one row the
    dialog then stands at N of N and its status line says that the
    conversion is complete. *)
Theorem progress_dialog_lists_named_rows (h : Plugin.Host)
    (settings : Plugin.Settings) (activities : list StudentActivity.t)
    (target : Z) (w : Plugin.World h) :
  let m := ProgressModal.replay
             (Plugin.log (Plugin.convertAll h settings activities target w)
              ++ [Plugin.MarkLastStudentComplete]) in
  ProgressModal.studentList m
  = map ProgressModal.completedTag
      (Facts.namedOnly (map StudentActivity.studentName activities))
  /\ (activities <> [] ->
      ProgressModal.currentIndex m = len' activities
      /\ ProgressModal.totalCount m = len' activities
      /\ ProgressModal.statusText m = lit "✅ 변환 완료! 결과를 저장하고 있습니다...").
Proof.
  cbv zeta. rewrite replay_app. cbn [fold_left ProgressModal.step].
  destruct (convertAll_progress h settings target activities w)
    as (_ & _ & Htags & Hstatus).
  split; [exact Htags | exact Hstatus].
Qed.

Lemma progress_dialog_lists_named_rows_witness :
  ProgressModal.statusText
    (ProgressModal.replay
       (Plugin.log (Plugin.convertAll Sample.failingHost Sample.settings
                      Sample.twoActivities 500 tt)
        ++ [Plugin.MarkLastStudentComplete]))
  = lit "✅ 변환 완료! 결과를 저장하고 있습니다...".
Proof.
  apply (progress_dialog_lists_named_rows Sample.failingHost Sample.settings
           Sample.twoActivities 500 tt). discriminate.
Defined.

(* ===================================================================== *)
(** ** The input dialog: the preview and the target field                 *)
(* ===================================================================== *)

Lemma previewRow_one_line (a : StudentActivity.t) :
  Facts.cleanParsed a -> Facts.occurrences LF (InputModal.previewRow a) = 1.
Proof.
  intros ([_ Hid] & [_ Hname] & [_ Hcontent]). unfold InputModal.previewRow.
  rewrite !occurrences_app.
  rewrite (occurrences_none LF (StudentActivity.studentId a)),
    (occurrences_none LF (StudentActivity.studentName a)),
    (occurrences_none LF (take 50 (StudentActivity.activityContent a))).
  - reflexivity.
  - intros Hin.
    assert (Hin' : In LF (StudentActivity.activityContent a)).
    { rewrite <- (firstn_skipn 50 (StudentActivity.activityContent a)).
      apply in_or_app. by left. }
    by destruct (noTabOrNewline_chars _ _ Hcontent Hin').
  - intros Hin. by destruct (noTabOrNewline_chars _ _ Hname Hin).
  - intros Hin. by destruct (noTabOrNewline_chars _ _ Hid Hin).
Qed.

Lemma preview_rows_lines (rows : list StudentActivity.t) (preview : jsstring) :
  Forall Facts.cleanParsed rows ->
  Facts.occurrences LF
    (for_of rows (fun preview activity => preview ++ InputModal.previewRow activity)
       preview)
  = Facts.occurrences LF preview + len' rows.
Proof.
  intros Hrows. revert preview.
  induction Hrows as [|a rows Ha _ IH]; intros preview.
  - unfold len'. cbn. lia.
  - unfold for_of in *. cbn [fold_left]. rewrite IH, occurrences_app.
    rewrite previewRow_one_line by exact Ha. unfold len'. cbn [length]. lia.
Qed.

(** **** Extra X16.
    The preview of the input dialog: when [parseTSV] finds no row it is
    the fixed text that asks for the three-column format; otherwise it is
    a header line, an empty line, one line for each of the first five
    rows and, only when there are more than five rows, one more line, so
    that no field of a row breaks a line of the preview. *)
Theorem preview_one_line_per_row (inputData : jsstring) :
  (Main.parseTSV inputData = [] ->
   InputModal.updatePreview inputData
   = lit "유효한 데이터가 없습니다. 형식: 학번 탭 이름 탭 활동내용")
  /\ (Main.parseTSV inputData <> [] ->
      Facts.occurrences LF (InputModal.updatePreview inputData)
      = 2 + Z.min (len' (Main.parseTSV inputData)) 5
        + (if 5 <? len' (Main.parseTSV inputData) then 1 else 0)).
Proof.
  unfold InputModal.updatePreview. cbv zeta. split.
  - by intros ->.
  - intros Hne.
    assert (Hclean : Forall Facts.cleanParsed (Main.parseTSV inputData)).
    { rewrite parseTSV_lines. apply parseLines_fields_clean, split_fields_no_sep. }
    assert (Hpos : 0 < len' (Main.parseTSV inputData)).
    { unfold len'. destruct (Main.parseTSV inputData); [congruence | cbn [length]; lia]. }
    destruct (Z.eqb_spec (len' (Main.parseTSV inputData)) 0) as [Hz|_]; [lia|].
    assert (Hrows :
              Facts.occurrences LF
                (for_of (take 5 (Main.parseTSV inputData))
                   (fun preview activity => preview ++ InputModal.previewRow activity)
                   (lit "총 " ++ numberToString (len' (Main.parseTSV inputData))
                    ++ lit "명의 학생 데이터:" ++ [LF; LF]))
              = 2 + Z.min (len' (Main.parseTSV inputData)) 5).
    { rewrite preview_rows_lines by (by apply Forall_take).
      rewrite !occurrences_app, numberToString_no_newline.
      unfold len'. rewrite length_take.
      change (Facts.occurrences LF (lit "총 ")) with 0.
      change (Facts.occurrences LF (lit "명의 학생 데이터:")) with 0.
      change (Facts.occurrences LF [LF; LF]) with 2. lia. }
    destruct (5 <? len' (Main.parseTSV inputData)).
    + rewrite !occurrences_app, Hrows, numberToString_no_newline.
      change (Facts.occurrences LF [LF]) with 1.
      change (Facts.occurrences LF (lit "... 외 ")) with 0.
      change (Facts.occurrences LF (lit "명")) with 0. lia.
    + rewrite Hrows. lia.
Qed.

Lemma preview_one_line_per_row_witness :
  Facts.occurrences LF (InputModal.updatePreview Sample.twoRows) = 4.
Proof.
  destruct (preview_one_line_per_row Sample.twoRows) as [_ Hlines].
  rewrite Hlines; [reflexivity | discriminate].
Defined.

(** **** [parseInt] on what [String] prints. *)

Ltac read_digit :=
  cbn [NilEmpty.string_of_uint bytes_of_string Builtins.leadingDigits];
  match goal with
  | |- context [Builtins.digitOf ?c] =>
    let v := eval vm_compute in (Builtins.digitOf c) in
    change (Builtins.digitOf c) with v
  end;
  cbv iota beta;
  match goal with
  | |- context [?k <? 10] => change (k <? 10) with true
  end;
  cbv iota.

Lemma uint_value_acc (d : Decimal.uint) (acc : positive) :
  fold_left (fun acc d => acc * 10 + d)
    (Builtins.leadingDigits 10 (bytes_of_string (NilEmpty.string_of_uint d)))
    (Z.pos acc)
  = Z.pos (Pos.of_uint_acc d acc).
Proof.
  revert acc. induction d; intros acc; [reflexivity|..]; read_digit;
    cbn [fold_left Pos.of_uint_acc]; rewrite <- IHd;
    apply (f_equal (fold_left _ _)); lia.
Qed.

Lemma uint_value (d : Decimal.uint) :
  Builtins.valueOfDigits 10
    (Builtins.leadingDigits 10 (bytes_of_string (NilEmpty.string_of_uint d)))
  = Z.of_N (Pos.of_uint d).
Proof.
  unfold Builtins.valueOfDigits.
  induction d; [reflexivity|..]; read_digit; cbn [fold_left Pos.of_uint];
    [exact IHd|..]; cbn [Z.of_N]; rewrite <- uint_value_acc; reflexivity.
Qed.

Lemma uint_decimal (d : Decimal.uint) :
  forallb (fun c => (0x30 <=? c) && (c <=? 0x39))
    (bytes_of_string (NilEmpty.string_of_uint d)) = true.
Proof.
  induction d; cbn [NilEmpty.string_of_uint bytes_of_string forallb];
    rewrite ?IHd; reflexivity.
Qed.

(** A text of decimal digits, alone and after a minus sign. *)
Lemma parseInt_decimal (s : jsstring) :
  s <> [] ->
  forallb (fun c => (0x30 <=? c) && (c <=? 0x39)) s = true ->
  Builtins.parseInt s
  = Some (Builtins.valueOfDigits 10 (Builtins.leadingDigits 10 s))
  /\ Builtins.parseInt (0x2D :: s)
     = Some (- Builtins.valueOfDigits 10 (Builtins.leadingDigits 10 s)).
Proof.
  intros Hne Hall. destruct s as [|c0 r]; [congruence|].
  cbn [forallb] in Hall. apply andb_true_iff in Hall as [Hc0 Hr].
  apply andb_true_iff in Hc0 as [Hlo Hhi]. apply Z.leb_le in Hlo, Hhi.
  assert (Hws : isWhiteSpace c0 = false).
  { apply isNumeric_not_whitespace. unfold Spec.isNumeric.
    apply orb_true_iff. right. apply andb_true_iff. by rewrite !Z.leb_le. }
  assert (Hhex : match c0 :: r with
                 | c0 :: c1 :: _ => (c0 =? 0x30) && ((c1 =? 0x78) || (c1 =? 0x58))
                 | _ => false
                 end = false).
  { destruct r as [|c1 r]; [reflexivity|].
    cbn [forallb] in Hr. apply andb_true_iff in Hr as [Hc1 _].
    apply andb_true_iff in Hc1 as [Hlo1 Hhi1]. apply Z.leb_le in Hlo1, Hhi1.
    destruct (Z.eqb_spec c1 0x78); [lia|]. destruct (Z.eqb_spec c1 0x58); [lia|].
    apply andb_false_r. }
  assert (Hdigits : exists d ds, Builtins.leadingDigits 10 (c0 :: r) = d :: ds).
  { cbn [Builtins.leadingDigits]. unfold Builtins.digitOf.
    destruct (Z.leb_spec 0x30 c0); [|lia]. destruct (Z.leb_spec c0 0x39); [|lia].
    cbn [andb]. destruct (Z.ltb_spec (c0 - 0x30) 10); [|lia]. eauto. }
  destruct Hdigits as (d & ds & Hdigits).
  split; unfold Builtins.parseInt; cbv zeta.
  - rewrite trimStart_fixed by exact Hws.
    destruct (Z.eqb_spec c0 0x2D); [lia|]. destruct (Z.eqb_spec c0 0x2B); [lia|].
    cbn [orb]. rewrite Hhex. cbv iota. rewrite Hdigits. f_equal; lia.
  - rewrite trimStart_fixed by reflexivity.
    change (0x2D =? 0x2D) with true. cbn [orb]. cbv iota.
    rewrite Hhex. cbv iota. rewrite Hdigits. f_equal; lia.
Qed.

Lemma parseInt_numberToString (n : Z) :
  Builtins.parseInt (numberToString n) = Some n.
Proof.
  unfold numberToString.
  assert (Hascii : lit (NilZero.string_of_int (Z.to_int n))
                   = bytes_of_string (NilZero.string_of_int (Z.to_int n))).
  { apply lit_ascii. destruct (int_digits (Z.to_int n)) as [Hall _].
    rewrite forallb_forall in *. intros c Hc. apply isNumeric_ascii. auto. }
  rewrite Hascii. rewrite <- (DecimalZ.of_to n) at 2.
  assert (Huint : forall u,
             bytes_of_string (NilZero.string_of_uint u) <> []
             /\ forallb (fun c => (0x30 <=? c) && (c <=? 0x39))
                  (bytes_of_string (NilZero.string_of_uint u)) = true
             /\ Builtins.valueOfDigits 10
                  (Builtins.leadingDigits 10
                     (bytes_of_string (NilZero.string_of_uint u)))
                = Z.of_uint u).
  { intros u. unfold Z.of_uint. rewrite <- uint_value.
    destruct u; (split; [discriminate|]); (split; [|reflexivity]);
      try reflexivity; exact (uint_decimal (_ u)). }
  destruct (Z.to_int n) as [u|u]; cbn [NilZero.string_of_int Z.of_int bytes_of_string];
    destruct (Huint u) as (Hne & Hall & <-);
    destruct (parseInt_decimal _ Hne Hall) as [Hpos Hneg]; assumption.
Qed.

(** **** Extra X17.
    The target field of the input dialog is filled with
    [String(targetCharCount)] and read with [parseInt]: an integer that a
    Number holds exactly is read back as itself from its printed form, so
    the handler takes a positive one as the new target and keeps the old
    target otherwise.  Whatever text is typed, a positive target stays
    positive. *)
Theorem target_field_round_trip (n target : Z) :
  - 2 ^ 53 < n < 2 ^ 53 ->
  0 < target ->
  Builtins.parseInt (numberToString n) = Some n
  /\ InputModal.onTargetChange (numberToString n) target
     = (if 0 <? n then n else target)
  /\ (forall value, 0 < InputModal.onTargetChange value target).
Proof.
  intros _ Htarget. split; [apply parseInt_numberToString|]. split.
  - unfold InputModal.onTargetChange. by rewrite parseInt_numberToString.
  - intros value. unfold InputModal.onTargetChange.
    destruct (Builtins.parseInt value) as [num|]; [|exact Htarget].
    destruct (Z.ltb_spec 0 num); [assumption | exact Htarget].
Qed.

Lemma target_field_round_trip_witness :
  InputModal.onTargetChange (numberToString 500) 300 = 500.
Proof.
  destruct (target_field_round_trip 500 300) as (_ & Hchange & _);
    [lia | lia | exact Hchange].
Defined.

(* ===================================================================== *)
(** ** The older table of [part_000]                                      *)
(* ===================================================================== *)

Lemma part000_tableRow_one_line (r : Part000Table.ObservationRecord) :
  ~ In LF (Part000Table.studentId r) ->
  ~ In LF (Part000Table.studentName r) ->
  Facts.occurrences LF (Part000Table.tableRow r) = 1.
Proof.
  intros Hid Hname. unfold Part000Table.tableRow. cbv zeta.
  rewrite !occurrences_app, !numberToString_no_newline.
  rewrite (occurrences_none LF (Part000Table.studentId r)) by exact Hid.
  rewrite (occurrences_none LF (Part000Table.studentName r)) by exact Hname.
  rewrite (occurrences_none LF (Main.escapeCell _)) by apply escapeCell_shape.
  reflexivity.
Qed.

(** **** Extra X18.
    The table of [part_000], which has no activity column, is its two
    header lines followed by one row per record in input order, and it
    has exactly one line per record whenever no studentId and no
    studentName holds a newline, whatever the observations hold. *)
Theorem part000_table_one_line_per_record
    (records : list Part000Table.ObservationRecord) :
  Forall (fun r => ~ In LF (Part000Table.studentId r)
                   /\ ~ In LF (Part000Table.studentName r)) records ->
  Part000Table.generateMarkdownTable records
  = Part000Table.tableHeader ++ Part000Table.tableRule
    ++ concat (map Part000Table.tableRow records)
  /\ Facts.occurrences LF (Part000Table.generateMarkdownTable records)
     = len' records + 2.
Proof.
  intros Hall.
  assert (Hrows : Part000Table.generateMarkdownTable records
                  = Part000Table.tableHeader ++ Part000Table.tableRule
                    ++ concat (map Part000Table.tableRow records)).
  { unfold Part000Table.generateMarkdownTable. cbv zeta.
    by rewrite for_of_append, <- app_assoc. }
  split; [exact Hrows|]. rewrite Hrows, !occurrences_app. clear Hrows.
  change (Facts.occurrences LF Part000Table.tableHeader) with 1.
  change (Facts.occurrences LF Part000Table.tableRule) with 1.
  enough (Facts.occurrences LF (concat (map Part000Table.tableRow records))
          = len' records) by lia.
  unfold len'. induction Hall as [|r records [Hid Hname] _ IH]; [reflexivity|].
  cbn [map concat length].
  rewrite occurrences_app, IH, part000_tableRow_one_line by assumption. lia.
Qed.

Lemma part000_table_one_line_per_record_witness :
  Facts.occurrences LF (Part000Table.generateMarkdownTable Part000Table.twoRecords) = 4.
Proof.
  apply (part000_table_one_line_per_record Part000Table.twoRecords).
  constructor; [|constructor; [|constructor]]; split; vm_compute; intuition discriminate.
Defined.
